(** * bedrock-web-optical-scanner: the CameraScanner session controller

    A shallow embedding of [lib/camera-scanner.js].  The source file holds two
    listings of the [CameraScanner] class: the first one (called [V1] below)
    with [scanOnce], [scanContinuous] and [scanFile]; the second one (called
    [V2]) with [scan], [startContinuous] and the per-format result formatters.

    Modelling conventions.
    - JavaScript objects become records; an absent property is [None].
    - Time is a virtual clock in milliseconds ([Z]); [Date.now()] reads it and
      a timer armed with [setTimeout] fires when the clock reaches its due
      time.
    - The collaborators the class does not own (the OpticalScanner plugins,
      the camera utilities, the abort controller) are given as an environment:
      what each call settles with and after how long.
    - [async] functions are run to completion on the virtual clock; a call
      whose awaited promise never settles is [Hang]. *)

From Stdlib Require Import ZArith List String Ascii Bool Lia QArith Qminmax.
Import ListNotations.
Local Open Scope string_scope.
Local Open Scope Z_scope.

(* ================================================================== *)
(** ** JavaScript string primitives used by the class *)

(** [s.includes(sub)] *)
Fixpoint includes (s sub : string) : bool :=
  if String.prefix sub s then true
  else match s with
       | EmptyString => false
       | String _ s' => includes s' sub
       end.

Definition lower_ascii (c : ascii) : ascii :=
  let n := nat_of_ascii c in
  if andb (Nat.leb 65 n) (Nat.leb n 90) then ascii_of_nat (n + 32) else c.

(** [s.toLowerCase()] on ASCII text *)
Fixpoint toLowerCase (s : string) : string :=
  match s with
  | EmptyString => EmptyString
  | String c s' => String (lower_ascii c) (toLowerCase s')
  end.

(** [arr.includes(x)] on an array of strings *)
Definition arr_includes (arr : list string) (x : string) : bool :=
  existsb (String.eqb x) arr.

(** [type.split('/')[1]] for a MIME type written [major/minor] *)
Fixpoint before_slash (s : string) : string :=
  match s with
  | EmptyString => EmptyString
  | String c s' => if Ascii.eqb c "/"%char then EmptyString else String c (before_slash s')
  end.

Fixpoint after_slash (s : string) : string :=
  match s with
  | EmptyString => EmptyString
  | String c s' => if Ascii.eqb c "/"%char then before_slash s' else after_slash s'
  end.

(** A word between double quotes, for messages that quote option values. *)
Definition quoted (s : string) : string :=
  String (ascii_of_nat 34) (s ++ String (ascii_of_nat 34) EmptyString).

(** [arr.join(', ')] *)
Fixpoint join (sep : string) (l : list string) : string :=
  match l with
  | [] => EmptyString
  | [x] => x
  | x :: rest => x ++ sep ++ join sep rest
  end.

(* ================================================================== *)
(** ** Errors, promises and the virtual clock *)

(** A thrown value: the two properties the class inspects. *)
Record JsError := mkError { err_name : string; err_message : string }.

(** [new Error(msg)] *)
Definition Error (msg : string) : JsError := mkError "Error" msg.

(** How a promise settles. *)
Inductive Settled (A : Type) :=
| Resolved (a : A)
| Rejected (e : JsError).
Arguments Resolved {A} a.
Arguments Rejected {A} e.

(** What an awaited collaborator does: it settles [after] milliseconds, or
    never settles. *)
Inductive Behaviour (A : Type) :=
| Settles (after : Z) (r : Settled A)
| Never.
Arguments Settles {A} after r.
Arguments Never {A}.

(** [Promise.race([p, timer])] where [timer] rejects with [new Error(msg)]
    after [timeoutMs]; the timer takes part only when [timeoutMs > 0].
    [p] is first in the array and wins when both are due at the same
    millisecond.  The timer is the ideal one: it fires after exactly
    [timeoutMs].  The platform's [setTimeout] does so for delays up to
    2147483647 ms only and fires at once for larger ones; the delays the
    class itself chooses are all far below that. *)
Definition race_timeout {A} (p : Behaviour A) (timeoutMs : Z) (msg : string)
  : Behaviour A :=
  if 0 <? timeoutMs then
    match p with
    | Settles d r => if d <=? timeoutMs then Settles d r
                     else Settles timeoutMs (Rejected (Error msg))
    | Never => Settles timeoutMs (Rejected (Error msg))
    end
  else p.

(** An [AbortSignal]: the time at which its controller calls
    [abort(reason)], if it ever does, and the reason it passes, an error
    object; [abortReason] is [None] when [abort()] is called without one. *)
Record AbortSignal := mkAbortSignal {
  abortAt : option Z;
  abortReason : option JsError
}.

(** A signal whose controller calls [abort()] without a reason. *)
Definition mkSignal (at_time : option Z) : AbortSignal := mkAbortSignal at_time None.

Definition aborted (sig : AbortSignal) (now : Z) : bool :=
  match abortAt sig with
  | Some t => t <=? now
  | None => false
  end.

(** [signal.reason] of a signal aborted without a reason: the platform's
    AbortError. *)
Definition AbortError : JsError := mkError "AbortError" "signal is aborted without reason".

(** [signal.reason], which is what [signal.throwIfAborted()] throws. *)
Definition signalReason (sig : option AbortSignal) : JsError :=
  match sig with
  | Some sg =>
    match abortReason sg with
    | Some reason => reason
    | None => AbortError
    end
  | None => AbortError
  end.

(** A timer armed with [setTimeout]. *)
Record Timer := mkTimer { timer_id : nat; timer_due : Z }.

(** One request handed to [OpticalScanner.scan] (or [scanContinuous]). *)
Record ScanRequest := mkRequest {
  req_source : string;
  req_formats : list string;
  req_mode : string;
  req_signal : option AbortSignal
}.

(** The world outside the session object. *)
Record World := mkWorld {
  now : Z;                         (* Date.now() *)
  timers : list Timer;             (* armed, not yet fired or cleared *)
  nextTimer : nat;
  scanLog : list ScanRequest;      (* calls made to the OpticalScanner, oldest first *)
  stoppedTracks : list nat;        (* media tracks on which stop() was called *)
  clearedVideos : list nat;        (* video elements whose srcObject was set to null *)
  dom : list (nat * list nat)      (* children of each DOM element, by element id *)
}.

(** [setTimeout(callback, delay)]: the id of the new timer and the world
    with the timer armed, due [delay] milliseconds from now (an ideal timer,
    as in [race_timeout]: exact for delays up to 2147483647 ms). *)
Definition setTimeout (delay : Z) (w : World) : nat * World :=
  (nextTimer w,
   mkWorld (now w) (mkTimer (nextTimer w) (now w + Z.max 0 delay) :: timers w)
           (S (nextTimer w)) (scanLog w) (stoppedTracks w) (clearedVideos w) (dom w)).

Definition clearTimeout (id : nat) (w : World) : World :=
  mkWorld (now w) (filter (fun t => negb (Nat.eqb (timer_id t) id)) (timers w))
          (nextTimer w) (scanLog w) (stoppedTracks w) (clearedVideos w) (dom w).

(** The clock moves forward by [d]; timers that came due have fired. *)
Definition elapse (d : Z) (w : World) : World :=
  let t := now w + Z.max 0 d in
  mkWorld t (filter (fun tm => t <? timer_due tm) (timers w))
          (nextTimer w) (scanLog w) (stoppedTracks w) (clearedVideos w) (dom w).

Definition logScan (r : ScanRequest) (w : World) : World :=
  mkWorld (now w) (timers w) (nextTimer w) (scanLog w ++ [r])
          (stoppedTracks w) (clearedVideos w) (dom w).

Definition timer_armed (id : nat) (w : World) : bool :=
  existsb (fun t => Nat.eqb (timer_id t) id) (timers w).

Definition stopTracks (tracks : list nat) (w : World) : World :=
  mkWorld (now w) (timers w) (nextTimer w) (scanLog w)
          (stoppedTracks w ++ tracks) (clearedVideos w) (dom w).

Definition clearVideo (video : nat) (w : World) : World :=
  mkWorld (now w) (timers w) (nextTimer w) (scanLog w)
          (stoppedTracks w) (clearedVideos w ++ [video]) (dom w).

Definition children (el : nat) (w : World) : list nat :=
  match find (fun p => Nat.eqb (fst p) el) (dom w) with
  | Some p => snd p
  | None => []
  end.

Definition setChildren (el : nat) (kids : list nat) (w : World) : World :=
  mkWorld (now w) (timers w) (nextTimer w) (scanLog w) (stoppedTracks w)
          (clearedVideos w)
          ((el, kids) :: filter (fun p => negb (Nat.eqb (fst p) el)) (dom w)).

(** How a call of an [async] method ends. *)
Inductive Completion (A : Type) :=
| Returns (a : A)
| Throws (e : JsError).
Arguments Returns {A} a.
Arguments Throws {A} e.

(** A run of an [async] method on the virtual clock: it completes, or it
    waits for ever on a promise that never settles, or the loop bound of the
    model was too small to decide. *)
Inductive Run (S A : Type) :=
| Done (r : Completion A) (s : S) (w : World)
| Hang (s : S) (w : World)
| OutOfFuel.
Arguments Done {S A} r s w.
Arguments Hang {S A} s w.
Arguments OutOfFuel {S A}.

(** A message built from a template literal with one interpolated number;
    interpolated durations are kept in milliseconds (the source prints them
    in seconds). *)
Inductive Text :=
| Lit (s : string)
| Fmt (before : string) (n : Z) (after : string).

(* ================================================================== *)
(** ** Scanner results (the shape OpticalScanner hands back) *)

Record Validation := mkValidation { overallStatus : option string }.

Record MrzData := mkMrzData {
  md_fields : list (string * string);
  md_validation : option Validation;
  md_invalidFields : option (list string)
}.

Record MrzRaw := mkMrzRaw {
  raw_data : option MrzData;
  raw_validation : option Validation;
  raw_invalidFields : option (list string)
}.

Record DriverLicense := mkDL { dl_raw : option string; dl_fields : list (string * string) }.

Record DetectionObj := mkDetection {
  det_text : option string;
  det_rawValue : option string;
  det_driverLicense : option DriverLicense
}.

(** An element of [result.data]: a bare string or a detection object. *)
Inductive DataItem :=
| ItemString (s : string)
| ItemObject (o : DetectionObj).

Record ScanResult := mkResult {
  res_format : string;
  res_data : list DataItem;
  res_text : option string;
  res_rawData : option (list MrzRaw);
  res_driverLicense : option DriverLicense;
  res_fields : option (list (string * string));
  res_confidence : option Z;
  res_boundingBox : option (Z * Z * Z * Z)
}.

(** JavaScript truthiness of an optional string: [undefined] and [''] are falsy. *)
Definition truthy (o : option string) : option string :=
  match o with
  | Some EmptyString => None
  | other => other
  end.

(** [a || b] on optional values where every present value is truthy
    (objects and arrays). *)
Definition or_else {A} (a b : option A) : option A :=
  match a with
  | Some _ => a
  | None => b
  end.

(* ================================================================== *)
(** ** Data shared by both listings of the class *)

Record Config := mkConfig {
  scanType : string;               (* 'mrz' or 'barcode' *)
  scanMode : string;               (* 'first', 'all' or 'exhaustive' *)
  licenseKey : string;
  targetContainer : option nat     (* DOM element for the MRZ native UI *)
}.

Record ScannerConfig := mkScannerConfig { sc_container : option nat }.

Record MrzOptions := mkMrzOptions {
  mrz_licenseKey : string;
  mrzMode : string;                (* 'camera', 'element' or 'file' *)
  scannerConfig : option ScannerConfig
}.

Record Pdf417Options := mkPdf417Options {
  pdf_licenseKey : string;
  useDynamsoft : bool;
  parseDL : bool
}.

Record PluginOptions := mkPluginOptions {
  opt_mrz : option MrzOptions;
  opt_pdf417_enhanced : option Pdf417Options
}.

(** The low-level scanner as the class sees it: the formats its plugins
    registered, and whether it offers a [scanContinuous] method. *)
Record OpticalScanner := mkOpticalScanner {
  getSupportedFormats : list string;
  has_scanContinuous : bool
}.

Record MediaStream := mkStream { stream_id : nat; getTracks : list nat }.

Record VideoElement := mkVideo {
  video_id : nat;
  readyState : Z;
  videoWidth : Z;
  videoHeight : Z
}.

(** The [container] argument of [start]: missing, something that is not an
    [HTMLElement], or a DOM element. *)
Inductive ContainerArg :=
| NoContainer
| NotAnElement
| Element (id : nat).

(** The session object. *)
Record CameraScanner := mkScanner {
  config : Config;
  _stream : option MediaStream;
  _videoElement : option VideoElement;
  _opticalScanner : OpticalScanner;
  _isScanning : bool;
  _pluginOptions : PluginOptions
}.

Definition set_stream (st : option MediaStream) (s : CameraScanner) : CameraScanner :=
  mkScanner (config s) st (_videoElement s) (_opticalScanner s) (_isScanning s)
            (_pluginOptions s).

Definition set_videoElement (v : option VideoElement) (s : CameraScanner) : CameraScanner :=
  mkScanner (config s) (_stream s) v (_opticalScanner s) (_isScanning s)
            (_pluginOptions s).

Definition set_isScanning (b : bool) (s : CameraScanner) : CameraScanner :=
  mkScanner (config s) (_stream s) (_videoElement s) (_opticalScanner s) b
            (_pluginOptions s).

Definition set_pluginOptions (p : PluginOptions) (s : CameraScanner) : CameraScanner :=
  mkScanner (config s) (_stream s) (_videoElement s) (_opticalScanner s)
            (_isScanning s) p.

(** [this._stream && this._videoElement] *)
Definition cameraStarted (s : CameraScanner) : bool :=
  match _stream s, _videoElement s with
  | Some _, Some _ => true
  | _, _ => false
  end.

(** [this._pluginOptions?.mrz?.mrzMode === 'camera'] *)
Definition isMrzCameraMode (s : CameraScanner) : bool :=
  match opt_mrz (_pluginOptions s) with
  | Some m => String.eqb (mrzMode m) "camera"
  | None => false
  end.

(** What the camera utilities and the OpticalScanner do when called. *)
Record Env := mkEnv {
  (* cameraUtils.startCameraStream(constraints) *)
  startCameraStream : Behaviour MediaStream;
  (* cameraUtils.createVideoElement(stream, ...) *)
  createVideoElement : MediaStream -> Behaviour VideoElement;
  (* OpticalScanner.scan: by the number of calls made before, the request
     and the clock at the call *)
  os_scan : nat -> ScanRequest -> Z -> Behaviour (list ScanResult);
  (* OpticalScanner.scanContinuous, when the scanner has one *)
  os_scanContinuous : ScanRequest -> Z -> Behaviour (list ScanResult)
}.

(** [stop()]: identical in both listings. *)
Definition stop (s : CameraScanner) (w : World) : CameraScanner * World :=
  let w1 := match _stream s with
            | Some st => stopTracks (getTracks st) w
            | None => w
            end in
  let w2 := match _videoElement s with
            | Some v => clearVideo (video_id v) w1
            | None => w1
            end in
  (mkScanner (config s) None None (_opticalScanner s) false (_pluginOptions s), w2).

(** The object [start] returns. *)
Record SetupStatus := mkSetupStatus {
  dbg_stream : bool;
  dbg_video : bool;
  dbg_videoReady : bool;
  dbg_videoSize : Z * Z;
  dbg_containerStrategy : string;
  dbg_containerChildren : nat;
  dbg_pluginsConfigured : nat
}.

Record StartOutcome := mkStartOutcome {
  st_success : bool;
  st_videoReady : option bool;
  st_scanType : string;
  st_strategy : option string;
  st_mrzMode : option string;
  st_formats : option (list string);
  st_videoInfo : option (Z * Z * Z);
  st_message : option string;
  st_error : option string;
  st_code : option string;
  st_details : option string;
  st_debug : option SetupStatus
}.

(** The early return of [start] when the camera is already running. *)
Definition alreadyActive (s : CameraScanner) : StartOutcome :=
  mkStartOutcome true (Some true) (scanType (config s)) None None None None
                 (Some "Camera already active") None None None None.

Definition startFailure (s : CameraScanner) (userMessage errorCode : string)
  (e : JsError) : StartOutcome :=
  mkStartOutcome false None (scanType (config s)) None None None None None
                 (Some userMessage) (Some errorCode) (Some (err_message e)) None.

(** [Object.keys(this._pluginOptions).length] *)
Definition pluginsConfigured (p : PluginOptions) : nat :=
  ((match opt_mrz p with Some _ => 1 | None => 0 end) +
   (match opt_pdf417_enhanced p with Some _ => 1 | None => 0 end))%nat.

(** Options of [scanOnce], [scanContinuous], [scanFile] and [scan]. *)
Record ScanOptions := mkOptions {
  o_formats : option (list string);
  o_mode : option string;
  o_timeoutMs : option Z;
  o_signal : option AbortSignal;
  o_interval : option Z;
  o_maxAttempts : option Z;
  o_processAll : option bool
}.

Definition noOptions : ScanOptions :=
  mkOptions None None None None None None None.

(** The same options with [signal] replaced. *)
Definition with_signal (sig : option AbortSignal) (o : ScanOptions) : ScanOptions :=
  mkOptions (o_formats o) (o_mode o) (o_timeoutMs o) sig (o_interval o)
            (o_maxAttempts o) (o_processAll o).

(** [signal?.throwIfAborted()]: [true] when it throws; what it throws is
    [signalReason]. *)
Definition throwIfAborted (sig : option AbortSignal) (w : World) : bool :=
  match sig with
  | Some sg => aborted sg (now w)
  | None => false
  end.

(** [result.data[0]?.text || result.data] *)
Definition firstText (data : list DataItem) : string + list DataItem :=
  match data with
  | ItemObject o :: _ =>
    match truthy (det_text o) with
    | Some t => inl t
    | None => inr data
    end
  | _ => inr data
  end.

(** [options.mode || fallback] *)
Definition modeOr (o : option string) (fallback : string) : string :=
  match truthy o with
  | Some m => m
  | None => fallback
  end.

Definition optOr {A} (o : option A) (fallback : A) : A :=
  match o with
  | Some a => a
  | None => fallback
  end.

(** [error.message || fallback] *)
Definition messageOr (e : JsError) (fallback : string) : string :=
  if String.eqb (err_message e) EmptyString then fallback else err_message e.

(** A call that ran up to its first [await]: it has already completed, or it
    is suspended with its local variables [l]. *)
Inductive Entered (S L A : Type) :=
| Finished (r : Completion A) (s : S) (w : World)
| Awaiting (l : L) (s : S) (w : World).
Arguments Finished {S L A} r s w.
Arguments Awaiting {S L A} l s w.

Definition cameraNotStarted : JsError :=
  Error "Camera not started. Call start() first.".

(** The two string literals are joined without a space in [scanOnce]. *)
Definition scanInProgressOnce : JsError :=
  Error "Scan already in progress.Wait for current scan to complete.".

Definition scanInProgress : JsError :=
  Error "Scan already in progress. Wait for current scan to complete.".

(** [if(scanTimeout) clearTimeout(scanTimeout)] *)
Definition clearIfArmed (t : option nat) (w : World) : World :=
  match t with
  | Some id => clearTimeout id w
  | None => w
  end.

(** Elapsed milliseconds since [scanStartTime]. *)
Definition elapsedSince (start : option Z) (w : World) : Z :=
  match start with
  | Some t => now w - t
  | None => 0
  end.

(** How the [try] block of a method ends. *)
Inductive BodyExit (A L : Type) :=
| BReturn (a : A) (l : L) (w : World)
| BThrow (e : JsError) (l : L) (w : World)
| BHang (w : World)
| BFuel.
Arguments BReturn {A L} a l w.
Arguments BThrow {A L} e l w.
Arguments BHang {A L} w.
Arguments BFuel {A L}.

(* ================================================================== *)
(** ** Camera controls: what the camera utilities report and do *)

Definition set_config (c : Config) (s : CameraScanner) : CameraScanner :=
  mkScanner c (_stream s) (_videoElement s) (_opticalScanner s) (_isScanning s)
            (_pluginOptions s).

(** [capabilities.zoomRange]: either bound may be missing. *)
Record ZoomRange := mkZoomRange { zr_min : option Q; zr_max : option Q }.

(** The object [cameraUtils.getCameraCapabilities(stream)] returns. *)
Record Capabilities := mkCapabilities {
  cap_zoom : bool;
  cap_torch : bool;
  cap_zoomRange : option ZoomRange
}.

(** [{zoom: false, torch: false, zoomRange: null}] *)
Definition noCapabilities : Capabilities := mkCapabilities false false None.

(** The constraint object handed to [cameraUtils.applyCameraConstraints]. *)
Inductive CameraConstraint :=
| TorchConstraint (on : bool)
| ZoomConstraint (level : Q).

(** An entry of [cameraUtils.getCameraList()]. *)
Record CameraInfo := mkCameraInfo { deviceId : string; label : string }.

(** The camera utilities the control methods call.  [cu_stopCameraStream]
    is the effect of [cameraUtils.stopCameraStream(stream)] on the world;
    [cu_openDevice] is [cameraUtils.startCameraStream(constraints)] with
    [constraints.video.deviceId = {exact: deviceId}]; [videoLoads] tells when
    the video element's [loadedmetadata] event (resolved) or [error] event
    (rejected) arrives after its [srcObject] was replaced; [showNumber] is
    the decimal rendering of a number in a template literal. *)
Record CameraUtils := mkCameraUtils {
  cu_getCameraCapabilities : MediaStream -> Completion Capabilities;
  cu_applyCameraConstraints : MediaStream -> CameraConstraint -> Behaviour unit;
  cu_getCameraList : Behaviour (list CameraInfo);
  cu_stopCameraStream : MediaStream -> World -> World;
  cu_openDevice : string -> Behaviour MediaStream;
  videoLoads : VideoElement -> MediaStream -> Behaviour unit;
  showNumber : Q -> string
}.




(** The promise [switchCamera] builds around the video element's events and
    a ten-second timer that is never cleared: the [error] event rejects with
    a fixed message. *)
Definition videoSwitched (events : Behaviour unit) : Behaviour unit :=
  race_timeout
    (match events with
     | Settles d (Rejected _) =>
       Settles d (Rejected (Error "Failed to load new camera stream"))
     | other => other
     end)
    10000 "Camera switch timeout".

(* ================================================================== *)
(** ** First listing: configuration, [start], [scanOnce], [scanContinuous],
    [scanFile] *)

Module V1.

Record ScanConfig := mkScanConfig {
  formats : list string;
  useContinuousScanning : bool;
  preferredMode : string
}.

(** [_getScanConfig()] *)
Definition _getScanConfig (s : CameraScanner) : Completion ScanConfig :=
  let t := scanType (config s) in
  if String.eqb t "mrz" then
    Returns (mkScanConfig ["mrz"] false "first")
  else if String.eqb t "barcode" then
    Returns (mkScanConfig ["qr_code"; "pdf417_enhanced"; "pdf417"] true
                          (scanMode (config s)))
  else Throws (Error ("Unknown scan type: " ++ t)).

(** [_getFileScanFormats()] *)
Definition _getFileScanFormats (s : CameraScanner) : Completion (list string) :=
  let t := scanType (config s) in
  if String.eqb t "mrz" then Returns ["mrz"]
  else if String.eqb t "barcode" then Returns ["qr_code"; "pdf417"; "pdf417_enhanced"]
  else Throws (Error ("Unknown scan type: " ++ t)).

Record EnhancedFeatures := mkFeatures {
  hasLicense : bool;
  feat_mrz : bool;
  enhancedPDF417 : bool;
  dynamsoft : bool
}.

(** [!!this.config.licenseKey] *)
Definition licensed (s : CameraScanner) : bool :=
  negb (String.eqb (licenseKey (config s)) EmptyString).

(** [getEnhancedFeatures()] *)
Definition getEnhancedFeatures (s : CameraScanner) : EnhancedFeatures :=
  let supported := getSupportedFormats (_opticalScanner s) in
  mkFeatures (licensed s)
             (licensed s && arr_includes supported "mrz")
             (licensed s && arr_includes supported "pdf417_enhanced")
             (licensed s).

(** [_buildPluginOptions()] *)
Definition _buildPluginOptions (s : CameraScanner) : PluginOptions :=
  if negb (licensed s) then mkPluginOptions None None
  else
    let supported := getSupportedFormats (_opticalScanner s) in
    let key := licenseKey (config s) in
    mkPluginOptions
      (if arr_includes supported "mrz" then
         Some (mkMrzOptions key
                 (if String.eqb (scanType (config s)) "mrz" then "camera" else "element")
                 (Some (mkScannerConfig (targetContainer (config s)))))
       else None)
      (if arr_includes supported "pdf417_enhanced" then
         Some (mkPdf417Options key true true)
       else None).

(** [_validateConfiguration()]: the available formats, or the error thrown. *)
Definition _validateConfiguration (s : CameraScanner) : Completion (list string) :=
  match _getScanConfig s with
  | Throws e => Throws e
  | Returns scanConfig =>
    if arr_includes (formats scanConfig) "mrz" && negb (feat_mrz (getEnhancedFeatures s)) then
      if negb (licensed s) then
        Throws (Error "MRZ scanning requires a valid Dynamsoft license key")
      else
        Throws (Error "MRZ scanning is not available- check license key validity")
    else
      let supported := getSupportedFormats (_opticalScanner s) in
      let availableFormats := filter (arr_includes supported) (formats scanConfig) in
      if (List.length availableFormats =? 0)%nat then
        (* the template literal breaks the line after the colon *)
        Throws (Error ("No supported formats available for scan type: "
                       ++ String (ascii_of_nat 10)
                            ("        " ++ scanType (config s))))
      else Returns availableFormats
  end.

(** The constructor: validates the two enumerated options, builds the plugin
    options and validates the configuration. *)
Definition construct (cfg : Config) (os : OpticalScanner) : Completion CameraScanner :=
  if negb (arr_includes ["mrz"; "barcode"] (scanType cfg)) then
    Throws (Error ("scanType must be " ++ quoted "mrz" ++ " or " ++ quoted "barcode"))
  else if negb (arr_includes ["first"; "all"; "exhaustive"] (scanMode cfg)) then
    Throws (Error ("scanMode must be " ++ quoted "first" ++ ", " ++ quoted "all"
                   ++ ", or " ++ quoted "exhaustive"))
  else
    let s0 := mkScanner cfg None None os false (mkPluginOptions None None) in
    let s1 := set_pluginOptions (_buildPluginOptions s0) s0 in
    match _validateConfiguration s1 with
    | Throws e => Throws e
    | Returns _ => Returns s1
    end.

(** The classification in the [catch] block of [start]. *)
Definition classifyStartError (e : JsError) : string * string :=
  if String.eqb (err_name e) "NotAllowedError" then
    ("Camera permission denied. Please allow camera access and try again.",
     "CAMERA_PERMISSION_DENIED")
  else if String.eqb (err_name e) "NotFoundError" then
    ("No camera found. Please connect a camera and try again.", "NO_CAMERA_FOUND")
  else if includes (err_message e) "timeout" then
    ("Camera initialization timed out. Please try again.", "CAMERA_TIMEOUT")
  else if includes (err_message e) "Container" then
    ("Invalid container provided for camera display.", "INVALID_CONTAINER")
  else ("Failed to start camera", "CAMERA_START_ERROR").

(** The [catch] block of [start]: clean up, then report. *)
Definition start_catch (e : JsError) (s : CameraScanner) (w : World)
  : Run CameraScanner StartOutcome :=
  let '(s', w') := stop s w in
  let '(userMessage, errorCode) := classifyStartError e in
  Done (Returns (startFailure s' userMessage errorCode e)) s' w'.

(** Steps 2 to 5 of [start], once stream and video element exist. *)
Definition start_setup (container : nat) (video : VideoElement)
  (s : CameraScanner) (w : World) : Run CameraScanner StartOutcome :=
  match _getScanConfig s with
  | Throws e => start_catch e s w
  | Returns _ =>
    let mrzPluginMode :=
      if String.eqb (scanType (config s)) "mrz" then
        match opt_mrz (_pluginOptions s) with
        | Some m => Some (mrzMode m)
        | None => None
        end
      else None in
    let containerStrategy :=
      match mrzPluginMode with
      | Some m => if String.eqb m "camera" then "dynamsoft_native" else "video_insertion"
      | None => "video_insertion"
      end in
    (* container.innerHTML = '' *)
    let w1 := setChildren container [] w in
    let finish (s' : CameraScanner) (w' : World) :=
      let status := mkSetupStatus
        (match _stream s' with Some _ => true | None => false end)
        true (2 <=? readyState video) (videoWidth video, videoHeight video)
        containerStrategy (List.length (children container w'))
        (pluginsConfigured (_pluginOptions s')) in
      Done (Returns (mkStartOutcome true (Some (2 <=? readyState video))
                       (scanType (config s')) (Some containerStrategy) mrzPluginMode
                       None None
                       (Some ("Camera ready for " ++ scanType (config s') ++ " scanning"))
                       None None None (Some status))) s' w' in
    if String.eqb containerStrategy "video_insertion" then
      (* container.appendChild(this._videoElement) *)
      finish s (setChildren container (children container w1 ++ [video_id video]) w1)
    else
      match opt_mrz (_pluginOptions s) with
      | Some m =>
        match scannerConfig m with
        | Some _ =>
          let m' := mkMrzOptions (mrz_licenseKey m) (mrzMode m)
                                 (Some (mkScannerConfig (Some container))) in
          finish (set_pluginOptions
                    (mkPluginOptions (Some m') (opt_pdf417_enhanced (_pluginOptions s))) s)
                 w1
        | None =>
          start_catch (Error "MRZ plugin configuration invalid - missing scannerConfig") s w1
        end
      | None =>
        start_catch (Error "MRZ plugin configuration invalid - missing scannerConfig") s w1
      end
  end.

(** [start(container)] *)
Definition start (env : Env) (container : ContainerArg) (s : CameraScanner)
  (w : World) : Run CameraScanner StartOutcome :=
  match container with
  | NoContainer =>
    Done (Throws (Error "Container element is required for CameraScanner.start()")) s w
  | NotAnElement =>
    Done (Throws (Error "Container must be a valid DOM element")) s w
  | Element c =>
    if cameraStarted s then Done (Returns (alreadyActive s)) s w
    else
      match startCameraStream env with
      | Never => Hang s w
      | Settles d (Rejected e) => start_catch e s (elapse d w)
      | Settles d (Resolved stream) =>
        let s1 := set_stream (Some stream) s in
        let w1 := snd (setTimeout 10000 (elapse d w)) in
        match race_timeout (createVideoElement env stream) 10000 "Video load timeout" with
        | Never => Hang s1 w1
        | Settles d2 (Rejected e) => start_catch e s1 (elapse d2 w1)
        | Settles d2 (Resolved video) =>
          start_setup c video (set_videoElement (Some video) s1) (elapse d2 w1)
        end
      end
  end.

(** *** Results of the scan methods *)

Record Payload := mkPayload {
  p_format : string;
  p_type : string;
  p_text : string + list DataItem;   (* result.data[0]?.text || result.data *)
  p_rawData : list DataItem;
  p_confidence : option Z;
  p_boundingBox : option (Z * Z * Z * Z);
  p_timestamp : Z
}.

Record FileInfo := mkFileInfo {
  fi_name : string;
  fi_size : Z;
  fi_type : string;
  fi_processedIndex : nat
}.

(** The object a scan method resolves with.  [duration] and
    [processingTime] are kept in milliseconds (the source prints seconds
    with one decimal); [cancelled] is [false] where the property is absent. *)
Record Outcome := mkOutcome {
  success : bool;
  out_scanType : string;
  error : option Text;
  code : option string;
  message : option string;
  cancelled : bool;
  attempts : option Z;
  duration : option Z;
  payload : option Payload;
  file : option FileInfo;
  processingTime : option Z;
  filesProcessed : option nat
}.

Definition failure (s : CameraScanner) (err : Text) (c : option string) : Outcome :=
  mkOutcome false (scanType (config s)) (Some err) c None false None None None None
            None None.

(** [FORMAT_TO_HTML5QRCODE_MAP[detectedFormat] || detectedFormat], for a
    detected format that is the format name of a plugin (not the name of an
    [Object.prototype] property, which the lookup on the object literal
    would find). *)
Definition html5QrcodeType (detectedFormat : string) : string :=
  if String.eqb detectedFormat "qr_code" then "QR_CODE"
  else if String.eqb detectedFormat "pdf417" then "PDF_417"
  else if String.eqb detectedFormat "pdf417_enhanced" then "PDF_417"
  else if String.eqb detectedFormat "mrz" then "MRZ"
  else detectedFormat.

(** [_formatScanResult(results, detectedFormat)]; a missing [results] is
    treated by the guard like the empty array. *)
Definition _formatScanResult (s : CameraScanner) (w : World)
  (results : list ScanResult) (detectedFormat : string) : Outcome :=
  match results with
  | [] => failure s (Lit "No results to format") None
  | result :: _ =>
    mkOutcome true (scanType (config s)) None None None false None None
      (Some (mkPayload detectedFormat (html5QrcodeType detectedFormat)
               (firstText (res_data result)) (res_data result)
               (res_confidence result) (res_boundingBox result) (now w)))
      None None None
  end.

(** [_getTimeoutConfig(formats)]: [(scanTimeout, minScanTime)] *)
Definition _getTimeoutConfig (s : CameraScanner) (fmts : list string) : Z * Z :=
  if arr_includes fmts "mrz" then
    if isMrzCameraMode s then (0, 0) else (30000, 1500)
  else if arr_includes fmts "pdf417_enhanced" then (20000, 1500)
  else (10000, 1500).

(** [_getContinuousConfig().interval] *)
Definition continuousInterval : Z := 2500.

(** [_getFileTimeoutConfig(formats).scanTimeout] *)
Definition _getFileTimeoutConfig (fmts : list string) : Z :=
  if arr_includes fmts "mrz" then 60000
  else if arr_includes fmts "pdf417_enhanced" then 30000
  else 20000.

(** [_buildFilePluginOptions()] *)
Definition _buildFilePluginOptions (s : CameraScanner) : PluginOptions :=
  if negb (licensed s) then mkPluginOptions None None
  else
    let supported := getSupportedFormats (_opticalScanner s) in
    mkPluginOptions
      (if arr_includes supported "mrz"
       then Some (mkMrzOptions (licenseKey (config s)) "file" None) else None)
      (if arr_includes supported "pdf417_enhanced"
       then Some (mkPdf417Options (licenseKey (config s)) true true) else None).

(** *** [scanOnce] *)

(** Local variables of a suspended [scanOnce]. *)
Record OnceLocals := mkOnceLocals {
  l_finalFormats : list string;
  l_timeoutMs : Z;
  l_minScanTime : Z;
  l_scanStartTime : option Z;
  l_scanTimeout : option nat;        (* id of the armed timeout timer *)
  l_scanSucceeded : bool;
  l_mrzCamera : bool;                (* suspended in the MRZ camera branch *)
  l_pending : Behaviour (list ScanResult)   (* the scan promise awaited *)
}.

(** The [catch] block of [scanOnce]. *)
Definition scanOnce_catch (e : JsError) (l : OnceLocals) (s : CameraScanner)
  (w : World) : Outcome * World :=
  let w1 := clearIfArmed (l_scanTimeout l) w in
  if String.eqb (err_name e) "AbortError" && l_scanSucceeded l then
    (mkOutcome true (scanType (config s)) None None
       (Some "Scan completed successfully despite cleanup abort")
       false None None None None None None, w1)
  else if String.eqb (err_message e) "SCAN_TIMEOUT" then
    (failure s (Fmt "Scan timed out after " (elapsedSince (l_scanStartTime l) w1)
                    "s- try repositioning or better lighting")
             (Some "SCAN_TIMEOUT"), w1)
  else
    (failure s (Lit (messageOr e "Scan failed")) (Some "SCAN_ERROR"), w1).

(** [catch] then [finally]. *)
Definition scanOnce_fail (e : JsError) (l : OnceLocals) (s : CameraScanner)
  (w : World) : Entered CameraScanner OnceLocals Outcome :=
  let '(o, w1) := scanOnce_catch e l s w in
  Finished (Returns o) (set_isScanning false s) w1.

Definition initialOnceLocals : OnceLocals :=
  mkOnceLocals [] 0 0 None None false false Never.

(** [scanOnce] from its entry to its first [await]. *)
Definition scanOnce_enter (env : Env) (options : ScanOptions) (s : CameraScanner)
  (w : World) : Entered CameraScanner OnceLocals Outcome :=
  if negb (cameraStarted s) then Finished (Throws cameraNotStarted) s w
  else if _isScanning s then Finished (Throws scanInProgressOnce) s w
  else
    let s1 := set_isScanning true s in
    match _getScanConfig s1 with
    | Throws e => scanOnce_fail e initialOnceLocals s1 w
    | Returns scanConfig =>
      let fmts := optOr (o_formats options) (formats scanConfig) in
      let mode := modeOr (o_mode options) (preferredMode scanConfig) in
      match _validateConfiguration s1 with
      | Throws e => scanOnce_fail e initialOnceLocals s1 w
      | Returns availableFormats =>
        let finalFormats := filter (arr_includes availableFormats) fmts in
        if (List.length finalFormats =? 0)%nat then
          scanOnce_fail (Error "No supported formats available for scanning")
                        initialOnceLocals s1 w
        else
          let timeoutConfig := _getTimeoutConfig s1 finalFormats in
          let timeoutMs := optOr (o_timeoutMs options) (fst timeoutConfig) in
          let minScanTime := snd timeoutConfig in
          let scanStartTime := now w in
          if String.eqb (scanType (config s1)) "mrz" && isMrzCameraMode s1 then
            let req := mkRequest "video" ["mrz"] "first" None in
            Awaiting (mkOnceLocals finalFormats timeoutMs minScanTime
                        (Some scanStartTime) None false true
                        (os_scan env (List.length (scanLog w)) req (now w)))
                     s1 (logScan req w)
          else
            let req := mkRequest "video" finalFormats mode None in
            let pending := os_scan env (List.length (scanLog w)) req (now w) in
            let w1 := logScan req w in
            if 0 <? timeoutMs then
              let '(id, w2) := setTimeout timeoutMs w1 in
              Awaiting (mkOnceLocals finalFormats timeoutMs minScanTime
                          (Some scanStartTime) (Some id) false false pending) s1 w2
            else
              Awaiting (mkOnceLocals finalFormats timeoutMs minScanTime
                          (Some scanStartTime) None false false pending) s1 w1
      end
    end.

(** The rest of [scanOnce] after the awaited promise settles; [s] and [w]
    are the session and the world as they are when the call resumes. *)
Definition scanOnce_resume (l : OnceLocals) (s : CameraScanner) (w : World)
  : Run CameraScanner Outcome :=
  let fail e l' w' :=
    let '(o, w1) := scanOnce_catch e l' s w' in
    Done (Returns o) (set_isScanning false s) w1 in
  if l_mrzCamera l then
    match l_pending l with
    | Never => Hang s w
    | Settles d (Rejected e) => fail e l (elapse d w)
    | Settles d (Resolved results) =>
      let w1 := elapse d w in
      Done (Returns (_formatScanResult s w1 results "mrz")) (set_isScanning false s) w1
    end
  else
    match race_timeout (l_pending l) (l_timeoutMs l) "SCAN_TIMEOUT" with
    | Never => Hang s w
    | Settles d (Rejected e) => fail e l (elapse d w)
    | Settles d (Resolved results) =>
      let w1 := elapse d w in
      (* scanSucceeded = (results.length > 0); nothing below can throw *)
      let w2 := clearIfArmed (l_scanTimeout l) w1 in
      let needsMinTime :=
        negb (arr_includes (l_finalFormats l) "mrz") && (0 <? l_minScanTime l) in
      let w3 :=
        if needsMinTime then
          let elapsedTime := elapsedSince (l_scanStartTime l) w2 in
          if elapsedTime <? l_minScanTime l then
            let '(_, w') := setTimeout (l_minScanTime l - elapsedTime) w2 in
            elapse (l_minScanTime l - elapsedTime) w'
          else w2
        else w2 in
      match results with
      | result :: _ =>
        Done (Returns (_formatScanResult s w3 results (res_format result)))
             (set_isScanning false s) w3
      | [] =>
        Done (Returns (failure s (Lit "No optical codes detected in current frame") None))
             (set_isScanning false s) w3
      end
    end.

(** [scanOnce(options)] run to completion with no other call in between. *)
Definition scanOnce (env : Env) (options : ScanOptions) (s : CameraScanner)
  (w : World) : Run CameraScanner Outcome :=
  match scanOnce_enter env options s w with
  | Finished r s' w' => Done r s' w'
  | Awaiting l s' w' => scanOnce_resume l s' w'
  end.

(** *** [scanContinuous] *)

(** Local variables of [scanContinuous] that its [catch] block reads. *)
Record ContLocals := mkContLocals {
  c_scanStartTime : option Z;
  c_scanSucceeded : bool;
  c_attempt : Z
}.

(** [Math.min(interval * 0.8, 5000)]: the per-attempt timeout the loop
    computes.  The product is taken in exact rationals. *)
Definition individualTimeout (interval : Z) : Q :=
  Qmin (inject_Z interval * (8 # 10)) (inject_Z 5000).

Definition cancelledDuringWait : JsError :=
  Error "Scan cancelled during interval wait".

(** The promise awaited between two attempts: a timer of [interval]
    milliseconds, rejected early when [signal] aborts.  The result carries
    the id of the wait timer. *)
Definition intervalWait (interval : Z) (signal : option AbortSignal) (w : World)
  : Settled unit * nat * World :=
  let '(timeoutId, w1) := setTimeout interval w in
  match signal with
  | None => (Resolved tt, timeoutId, elapse interval w1)
  | Some sg =>
    if aborted sg (now w1) then
      (Rejected cancelledDuringWait, timeoutId, clearTimeout timeoutId w1)
    else
      (* the listener is registered; a second timer removes it later *)
      let '(_, w2) := setTimeout interval w1 in
      match abortAt sg with
      | Some t =>
        if t <? now w + Z.max 0 interval then
          (Rejected cancelledDuringWait, timeoutId,
           clearTimeout timeoutId (elapse (t - now w) w2))
        else (Resolved tt, timeoutId, elapse interval w2)
      | None => (Resolved tt, timeoutId, elapse interval w2)
      end
  end.

Definition maxAttemptsReached (s : CameraScanner) (maxAttempts attempt : Z) : Outcome :=
  mkOutcome false (scanType (config s))
            (Some (Fmt "Max attempts reached (" maxAttempts ")"))
            (Some "MAX_ATTEMPTS_REACHED") None false (Some (attempt - 1)) None None
            None None None.

(** The fallback [while(true)] loop.  [fuel] bounds the number of iterations
    the model unfolds. *)
Fixpoint continuousLoop (fuel : nat) (env : Env) (s : CameraScanner)
  (finalFormats : list string) (mode : string) (signal : option AbortSignal)
  (interval : Z) (maxAttempts : option Z) (l : ContLocals) (w : World)
  : BodyExit (option Outcome) ContLocals :=
  match fuel with
  | O => BFuel
  | S fuel' =>
    let attempt := c_attempt l + 1 in
    let l1 := mkContLocals (c_scanStartTime l) (c_scanSucceeded l) attempt in
    if throwIfAborted signal w then BThrow (signalReason signal) l1 w
    else if match maxAttempts with
            | Some m => m <? attempt
            | None => false
            end
    then BReturn (Some (maxAttemptsReached s (optOr maxAttempts 0) attempt)) l1 w
    else
      let _unused := individualTimeout interval in
      let req := mkRequest "video" finalFormats mode signal in
      let next (w' : World) :=
        match intervalWait interval signal w' with
        | (Resolved _, _, w'') =>
          continuousLoop fuel' env s finalFormats mode signal interval maxAttempts l1 w''
        | (Rejected e, _, w'') => BThrow e l1 w''
        end in
      match os_scan env (List.length (scanLog w)) req (now w) with
      | Never => BHang (logScan req w)
      | Settles d (Resolved results) =>
        let w1 := elapse d (logScan req w) in
        match results with
        | result :: _ =>
          BReturn (Some (_formatScanResult s w1 results (res_format result)))
                  (mkContLocals (c_scanStartTime l) true attempt) w1
        | [] => next w1
        end
      | Settles d (Rejected scanError) =>
        let w1 := elapse d (logScan req w) in
        if String.eqb (err_name scanError) "AbortError" then BThrow scanError l1 w1
        else next w1
      end
  end.

(** [scanStartTime ? elapsed : '0'] in milliseconds. *)
Definition durationSince (start : option Z) (w : World) : Z :=
  match start with
  | Some t => if t =? 0 then 0 else now w - t
  | None => 0
  end.

(** The [catch] block of [scanContinuous]. *)
Definition scanContinuous_catch (e : JsError) (l : ContLocals) (s : CameraScanner)
  (w : World) : Outcome :=
  if String.eqb (err_name e) "AbortError" && c_scanSucceeded l then
    mkOutcome true (scanType (config s)) None None
      (Some "Continuous scan completed successfully despite cleanup abort")
      false (Some (c_attempt l)) None None None None None
  else if String.eqb (err_name e) "AbortError" || includes (err_message e) "cancelled" then
    mkOutcome false (scanType (config s)) (Some (Lit "Continuous scan cancelled")) None
      None true (Some (c_attempt l)) (Some (durationSince (c_scanStartTime l) w))
      None None None None
  else
    mkOutcome false (scanType (config s))
      (Some (Lit (messageOr e "Continuous scan failed")))
      (Some "CONTINUOUS_SCAN_ERROR") None false (Some (c_attempt l))
      (Some (durationSince (c_scanStartTime l) w)) None None None None.

(** [options.maxAttempts || null] *)
Definition maxAttemptsOf (options : ScanOptions) : option Z :=
  match o_maxAttempts options with
  | Some m => if m =? 0 then None else Some m
  | None => None
  end.

(** The [try] block of [scanContinuous] after the flag is set and the scan
    type is known to scan continuously. *)
Definition scanContinuous_body (fuel : nat) (env : Env) (options : ScanOptions)
  (scanConfig : ScanConfig) (s : CameraScanner) (w : World)
  : BodyExit (option Outcome) ContLocals :=
  let l0 := mkContLocals None false 0 in
  let signal := o_signal options in
  let fmts := optOr (o_formats options) (formats scanConfig) in
  let mode := modeOr (o_mode options) (preferredMode scanConfig) in
  let maxAttempts := maxAttemptsOf options in
  match _validateConfiguration s with
  | Throws e => BThrow e l0 w
  | Returns availableFormats =>
    let finalFormats := filter (arr_includes availableFormats) fmts in
    if (List.length finalFormats =? 0)%nat then
      BThrow (Error "No supported formats available for scanning") l0 w
    else
      let interval := optOr (o_interval options) continuousInterval in
      let l1 := mkContLocals (Some (now w)) false 0 in
      if throwIfAborted signal w then BThrow (signalReason signal) l1 w
      else if has_scanContinuous (_opticalScanner s) then
        let req := mkRequest "video" finalFormats mode signal in
        match os_scanContinuous env req (now w) with
        | Never => BHang (logScan req w)
        | Settles d (Rejected e) => BThrow e l1 (elapse d (logScan req w))
        | Settles d (Resolved results) =>
          let w1 := elapse d (logScan req w) in
          match results with
          | result :: _ =>
            BReturn (Some (_formatScanResult s w1 results (res_format result)))
                    (mkContLocals (Some (now w)) true 0) w1
          | [] => BReturn None l1 w1      (* falls off the end: undefined *)
          end
        end
      else
        continuousLoop fuel env s finalFormats mode signal interval maxAttempts l1 w
  end.

(** [scanContinuous(options)]; the result is [None] where the method returns
    [undefined]. *)
Definition scanContinuous (fuel : nat) (env : Env) (options : ScanOptions)
  (s : CameraScanner) (w : World) : Run CameraScanner (option Outcome) :=
  if negb (cameraStarted s) then Done (Throws cameraNotStarted) s w
  else if _isScanning s then Done (Throws scanInProgress) s w
  else
    let s1 := set_isScanning true s in
    let finally := set_isScanning false s1 in
    match _getScanConfig s1 with
    | Throws e =>
      Done (Returns (Some (scanContinuous_catch e (mkContLocals None false 0) s1 w)))
           finally w
    | Returns scanConfig =>
      if negb (useContinuousScanning scanConfig) then
        (* return this.scanOnce(options): called while the flag is set; the
           finally block runs before that promise is followed *)
        match scanOnce_enter env options s1 w with
        | Finished (Returns o) s2 w2 => Done (Returns (Some o)) (set_isScanning false s2) w2
        | Finished (Throws e) s2 w2 => Done (Throws e) (set_isScanning false s2) w2
        | Awaiting lo s2 w2 =>
          match scanOnce_resume lo (set_isScanning false s2) w2 with
          | Done (Returns o) s3 w3 => Done (Returns (Some o)) s3 w3
          | Done (Throws e) s3 w3 => Done (Throws e) s3 w3
          | Hang s3 w3 => Hang s3 w3
          | OutOfFuel => OutOfFuel
          end
        end
      else
        match scanContinuous_body fuel env options scanConfig s1 w with
        | BReturn o _ w' => Done (Returns o) finally w'
        | BThrow e l w' => Done (Returns (Some (scanContinuous_catch e l s1 w'))) finally w'
        | BHang w' => Hang s1 w'
        | BFuel => OutOfFuel
        end
    end.

(** *** [scanFile] *)

Record File := mkFile { file_name : string; file_size : Z; file_type : string }.

(** The [files] argument: missing, one [File], or an array of them. *)
Inductive FilesArg :=
| NoFiles
| OneFile (f : File)
| FileArray (fs : list File).

Definition supportedTypes : list string :=
  ["image/jpeg"; "image/jpg"; "image/png"; "image/gif"; "image/bmp"; "image/webp"].

(** [supportedTypes.some(type =>
      file.type.toLowerCase().includes(type.split('/')[1]))] *)
Definition typeSupported (f : File) : bool :=
  existsb (fun type => includes (toLowerCase (file_type f)) (after_slash type))
          supportedTypes.

Record Summary := mkSummary {
  totalFiles : nat;
  processedFiles : nat;
  successfulFiles : option nat;
  failedFiles : option nat;
  totalTime : Z
}.

(** What [scanFile] resolves with: the top-level properties, and for a batch
    the per-file [results] and the [summary]. *)
Record FileScanResult := mkFileScanResult {
  top : Outcome;
  results : option (list Outcome);
  summary : option Summary
}.

Record FileLocals := mkFileLocals {
  f_scanStartTime : option Z;
  f_scanSucceeded : bool;
  f_processedFiles : nat;
  f_allResults : list Outcome
}.

Definition fileInfo (f : File) (index : nat) : FileInfo :=
  mkFileInfo (file_name f) (file_size f) (file_type f) index.

(** [{...formattedResult, file: {...}, processingTime}] *)
Definition enrich (o : Outcome) (f : File) (index : nat) (elapsed : Z) : Outcome :=
  mkOutcome (success o) (out_scanType o) (error o) (code o) (message o)
            (cancelled o) (attempts o) (duration o) (payload o)
            (Some (fileInfo f index)) (Some elapsed) (filesProcessed o).

Definition fileEntry (s : CameraScanner) (err : Text) (c : option string)
  (f : File) (index : nat) : Outcome :=
  mkOutcome false (scanType (config s)) (Some err) c None false None None None
            (Some (fileInfo f index)) None None.

(** The entry built in the per-file [catch] block. *)
Definition fileError (s : CameraScanner) (e : JsError) (timeoutMs : Z) (f : File)
  (index : nat) : Outcome :=
  if String.eqb (err_message e) "FILE_SCAN_TIMEOUT" then
    fileEntry s (Fmt "File scan timed out after " timeoutMs "s") (Some "FILE_SCAN_TIMEOUT")
              f index
  else
    fileEntry s (Lit ("File scanning failed: " ++ err_message e)) (Some "FILE_SCAN_ERROR")
              f index.

(** The [for(const file of fileArray)] loop. *)
Fixpoint fileLoop (env : Env) (s : CameraScanner) (finalFormats : list string)
  (mode : string) (signal : option AbortSignal) (processAll : bool) (timeoutMs : Z)
  (files : list File) (l : FileLocals) (w : World)
  : BodyExit (option Outcome) FileLocals :=
  match files with
  | [] => BReturn None l w            (* loop finished without an early return *)
  | f :: rest =>
    let index := S (f_processedFiles l) in
    let l1 := mkFileLocals (f_scanStartTime l) (f_scanSucceeded l) index (f_allResults l) in
    if throwIfAborted signal w then BThrow (signalReason signal) l1 w
    else
      let req := mkRequest (file_name f) finalFormats mode signal in
      let pending := os_scan env (List.length (scanLog w)) req (now w) in
      let w1 := logScan req w in
      let '(fileTimeout, w2) :=
        if 0 <? timeoutMs then
          let '(id, w') := setTimeout timeoutMs w1 in (Some id, w')
        else (None, w1) in
      let continue l' w' :=
        fileLoop env s finalFormats mode signal processAll timeoutMs rest l' w' in
      let push (o : Outcome) (l' : FileLocals) :=
        mkFileLocals (f_scanStartTime l') (f_scanSucceeded l') (f_processedFiles l')
                     (f_allResults l' ++ [o]) in
      match race_timeout pending timeoutMs "FILE_SCAN_TIMEOUT" with
      | Never => BHang w2
      | Settles d (Rejected e) =>
        let w3 := clearIfArmed fileTimeout (elapse d w2) in
        if String.eqb (err_name e) "AbortError" then BThrow e l1 w3
        else if processAll then continue (push (fileError s e timeoutMs f index) l1) w3
        else continue l1 w3
      | Settles d (Resolved fileResults) =>
        let w3 := clearIfArmed fileTimeout (elapse d w2) in
        match fileResults with
        | result :: _ =>
          let l2 := mkFileLocals (f_scanStartTime l) true index (f_allResults l) in
          let enrichedResult :=
            enrich (_formatScanResult s w3 fileResults (res_format result)) f index
                   (elapsedSince (f_scanStartTime l) w3) in
          if processAll then continue (push enrichedResult l2) w3
          else BReturn (Some enrichedResult) l2 w3
        | [] =>
          if processAll then
            continue (push (fileEntry s (Lit "No optical codes detected in file") None
                                      f index) l1) w3
          else continue l1 w3
        end
      end
  end.

(** [allResults.filter(r => r.success !== false).length] *)
Definition successCount (allResults : list Outcome) : nat :=
  List.length (filter success allResults).

(** The [catch] block of [scanFile]. *)
Definition scanFile_catch (e : JsError) (l : FileLocals) (s : CameraScanner)
  (w : World) : FileScanResult :=
  if String.eqb (err_name e) "AbortError" && f_scanSucceeded l then
    mkFileScanResult
      (mkOutcome true (scanType (config s)) None None
         (Some "File scan completed successfully despite cleanup abort")
         false None None None None None (Some (f_processedFiles l)))
      None None
  else if String.eqb (err_name e) "AbortError" || includes (err_message e) "cancelled" then
    mkFileScanResult
      (mkOutcome false (scanType (config s)) (Some (Lit "File scanning cancelled")) None
         None true None (Some (durationSince (f_scanStartTime l) w)) None None None
         (Some (f_processedFiles l)))
      None None
  else
    mkFileScanResult
      (mkOutcome false (scanType (config s))
         (Some (Lit (messageOr e "File scanning failed"))) (Some "FILE_SCAN_ERROR")
         None false None (Some (durationSince (f_scanStartTime l) w)) None None None
         (Some (f_processedFiles l)))
      None None.

(** The [try] block of [scanFile]. *)
Definition scanFile_body (env : Env) (fileArray : list File) (options : ScanOptions)
  (s : CameraScanner) (w : World) : BodyExit FileScanResult FileLocals :=
  let l0 := mkFileLocals None false 0 [] in
  let signal := o_signal options in
  let processAll := optOr (o_processAll options) false in
  match _getScanConfig s with
  | Throws e => BThrow e l0 w
  | Returns scanConfig =>
    match (match o_formats options with
           | Some fmts => Returns fmts
           | None => _getFileScanFormats s
           end) with
    | Throws e => BThrow e l0 w
    | Returns fmts =>
      let mode := modeOr (o_mode options) (preferredMode scanConfig) in
      match _validateConfiguration s with
      | Throws e => BThrow e l0 w
      | Returns availableFormats =>
        let finalFormats := filter (arr_includes availableFormats) fmts in
        if (List.length finalFormats =? 0)%nat then
          BThrow (Error "No supported formats available for file scanning") l0 w
        else
          let timeoutMs := optOr (o_timeoutMs options) (_getFileTimeoutConfig finalFormats) in
          let l1 := mkFileLocals (Some (now w)) false 0 [] in
          if throwIfAborted signal w then BThrow (signalReason signal) l1 w
          else
            match fileLoop env s finalFormats mode signal processAll timeoutMs
                           fileArray l1 w with
            | BReturn (Some enrichedResult) l w' =>
              BReturn (mkFileScanResult enrichedResult None None) l w'
            | BReturn None l w' =>
              let totalElapsed := elapsedSince (f_scanStartTime l) w' in
              if processAll then
                let n := successCount (f_allResults l) in
                BReturn
                  (mkFileScanResult
                     (mkOutcome (0 <? n)%nat (scanType (config s)) None None None false
                                None None None None None None)
                     (Some (f_allResults l))
                     (Some (mkSummary (List.length fileArray) (f_processedFiles l)
                                      (Some n)
                                      (Some (List.length (f_allResults l) - n)%nat)
                                      totalElapsed)))
                  l w'
              else
                BReturn
                  (mkFileScanResult
                     (failure s (Fmt "No optical codes found in any of the "
                                     (Z.of_nat (f_processedFiles l)) " processed files")
                              (Some "NO_RESULTS_IN_FILES"))
                     None
                     (Some (mkSummary (List.length fileArray) (f_processedFiles l)
                                      None None totalElapsed)))
                  l w'
            | BThrow e l w' => BThrow e l w'
            | BHang w' => BHang w'
            | BFuel => BFuel
            end
      end
    end
  end.

(** [scanFile(files, options)] *)
Definition scanFile (env : Env) (files : FilesArg) (options : ScanOptions)
  (s : CameraScanner) (w : World) : Run CameraScanner FileScanResult :=
  match files with
  | NoFiles => Done (Throws (Error "No files provided for scanning")) s w
  | _ =>
    let fileArray := match files with
                     | FileArray fs => fs
                     | OneFile f => [f]
                     | NoFiles => []
                     end in
    if (List.length fileArray =? 0)%nat then
      Done (Throws (Error "No files provided for scanning")) s w
    else
      let invalidFiles := filter (fun f => negb (typeSupported f)) fileArray in
      if (0 <? List.length invalidFiles)%nat then
        Done (Throws (Error ("Unsupported file types: "
                             ++ join ", " (map file_name invalidFiles)))) s w
      else
        match scanFile_body env fileArray options s w with
        | BReturn r _ w' => Done (Returns r) s w'
        | BThrow e l w' => Done (Returns (scanFile_catch e l s w')) s w'
        | BHang w' => Hang s w'
        | BFuel => OutOfFuel
        end
  end.

(** *** Configuration access: [updateConfig], [getConfig], [getScanConfig] *)

(** The [newConfig] argument of [updateConfig]: each known property is given
    or left out. *)
Record ConfigUpdate := mkUpdate {
  new_scanType : option string;
  new_scanMode : option string;
  new_licenseKey : option string;
  new_targetContainer : option (option nat)
}.

(** [getConfig()]: a copy of the configuration. *)
Definition getConfig (s : CameraScanner) : Config := config s.

(** A whole configuration object passed as [newConfig]. *)
Definition asUpdate (c : Config) : ConfigUpdate :=
  mkUpdate (Some (scanType c)) (Some (scanMode c)) (Some (licenseKey c))
           (Some (targetContainer c)).

(** [newConfig.key !== old]: a property left out is [undefined] and differs
    from every string. *)
Definition differs (given : option string) (old : string) : bool :=
  match given with
  | Some v => negb (String.eqb v old)
  | None => true
  end.

(** [_rebuildPluginOptions()] *)
Definition _rebuildPluginOptions (s : CameraScanner) : CameraScanner :=
  set_pluginOptions (_buildPluginOptions s) s.

(** [updateConfig(newConfig)] *)
Definition updateConfig (newConfig : ConfigUpdate) (s : CameraScanner) : CameraScanner :=
  let oldLicenseKey := licenseKey (config s) in
  let oldScanType := scanType (config s) in
  let s1 :=
    set_config
      (mkConfig (optOr (new_scanType newConfig) (scanType (config s)))
                (optOr (new_scanMode newConfig) (scanMode (config s)))
                (optOr (new_licenseKey newConfig) (licenseKey (config s)))
                (optOr (new_targetContainer newConfig) (targetContainer (config s))))
      s in
  if differs (new_licenseKey newConfig) oldLicenseKey
     || differs (new_scanType newConfig) oldScanType
  then _rebuildPluginOptions s1
  else s1.

(** [_requiresEnhancedFeatures()] *)
Definition _requiresEnhancedFeatures (s : CameraScanner) : Completion bool :=
  match _getScanConfig s with
  | Throws e => Throws e
  | Returns scanConfig =>
    Returns (existsb (arr_includes ["mrz"; "pdf417_enhanced"]) (formats scanConfig))
  end.

(** The object [getScanConfig()] returns. *)
Record ScanConfigInfo := mkScanConfigInfo {
  info_config : ScanConfig;
  availableFormats : list string;
  enhancedFeaturesRequired : bool;
  valid : bool
}.

(** [getScanConfig()] *)
Definition getScanConfig (s : CameraScanner) : Completion ScanConfigInfo :=
  match _getScanConfig s with
  | Throws e => Throws e
  | Returns cfg =>
    let supportedFormats := getSupportedFormats (_opticalScanner s) in
    match _requiresEnhancedFeatures s with
    | Throws e => Throws e
    | Returns required =>
      Returns (mkScanConfigInfo cfg (filter (arr_includes supportedFormats) (formats cfg))
                                required true)
    end
  end.

(** *** Camera controls: [setTorch], [setZoom], [switchCamera] *)

(** The session object with the two properties the control methods add to
    it; both are [undefined] until a control method sets them. *)
Record Controlled := mkControlled {
  session : CameraScanner;
  _torchState : option bool;
  _zoomLevel : option Q
}.

Definition set_session (s : CameraScanner) (c : Controlled) : Controlled :=
  mkControlled s (_torchState c) (_zoomLevel c).

(** [setTorch(enabled)]; [enabled] is [None] when the argument is left out. *)
Definition setTorch (cu : CameraUtils) (enabled : option bool) (c : Controlled)
  (w : World) : Run Controlled bool :=
  match _stream (session c) with
  | None =>
    Done (Throws (Error "Camera not started. Call start() first to control torch.")) c w
  | Some stream =>
    match cu_getCameraCapabilities cu stream with
    | Throws e => Done (Throws e) c w
    | Returns capabilities =>
      if negb (cap_torch capabilities) then
        Done (Throws (Error "Torch/flashlight not supported by current camera")) c w
      else
        let currentState := optOr (_torchState c) false in
        let targetState := optOr enabled (negb currentState) in
        match cu_applyCameraConstraints cu stream (TorchConstraint targetState) with
        | Never => Hang c w
        | Settles d (Rejected error) =>
          Done (Throws (Error ("Failed to " ++ (if targetState then "enable" else "disable")
                               ++ " torch: " ++ err_message error)))
               c (elapse d w)
        | Settles d (Resolved _) =>
          Done (Returns targetState)
               (mkControlled (session c) (Some targetState) (_zoomLevel c))
               (elapse d w)
        end
    end
  end.


(** The [catch] block of [switchCamera]: it tries [this.start()], with no
    container, swallows whatever that throws, and throws the wrapped error. *)
Definition switchCamera_catch (env : Env) (error : JsError) (c : Controlled) (w : World)
  : Run Controlled (option VideoElement) :=
  match start env NoContainer (session c) w with
  | Done _ s' w' =>
    Done (Throws (Error ("Failed to switch camera: " ++ err_message error)))
         (set_session s' c) w'
  | Hang s' w' => Hang (set_session s' c) w'
  | OutOfFuel => OutOfFuel
  end.

(** [switchCamera(deviceId)]; the result is the session's video element,
    [None] where the method returns [null]. *)
Definition switchCamera (cu : CameraUtils) (env : Env) (device : option string)
  (c : Controlled) (w : World) : Run Controlled (option VideoElement) :=
  match truthy device with
  | None => Done (Throws (Error "Device ID is required for camera switching")) c w
  | Some id =>
    match cu_getCameraList cu with
    | Never => Hang c w
    | Settles d0 (Rejected e) => Done (Throws e) c (elapse d0 w)
    | Settles d0 (Resolved availableCameras) =>
      let w0 := elapse d0 w in
      match find (fun camera => String.eqb (deviceId camera) id) availableCameras with
      | None =>
        Done (Throws (Error ("Camera device " ++ id ++ " not found in available cameras")))
             c w0
      | Some _ =>
        let '(c1, w1) :=
          match _stream (session c) with
          | Some old => (set_session (set_stream None (session c)) c,
                         cu_stopCameraStream cu old w0)
          | None => (c, w0)
          end in
        match cu_openDevice cu id with
        | Never => Hang c1 w1
        | Settles d (Rejected error) => switchCamera_catch env error c1 (elapse d w1)
        | Settles d (Resolved stream) =>
          let c2 := set_session (set_stream (Some stream) (session c1)) c1 in
          let w2 := elapse d w1 in
          match _videoElement (session c2) with
          | None =>
            Done (Returns None) (mkControlled (session c2) (Some false) (Some 1%Q)) w2
          | Some video =>
            let '(_, w3) := setTimeout 10000 w2 in
            match videoSwitched (videoLoads cu video stream) with
            | Never => Hang c2 w3
            | Settles d2 (Rejected error) => switchCamera_catch env error c2 (elapse d2 w3)
            | Settles d2 (Resolved _) =>
              Done (Returns (Some video))
                   (mkControlled (session c2) (Some false) (Some 1%Q))
                   (elapse d2 w3)
            end
          end
        end
      end
    end
  end.

(** [getCameraCapabilities()] *)
Definition getCameraCapabilities (cu : CameraUtils) (c : Controlled) : Capabilities :=
  match _stream (session c) with
  | None => noCapabilities
  | Some stream =>
    match cu_getCameraCapabilities cu stream with
    | Returns capabilities => capabilities
    | Throws _ => noCapabilities
    end
  end.

(** [getCameraList()] *)
Definition getCameraList (cu : CameraUtils) (c : Controlled) (w : World)
  : Run Controlled (list CameraInfo) :=
  match cu_getCameraList cu with
  | Never => Hang c w
  | Settles d (Resolved cameras) => Done (Returns cameras) c (elapse d w)
  | Settles d (Rejected _) => Done (Returns []) c (elapse d w)
  end.

(** The object [getCameraStates()] returns. *)
Record CameraStates := mkCameraStates {
  cs_torch : bool;
  cs_zoom : Q;
  cameraActive : bool;
  videoReady : bool
}.

(** [getCameraStates()]; [this._zoomLevel || 1] takes a zoom level of zero
    for a missing one. *)
Definition getCameraStates (c : Controlled) : CameraStates :=
  mkCameraStates
    (optOr (_torchState c) false)
    (match _zoomLevel c with
     | Some z => if Qeq_bool z 0 then 1%Q else z
     | None => 1%Q
     end)
    (match _stream (session c) with Some _ => true | None => false end)
    (match _videoElement (session c) with Some _ => true | None => false end).

End V1.

(* ================================================================== *)
(** ** Second listing: [start], [scan] and the result formatters *)

Module V2.

(** The session object of the second listing: the fields of the first one
    and the three the constructor derives from the scan type. *)
Record Session := mkSession {
  core : CameraScanner;
  _formats : list string;
  _useContinuousScanning : bool;
  _mrzMode : string
}.

Definition set_core (c : CameraScanner) (s : Session) : Session :=
  mkSession c (_formats s) (_useContinuousScanning s) (_mrzMode s).

(** The constructor with [_initializeConfiguration()]. *)
Definition construct (cfg : Config) (os : OpticalScanner) : Completion Session :=
  if negb (arr_includes ["mrz"; "barcode"] (scanType cfg)) then
    Throws (Error ("scanType must be " ++ quoted "mrz" ++ " or " ++ quoted "barcode"))
  else if negb (arr_includes ["first"; "all"; "exhaustive"] (scanMode cfg)) then
    Throws (Error ("scanMode must be " ++ quoted "first" ++ ", " ++ quoted "all"
                   ++ ", or " ++ quoted "exhaustive"))
  else
    let isMrz := String.eqb (scanType cfg) "mrz" in
    let mode := if isMrz then "camera" else "element" in
    let hasKey := negb (String.eqb (licenseKey cfg) EmptyString) in
    let opts :=
      mkPluginOptions
        (if hasKey && isMrz
         then Some (mkMrzOptions (licenseKey cfg) mode (Some (mkScannerConfig None)))
         else None)
        (if hasKey && String.eqb (scanType cfg) "barcode"
         then Some (mkPdf417Options (licenseKey cfg) true true)
         else None) in
    Returns (mkSession
               (mkScanner (mkConfig (scanType cfg) (scanMode cfg) (licenseKey cfg) None)
                          None None os false opts)
               (if isMrz then ["mrz"] else ["qr_code"; "pdf417_enhanced"; "pdf417"])
               (negb isMrz) mode).

(** [TIMEOUT_CONFIG[key]] for the keys a format name can hit; [None] where
    the table has no such key.  The key is [_formats[0]], which the
    constructor alone assigns, to 'mrz' or 'qr_code'; names of
    [Object.prototype] properties, for which the lookup on the object
    literal yields something else than [undefined], do not occur. *)
Definition TIMEOUT_CONFIG (key : string) : option Z :=
  if String.eqb key "mrz_camera" then Some 0
  else if String.eqb key "mrz_element" then Some 30000
  else if String.eqb key "pdf417_enhanced" then Some 20000
  else if String.eqb key "pdf417" then Some 10000
  else if String.eqb key "qr_code" then Some 10000
  else if String.eqb key "default" then Some 12000
  else if String.eqb key "minScanTime" then Some 1500
  else if String.eqb key "continuousInterval" then Some 2500
  else None.

(** [_getTimeout()] *)
Definition _getTimeout (s : Session) : Z :=
  if String.eqb (scanType (config (core s))) "mrz" then
    if isMrzCameraMode (core s) then 0 else 30000
  else
    match match _formats s with
          | primaryFormat :: _ => TIMEOUT_CONFIG primaryFormat
          | [] => None
          end with
    | Some t => if t =? 0 then 12000 else t
    | None => 12000
    end.

(** [_getMinScanTime()] *)
Definition _getMinScanTime (s : Session) : Z :=
  if arr_includes (_formats s) "mrz" then 0 else 1500.

(** *** Result formatters *)

Inductive Fields :=
| MrzFields (d : option MrzData)          (* rawData[0].data, or {} *)
| DlFields (dl : DriverLicense)
| PlainFields (f : list (string * string)).

Record Formatted := mkFormatted {
  f_type : string;
  f_text : option (string + list DataItem);
  f_fields : option Fields;
  f_valid : option bool;
  f_validation : option Validation;
  f_invalidFields : option (list string);
  f_parsed : option bool
}.

(** [result.rawData?.[0]] *)
Definition firstRaw (result : ScanResult) : option MrzRaw :=
  match res_rawData result with
  | Some (r :: _) => Some r
  | _ => None
  end.

(** [_formatMrzResult(result)] *)
Definition _formatMrzResult (result : ScanResult) : Formatted :=
  let mrzData := match firstRaw result with
                 | Some r => raw_data r
                 | None => None
                 end in
  let validation :=
    optOr (or_else (match mrzData with Some d => md_validation d | None => None end)
                   (match firstRaw result with Some r => raw_validation r | None => None end))
          (mkValidation None) in
  let invalidFields :=
    optOr (or_else (match mrzData with Some d => md_invalidFields d | None => None end)
                   (match firstRaw result with Some r => raw_invalidFields r | None => None end))
          [] in
  let isValid :=
    match overallStatus validation with
    | Some st =>
      String.eqb st "complete" ||
      (String.eqb st "partial" && (List.length invalidFields =? 0)%nat)
    | None => false
    end in
  mkFormatted "MRZ" None (Some (MrzFields mrzData)) (Some isValid) (Some validation)
              (Some invalidFields) None.

(** [a || fallback] on strings *)
Definition textOr (o : option string) (fallback : string) : string :=
  match truthy o with
  | Some t => t
  | None => fallback
  end.

(** [_formatDriverLicenseResult(result)] *)
Definition _formatDriverLicenseResult (result : ScanResult) : Formatted :=
  let dl_of_first :=
    match res_data result with
    | ItemObject o :: _ =>
      match det_driverLicense o with
      | Some dl => Some (o, dl)
      | None => None
      end
    | _ => None
    end in
  match dl_of_first with
  | Some (o, dl) =>
    mkFormatted "DL"
      (Some (inl (textOr (or_else (truthy (det_text o)) (truthy (dl_raw dl)))
                         "Enhanced PDF417 with parsed data")))
      (Some (DlFields dl)) None None None (Some true)
  | None =>
    match res_driverLicense result with
    | Some dl =>
      mkFormatted "DL" (Some (inl (textOr (res_text result) "Enhanced PDF417 with parsed data")))
                  (Some (DlFields dl)) None None None (Some true)
    | None =>
      mkFormatted "DL" (Some (inl (textOr (res_text result) "Enhanced PDF417 data")))
                  (Some (PlainFields (optOr (res_fields result) []))) None None None
                  (Some false)
    end
  end.

(** The text lookup shared by the PDF417 and QR formatters. *)
Definition codeText (result : ScanResult) : option string :=
  match truthy (res_text result) with
  | Some t => Some t
  | None =>
    match res_data result with
    | ItemString str :: _ => Some str
    | ItemObject o :: _ => or_else (truthy (det_text o)) (truthy (det_rawValue o))
    | [] => None
    end
  end.

(** [_formatPdf417Result(result)] *)
Definition _formatPdf417Result (result : ScanResult) : Formatted :=
  mkFormatted "PDF_417" (Some (inl (textOr (codeText result) "No PDF417 text found")))
              None None None None None.

(** [_formatQrCodeResult(result)] *)
Definition _formatQrCodeResult (result : ScanResult) : Formatted :=
  mkFormatted "QR_CODE" (Some (inl (textOr (codeText result) "No QR code text found")))
              None None None None None.

Definition upper_ascii (c : ascii) : ascii :=
  let n := nat_of_ascii c in
  if andb (Nat.leb 97 n) (Nat.leb n 122) then ascii_of_nat (n - 32) else c.

Fixpoint toUpperCase (s : string) : string :=
  match s with
  | EmptyString => EmptyString
  | String c s' => String (upper_ascii c) (toUpperCase s')
  end.

(** [_formatGenericResult(result, detectedFormat)] *)
Definition _formatGenericResult (result : ScanResult) (detectedFormat : string)
  : Formatted :=
  mkFormatted
    (if String.eqb detectedFormat "qr_code" then "QR_CODE"
     else if String.eqb detectedFormat "pdf417" then "PDF_417"
     else if String.eqb detectedFormat "pdf417_enhanced" then "PDF_417"
     else if String.eqb detectedFormat "mrz" then "MRZ"
     else toUpperCase detectedFormat)
    (Some (firstText (res_data result)))
    None None None None None.

(** The object [scan] resolves with. *)
Record Outcome := mkOutcome {
  success : bool;
  out_scanType : string;
  error : option Text;
  code : option string;
  format : option string;
  timestamp : option Z;
  formatted : option Formatted
}.

Definition failure (s : Session) (err : Text) (c : option string) : Outcome :=
  mkOutcome false (scanType (config (core s))) (Some err) c None None None.

(** [_formatScanResult(results, detectedFormat)] *)
Definition _formatScanResult (s : Session) (w : World) (results : list ScanResult)
  (detectedFormat : string) : Outcome :=
  match results with
  | [] => failure s (Lit "No results to format") None
  | result :: _ =>
    let formattedResult :=
      if String.eqb detectedFormat "mrz" then _formatMrzResult result
      else if String.eqb detectedFormat "pdf417_enhanced" then _formatDriverLicenseResult result
      else if String.eqb detectedFormat "pdf417" then _formatPdf417Result result
      else if String.eqb detectedFormat "qr_code" then _formatQrCodeResult result
      else _formatGenericResult result detectedFormat in
    mkOutcome true (scanType (config (core s))) None None (Some detectedFormat)
              (Some (now w)) (Some formattedResult)
  end.

(** *** [start] *)

(** The classification in the [catch] block of [start]. *)
Definition classifyStartError (e : JsError) : string * string :=
  if String.eqb (err_name e) "NotAllowedError" then
    ("Camera permission denied. Please allow camera access.", "CAMERA_PERMISSION_DENIED")
  else if String.eqb (err_name e) "NotFoundError" then
    ("No camera found. Please connect a camera.", "NO_CAMERA_FOUND")
  else if includes (err_message e) "timeout" then
    ("Camera initialization timed out. Please try again.", "CAMERA_TIMEOUT")
  else ("Failed to start camera", "CAMERA_START_ERROR").

Definition start_catch (e : JsError) (s : Session) (w : World)
  : Run Session StartOutcome :=
  let '(c', w') := stop (core s) w in
  let '(userMessage, errorCode) := classifyStartError e in
  Done (Returns (startFailure c' userMessage errorCode e)) (set_core c' s) w'.

(** [_handleContainerSetup(container)] *)
Definition _handleContainerSetup (container : nat) (video : VideoElement)
  (s : Session) (w : World) : Session * World :=
  let w1 := setChildren container [] w in
  if String.eqb (scanType (config (core s))) "mrz" && isMrzCameraMode (core s) then
    match opt_mrz (_pluginOptions (core s)) with
    | Some m =>
      match scannerConfig m with
      | Some _ =>
        (set_core
           (set_pluginOptions
              (mkPluginOptions
                 (Some (mkMrzOptions (mrz_licenseKey m) (mrzMode m)
                                     (Some (mkScannerConfig (Some container)))))
                 (opt_pdf417_enhanced (_pluginOptions (core s))))
              (core s)) s, w1)
      | None => (s, w1)
      end
    | None => (s, w1)
    end
  else (s, setChildren container (children container w1 ++ [video_id video]) w1).

(** [start(container, options)] *)
Definition start (env : Env) (container : ContainerArg) (s : Session) (w : World)
  : Run Session StartOutcome :=
  match container with
  | NoContainer | NotAnElement =>
    Done (Throws (Error "Valid container element is required")) s w
  | Element c =>
    if cameraStarted (core s) then Done (Returns (alreadyActive (core s))) s w
    else
      match startCameraStream env with
      | Never => Hang s w
      | Settles d (Rejected e) => start_catch e s (elapse d w)
      | Settles d (Resolved stream) =>
        let s1 := set_core (set_stream (Some stream) (core s)) s in
        let w1 := snd (setTimeout 10000 (elapse d w)) in
        match race_timeout (createVideoElement env stream) 10000
                           "Video creation timeout" with
        | Never => Hang s1 w1
        | Settles d2 (Rejected e) => start_catch e s1 (elapse d2 w1)
        | Settles d2 (Resolved video) =>
          let s2 := set_core (set_videoElement (Some video) (core s1)) s1 in
          let '(s3, w3) := _handleContainerSetup c video s2 (elapse d2 w1) in
          Done (Returns
                  (mkStartOutcome true (Some (2 <=? readyState video))
                     (scanType (config (core s3))) 
                     (Some (if String.eqb (scanType (config (core s3))) "mrz"
                               && isMrzCameraMode (core s3)
                            then "dynamsoft_native" else "video_insertion"))
                     None (Some (_formats s3))
                     (Some (videoWidth video, videoHeight video, readyState video))
                     None None None None None))
               s3 w3
        end
      end
  end.

(** *** [scan] *)

(** Local variables of a suspended [scan]. *)
Record ScanLocals := mkScanLocals {
  l_timeoutMs : Z;
  l_minScanTime : Z;
  l_scanStartTime : Z;
  l_timeout : option nat;
  l_pending : Behaviour (list ScanResult)
}.

(** [_buildScanOptions(options)]: the request handed to the OpticalScanner;
    the trailing [...options] lets the caller's own properties win. *)
Definition _buildScanOptions (options : ScanOptions) (s : Session) : ScanRequest :=
  mkRequest "video"
            (optOr (o_formats options) (_formats s))
            (optOr (o_mode options) (scanMode (config (core s))))
            (o_signal options).

(** The [catch] block of [scan]. *)
Definition scan_catch (e : JsError) (l : ScanLocals) (s : Session) (w : World)
  : Outcome * World :=
  let w1 := clearIfArmed (l_timeout l) w in
  if String.eqb (err_message e) "SCAN_TIMEOUT" then
    (failure s (Fmt "Scan timed out after " (now w1 - l_scanStartTime l)
                    "s - try repositioning or better lighting")
             (Some "SCAN_TIMEOUT"), w1)
  else
    (failure s (Lit (messageOr e "Scan failed")) (Some "SCAN_ERROR"), w1).

(** [scan] from its entry to its first [await]. *)
Definition scan_enter (env : Env) (options : ScanOptions) (s : Session) (w : World)
  : Entered Session ScanLocals Outcome :=
  if negb (cameraStarted (core s)) then Finished (Throws cameraNotStarted) s w
  else if _isScanning (core s) then Finished (Throws scanInProgress) s w
  else
    let scanOptions := _buildScanOptions options s in
    let timeoutMs := _getTimeout s in
    let minScanTime := _getMinScanTime s in
    let s1 := set_core (set_isScanning true (core s)) s in
    let scanStartTime := now w in
    let pending := os_scan env (List.length (scanLog w)) scanOptions (now w) in
    let w1 := logScan scanOptions w in
    if 0 <? timeoutMs then
      let '(id, w2) := setTimeout timeoutMs w1 in
      Awaiting (mkScanLocals timeoutMs minScanTime scanStartTime (Some id) pending) s1 w2
    else
      Awaiting (mkScanLocals timeoutMs minScanTime scanStartTime None pending) s1 w1.

(** The rest of [scan] after the race settles. *)
Definition scan_resume (l : ScanLocals) (s : Session) (w : World)
  : Run Session Outcome :=
  let finally := set_core (set_isScanning false (core s)) s in
  match race_timeout (l_pending l) (l_timeoutMs l) "SCAN_TIMEOUT" with
  | Never => Hang s w
  | Settles d (Rejected e) =>
    let '(o, w1) := scan_catch e l s (elapse d w) in
    Done (Returns o) finally w1
  | Settles d (Resolved results) =>
    let w1 := clearIfArmed (l_timeout l) (elapse d w) in
    let w2 :=
      if 0 <? l_minScanTime l then
        let elapsedTime := now w1 - l_scanStartTime l in
        if elapsedTime <? l_minScanTime l then
          let waitTime := l_minScanTime l - elapsedTime in
          let '(_, w') := setTimeout waitTime w1 in
          elapse waitTime w'
        else w1
      else w1 in
    match results with
    | result :: _ =>
      Done (Returns (_formatScanResult s w2 results (res_format result))) finally w2
    | [] =>
      Done (Returns (failure s (Lit "No optical codes detected in current frame")
                             (Some "NO_RESULTS"))) finally w2
    end
  end.

(** [scan(options)] run to completion with no other call in between. *)
Definition scan (env : Env) (options : ScanOptions) (s : Session) (w : World)
  : Run Session Outcome :=
  match scan_enter env options s w with
  | Finished r s' w' => Done r s' w'
  | Awaiting l s' w' => scan_resume l s' w'
  end.

(** *** [scanAny] *)

(** [scanAny(options)].  [anyMethod] is the OpticalScanner's own [scanAny]
    when it has one; [formats] and [mode] of the caller's options replace
    the defaults. *)
Definition scanAny
  (anyMethod : option (ScanRequest -> Z -> Behaviour (list ScanResult)))
  (env : Env) (options : ScanOptions) (s : Session) (w : World)
  : Run Session Outcome :=
  if negb (cameraStarted (core s)) then Done (Throws cameraNotStarted) s w
  else
    let scanOptions :=
      mkRequest "video"
                (optOr (o_formats options) (getSupportedFormats (_opticalScanner (core s))))
                (optOr (o_mode options) "first")
                (o_signal options) in
    let pending :=
      match anyMethod with
      | Some method => method scanOptions (now w)
      | None => os_scan env (List.length (scanLog w)) scanOptions (now w)
      end in
    let w0 := logScan scanOptions w in
    match pending with
    | Never => Hang s w0
    | Settles d (Rejected e) =>
      Done (Returns (failure s (Lit (messageOr e "ScanAny failed")) (Some "SCAN_ANY_ERROR")))
           s (elapse d w0)
    | Settles d (Resolved results) =>
      let w1 := elapse d w0 in
      match results with
      | result :: _ => Done (Returns (_formatScanResult s w1 results (res_format result))) s w1
      | [] =>
        Done (Returns (failure s (Lit "No recognizable optical codes found")
                               (Some "NO_RESULTS")))
             s w1
      end
    end.

(** *** [startContinuous] *)

(** A call of one of the two callbacks: [onResult(result)], or
    [onError(error)] with the error's name and message. *)
Inductive Callback :=
| OnResult (result : Outcome)
| OnError (name : string) (message : Text).

(** [onError(error)] for a thrown error *)
Definition onErrorWith (e : JsError) : Callback :=
  OnError (err_name e) (Lit (err_message e)).

(** [new Error(result.error || 'Single scan failed')] *)
Definition errorOr (err : option Text) (fallback : string) : Text :=
  match err with
  | None | Some (Lit EmptyString) => Lit fallback
  | Some t => t
  end.

(** [_getContinuousInterval()] *)
Definition _getContinuousInterval : Z := 2500.

(** The fallback loop of [startContinuous].  The state is the session with
    the callbacks called so far, oldest first; the callbacks only record
    what they are given. *)
Fixpoint startContinuous_loop (fuel : nat) (env : Env) (options : ScanOptions)
  (s : Session) (calls : list Callback) (w : World)
  : Run (Session * list Callback) unit :=
  match fuel with
  | O => OutOfFuel
  | S fuel' =>
    if cameraStarted (core s) && negb (_isScanning (core s)) then
      let wait (s1 : Session) (w1 : World) :=
        let '(_, w2) := setTimeout _getContinuousInterval w1 in
        startContinuous_loop fuel' env options s1 calls (elapse _getContinuousInterval w2) in
      match scan env options s w with
      | OutOfFuel => OutOfFuel
      | Hang s1 w1 => Hang (s1, calls) w1
      | Done (Returns result) s1 w1 =>
        if success result then Done (Returns tt) (s1, (calls ++ [OnResult result])%list) w1
        else wait s1 w1
      | Done (Throws error) s1 w1 =>
        if includes (err_message error) "timeout"
           || includes (err_message error) "No results"
        then wait s1 w1
        else Done (Returns tt) (s1, (calls ++ [onErrorWith error])%list) w1
      end
    else Done (Returns tt) (s, calls) w
  end.

(** [startContinuous(onResult, onError, options)]; the two flags tell
    whether the callbacks were passed at all. *)
Definition startContinuous (fuel : nat) (env : Env) (hasOnResult hasOnError : bool)
  (options : ScanOptions) (s : Session) (w : World)
  : Run (Session * list Callback) unit :=
  if negb (cameraStarted (core s)) then
    if hasOnError then Done (Returns tt) (s, [onErrorWith cameraNotStarted]) w
    else Done (Throws (mkError "TypeError" "onError is not a function")) (s, []) w
  else if negb hasOnResult || negb hasOnError then
    Done (Throws (Error "onResult and onError callbacks are required")) (s, []) w
  else if negb (_useContinuousScanning s) then
    match scan env options s w with
    | OutOfFuel => OutOfFuel
    | Hang s1 w1 => Hang (s1, []) w1
    | Done (Returns result) s1 w1 =>
      if success result then Done (Returns tt) (s1, [OnResult result]) w1
      else Done (Returns tt)
                (s1, [OnError "Error" (errorOr (error result) "Single scan failed")]) w1
    | Done (Throws e) s1 w1 => Done (Returns tt) (s1, [onErrorWith e]) w1
    end
  else
    let scanOptions := _buildScanOptions options s in
    if has_scanContinuous (_opticalScanner (core s)) then
      let w0 := logScan scanOptions w in
      match os_scanContinuous env scanOptions (now w) with
      | Never => Hang (s, []) w0
      | Settles d (Rejected e) => Done (Returns tt) (s, [onErrorWith e]) (elapse d w0)
      | Settles d (Resolved results) =>
        let w1 := elapse d w0 in
        match results with
        | result :: _ =>
          Done (Returns tt)
               (s, [OnResult (_formatScanResult s w1 results (res_format result))]) w1
        | [] =>
          Done (Returns tt)
               (s, [OnError "Error" (Lit "Continuous scan completed but no results found")])
               w1
        end
      end
    else startContinuous_loop fuel env options s [] w.

(** *** Container detection: [startWithContainer] *)

(** What [querySelector] can return: an [HTMLElement], or an element of
    another kind (an SVG element, say), for which [instanceof HTMLElement]
    is false. *)
Inductive Matched :=
| HtmlElement (id : nat)
| OtherElement (id : nat).

(** The matched element as the [container] argument of [start]. *)
Definition asContainer (m : Matched) : ContainerArg :=
  match m with
  | HtmlElement id => Element id
  | OtherElement _ => NotAnElement
  end.

(** [_detectScanContainer(parentContainer)].  [querySelector parent sel] is
    [parent.querySelector(sel)], [None] for [null]. *)
Definition _detectScanContainer (querySelector : nat -> string -> option Matched)
  (s : Session) (parentContainer : nat) : option Matched :=
  let targetContainer :=
    if String.eqb (scanType (config (core s))) "mrz" then
      or_else (querySelector parentContainer ".mrz-container")
        (or_else (querySelector parentContainer
                    ("[data-container=" ++ quoted "mrz" ++ "]"))
                 (querySelector parentContainer ".scanner-mrz-container"))
    else
      or_else (querySelector parentContainer ".video-container")
        (or_else (querySelector parentContainer
                    ("[data-container=" ++ quoted "video" ++ "]"))
                 (querySelector parentContainer ".scanner-video-container")) in
  match targetContainer with
  | Some found => Some found
  | None => Some (HtmlElement parentContainer)
  end.

(** What [startWithContainer] returns: the result of [start] and the two
    containers of [containerDetection]. *)
Record DetectedStart := mkDetectedStart {
  ds_result : StartOutcome;
  ds_parentContainer : nat;
  ds_targetContainer : Matched
}.

(** [startWithContainer(parentContainer, options)] *)
Definition startWithContainer (querySelector : nat -> string -> option Matched)
  (env : Env) (parentContainer : ContainerArg) (s : Session) (w : World)
  : Run Session DetectedStart :=
  match parentContainer with
  | NoContainer | NotAnElement =>
    Done (Throws (Error "Valid parent container element is required")) s w
  | Element parent =>
    match _detectScanContainer querySelector s parent with
    | None =>
      Done (Throws (Error ("Could not find appropriate container for scan type: "
                           ++ scanType (config (core s))))) s w
    | Some target =>
      match start env (asContainer target) s w with
      | Done (Returns result) s' w' =>
        Done (Returns (mkDetectedStart result parent target)) s' w'
      | Done (Throws e) s' w' => Done (Throws e) s' w'
      | Hang s' w' => Hang s' w'
      | OutOfFuel => OutOfFuel
      end
    end
  end.

End V2.

(* ================================================================== *)
(** ** Concrete sessions and collaborators used in the examples *)

Module Fixtures.

(** The four bundled plugins, in registration order. *)
Definition bundledFormats : list string :=
  ["qr_code"; "pdf417"; "pdf417_enhanced"; "mrz"].

(** An OpticalScanner without a [scanContinuous] method. *)
Definition plainScanner : OpticalScanner := mkOpticalScanner bundledFormats false.

Definition barcodeConfig : Config := mkConfig "barcode" "first" EmptyString None.
Definition mrzConfig : Config := mkConfig "mrz" "first" "LICENSE-KEY" None.

Definition camera : MediaStream := mkStream 1 [11%nat; 12%nat].
Definition video : VideoElement := mkVideo 7 4 1280 720.

(** A barcode session before [start]. *)
Definition idleBarcode : CameraScanner :=
  mkScanner barcodeConfig None None plainScanner false (mkPluginOptions None None).

(** The same session with the camera running. *)
Definition activeBarcode : CameraScanner :=
  mkScanner barcodeConfig (Some camera) (Some video) plainScanner false
            (mkPluginOptions None None).

Definition mrzOptions : PluginOptions :=
  mkPluginOptions
    (Some (mkMrzOptions "LICENSE-KEY" "camera" (Some (mkScannerConfig None))))
    (Some (mkPdf417Options "LICENSE-KEY" true true)).

(** An MRZ session (native camera UI) with the camera running. *)
Definition activeMrz : CameraScanner :=
  mkScanner mrzConfig (Some camera) (Some video) plainScanner false mrzOptions.

(** An MRZ session scanning the video element instead of the native UI. *)
Definition activeMrzElement : CameraScanner :=
  mkScanner mrzConfig (Some camera) (Some video) plainScanner false
    (mkPluginOptions
       (Some (mkMrzOptions "LICENSE-KEY" "element" (Some (mkScannerConfig None))))
       None).

Definition activeBarcode2 : V2.Session :=
  V2.mkSession activeBarcode ["qr_code"; "pdf417_enhanced"; "pdf417"] true "element".

Definition activeMrz2 : V2.Session :=
  V2.mkSession
    (mkScanner mrzConfig (Some camera) (Some video) plainScanner false
       (mkPluginOptions
          (Some (mkMrzOptions "LICENSE-KEY" "camera" (Some (mkScannerConfig None))))
          None))
    ["mrz"] false "camera".

(** The clock reads 1000; the page holds one empty container, element 3. *)
Definition world0 : World := mkWorld 1000 [] 0 [] [] [] [(3%nat, [40%nat; 41%nat])].

Definition qrDetection : ScanResult :=
  mkResult "qr_code" [ItemObject (mkDetection (Some "https://example.com") None None)]
           None None None None None None.

Definition mrzDetection : ScanResult :=
  mkResult "mrz" [] None
           (Some [mkMrzRaw (Some (mkMrzData [("documentNumber", "X123")]
                                            (Some (mkValidation (Some "partial")))
                                            (Some [])))
                           None None])
           None None None None.

(** Collaborators whose scan settles after [d] milliseconds with [r]; the
    camera opens at once. *)
Definition envWith (d : Z) (r : Settled (list ScanResult)) : Env :=
  mkEnv (Settles 0 (Resolved camera)) (fun _ => Settles 0 (Resolved video))
        (fun _ _ _ => Settles d r) (fun _ _ => Settles d r).

(** Collaborators whose camera request fails with [e]. *)
Definition envCameraFails (e : JsError) : Env :=
  mkEnv (Settles 0 (Rejected e)) (fun _ => Never) (fun _ _ _ => Never) (fun _ _ => Never).

(** Collaborators whose video element never loads. *)
Definition envVideoStalls : Env :=
  mkEnv (Settles 0 (Resolved camera)) (fun _ => Never) (fun _ _ _ => Never)
        (fun _ _ => Never).

Definition photoA : V1.File := V1.mkFile "a.png" 2048 "image/png".
Definition photoB : V1.File := V1.mkFile "b.jpg" 4096 "image/JPEG".
Definition photoC : V1.File := V1.mkFile "c.webp" 1024 "image/webp".
Definition document : V1.File := V1.mkFile "b.pdf" 4096 "application/pdf".

(** A scanner that finds a QR code in every file except [b.jpg], which it
    cannot decode. *)
Definition envFiles : Env :=
  mkEnv (Settles 0 (Resolved camera)) (fun _ => Settles 0 (Resolved video))
        (fun _ req _ =>
           if String.eqb (req_source req) "b.jpg"
           then Settles 7 (Rejected (Error "decode failed"))
           else Settles 5 (Resolved [qrDetection]))
        (fun _ _ => Never).

Definition processAll : ScanOptions :=
  mkOptions None None None None None None (Some true).

(** A second camera. *)
Definition backCamera : MediaStream := mkStream 2 [21%nat].

(** Camera utilities of a device with a torch and a zoom from 1 to 4, and
    two cameras listed: every constraint is applied at once, the camera
    'back' opens after 300 ms, any other fails, and the video element loads
    a new stream after 200 ms. *)
Definition utils : CameraUtils :=
  mkCameraUtils
    (fun _ => Returns (mkCapabilities true true
                                      (Some (mkZoomRange (Some 1%Q) (Some 4%Q)))))
    (fun _ _ => Settles 0 (Resolved tt))
    (Settles 0 (Resolved [mkCameraInfo "front" "Front camera";
                          mkCameraInfo "back" "Back camera"]))
    (fun st w => stopTracks (getTracks st) w)
    (fun id => if String.eqb id "back" then Settles 300 (Resolved backCamera)
               else Settles 50 (Rejected (mkError "OverconstrainedError"
                                                  "device unavailable")))
    (fun _ _ => Settles 200 (Resolved tt))
    (fun _ => "n").

(** The running barcode session, no control used yet. *)
Definition controlled : V1.Controlled := V1.mkControlled activeBarcode None None.

End Fixtures.

(* ================================================================== *)
(** ** Statements taken from the specification's wording *)

(** The codes the specification lists for a failed [start]. *)
Definition classifiedCodes : list string :=
  ["CAMERA_PERMISSION_DENIED"; "NO_CAMERA_FOUND"; "CAMERA_TIMEOUT"; "INVALID_CONTAINER"].

(** [start] cannot obtain the stream or the video surface, or the container
    is not a DOM element. *)
Definition acquisitionFailure (env : Env) (container : ContainerArg) : Prop :=
  container = NoContainer \/ container = NotAnElement \/
  (exists d e, startCameraStream env = Settles d (Rejected e)) \/
  (exists d st d2 e,
      startCameraStream env = Settles d (Resolved st) /\
      race_timeout (createVideoElement env st) 10000 "Video load timeout"
        = Settles d2 (Rejected e)).

(** The session holds neither stream nor video element. *)
Definition released (s : CameraScanner) : Prop :=
  _stream s = None /\ _videoElement s = None.

(** The run returned (did not throw) a failure object whose code is one of
    [codes], and left the session released. *)
Definition structuredFailure (codes : list string)
  (r : Run CameraScanner StartOutcome) : Prop :=
  exists o s' w',
    r = Done (Returns o) s' w' /\ st_success o = false /\
    (exists c, st_code o = Some c /\ In c codes) /\ released s'.

(** The specification's sentence about a failing [start], invalid container
    included. *)
Definition start_failure_as_specified : Prop :=
  forall env container s w,
    cameraStarted s = false ->
    acquisitionFailure env container ->
    structuredFailure classifiedCodes (V1.start env container s w).

(** The specification's sentence that a single scan which finds no
    detections is not held to the minimum scan duration: it would resolve
    when the scan promise does. *)
Definition floor_only_on_success_as_specified : Prop :=
  forall env options s w l s1 w1 d,
    V1.scanOnce_enter env options s w = Awaiting l s1 w1 ->
    race_timeout (V1.l_pending l) (V1.l_timeoutMs l) "SCAN_TIMEOUT"
      = Settles d (Resolved []) ->
    0 <= d ->
    exists o s' w',
      V1.scanOnce env options s w = Done (Returns o) s' w' /\ now w' = now w + d.

(** A scanner that never yields a detection: every call settles, with an
    empty result or with an error that is not an abort. *)
Definition neverDetects (env : Env) : Prop :=
  forall k req t,
    exists d,
      os_scan env k req t = Settles d (Resolved []) \/
      exists e, os_scan env k req t = Settles d (Rejected e) /\
                String.eqb (err_name e) "AbortError" = false.

(** No cancellation: there is no signal, or its controller never aborts. *)
Definition neverAborts (signal : option AbortSignal) : Prop :=
  forall sg, signal = Some sg -> abortAt sg = None.

(** An attempt that found nothing: an empty result or a non-abort error. *)
Definition noDetection (r : Settled (list ScanResult)) : Prop :=
  r = Resolved [] \/
  exists e, r = Rejected e /\ String.eqb (err_name e) "AbortError" = false.

(** The awaited promise delivered at least one detection. *)
Definition detects (b : Behaviour (list ScanResult)) : bool :=
  match b with
  | Settles _ (Resolved (_ :: _)) => true
  | _ => false
  end.

(** The scanner never rejects with an AbortError. *)
Definition noAbortErrors (env : Env) : Prop :=
  forall k req t d e,
    os_scan env k req t = Settles d (Rejected e) ->
    String.eqb (err_name e) "AbortError" = false.

(** The per-file entry [o] belongs to file [f]: it carries the file's name,
    and it is a success exactly when the file's scan, raced against the
    per-file timeout, delivered a detection. *)
Definition entryFor (env : Env) (finalFormats : list string) (mode : string)
  (signal : option AbortSignal) (timeoutMs : Z) (f : V1.File) (o : V1.Outcome) : Prop :=
  option_map V1.fi_name (V1.file o) = Some (V1.file_name f) /\
  exists k t,
    V1.success o
    = detects (race_timeout
                 (os_scan env k (mkRequest (V1.file_name f) finalFormats mode signal) t)
                 timeoutMs "FILE_SCAN_TIMEOUT").

(** The specification's sentence about a batch that contains a file of an
    unsupported type: a summary is returned and counts that file as failed. *)
Definition batch_with_unsupported_as_specified : Prop :=
  forall env files options s w,
    o_processAll options = Some true ->
    (exists f, In f files /\ V1.typeSupported f = false) ->
    exists r sm w' n,
      V1.scanFile env (V1.FileArray files) options s w = Done (Returns r) s w' /\
      V1.summary r = Some sm /\
      V1.failedFiles sm = Some n /\ (1 <= n)%nat.

(** The validity predicate of an MRZ result in the specification's words:
    complete, or partial with no invalid field. *)
Definition mrz_valid_as_specified (v : Validation) (invalidFields : list string) : Prop :=
  overallStatus v = Some "complete" \/
  (overallStatus v = Some "partial" /\ invalidFields = []).

(* ================================================================== *)
(** ** Notions used in the statements about the code *)

(** From call number [base] on, the scanner's next [k] calls for [req] find
    nothing and the one after delivers [results] after [d] milliseconds. *)
Definition detectsAtCall (env : Env) (req : ScanRequest) (base k : nat) (d : Z)
  (results : list ScanResult) : Prop :=
  (forall j t, (j < k)%nat ->
     exists dj rj, os_scan env (base + j) req t = Settles dj rj /\ noDetection rj) /\
  (forall t, os_scan env (base + k) req t = Settles d (Resolved results)).

(** What a raw MRZ result reports.  The validation object and the list of
    invalid fields are those of its first raw entry: the ones inside the
    entry's [data] when present, else the ones on the entry itself, else an
    empty object and an empty list. *)
Definition rawValidation (result : ScanResult) : Validation :=
  match res_rawData result with
  | Some (entry :: _) =>
    match raw_data entry with
    | Some (mkMrzData _ (Some v) _) => v
    | _ =>
      match raw_validation entry with
      | Some v => v
      | None => mkValidation None
      end
    end
  | _ => mkValidation None
  end.

Definition rawInvalidFields (result : ScanResult) : list string :=
  match res_rawData result with
  | Some (entry :: _) =>
    match raw_data entry with
    | Some (mkMrzData _ _ (Some fields)) => fields
    | _ =>
      match raw_invalidFields entry with
      | Some fields => fields
      | None => []
      end
    end
  | _ => []
  end.

(** A raw MRZ result whose first entry's data report the overall status
    [st] (absent when [None]) and the invalid fields [inv]. *)
Definition mrzResultReporting (st : option string) (inv : list string) : ScanResult :=
  mkResult "mrz" [] None
           (Some [mkMrzRaw (Some (mkMrzData [] (Some (mkValidation st)) (Some inv)))
                           None None])
           None None None None.

(** The driver-license data a raw result carries: in its first data item,
    or else directly on the result. *)
Definition licenseData (result : ScanResult) : option DriverLicense :=
  match res_data result with
  | ItemObject o :: _ =>
    match det_driverLicense o with
    | Some dl => Some dl
    | None => res_driverLicense result
    end
  | _ => res_driverLicense result
  end.


(** A settled scanner call that delivered no detection: an empty result or
    any error, an abort included. *)
Definition findsNothing (r : Settled (list ScanResult)) : Prop :=
  match r with
  | Resolved (_ :: _) => False
  | _ => True
  end.

(** From call number [base] on, the scanner's next [k] calls for [req]
    settle without a detection and the one after delivers [results] after
    [d] milliseconds. *)
Definition firstDetectionAt (env : Env) (req : ScanRequest) (base k : nat) (d : Z)
  (results : list ScanResult) : Prop :=
  (forall j t, (j < k)%nat ->
     exists dj rj, os_scan env (base + j) req t = Settles dj rj /\ findsNothing rj) /\
  (forall t, os_scan env (base + k) req t = Settles d (Resolved results)).
(* ================================================================== *)
(** ** Result formatting *)

Lemma length_zero_nil {A} (l : list A) : (List.length l =? 0)%nat = true <-> l = [].
Proof.
  destruct l as [|a l]; simpl; split; intro H; try reflexivity; discriminate H.
Qed.

(** The formatter hands on the validation object and the invalid fields of
    the raw result, and computes [valid] from them. *)
Lemma formatMrzResult_reads_raw (result : ScanResult) :
  V2.f_validation (V2._formatMrzResult result) = Some (rawValidation result) /\
  V2.f_invalidFields (V2._formatMrzResult result) = Some (rawInvalidFields result) /\
  V2.f_valid (V2._formatMrzResult result)
  = Some (match overallStatus (rawValidation result) with
          | Some st =>
            String.eqb st "complete" ||
            (String.eqb st "partial" && (List.length (rawInvalidFields result) =? 0)%nat)
          | None => false
          end).
Proof.
  unfold V2._formatMrzResult, V2.firstRaw, rawValidation, rawInvalidFields.
  cbn [V2.f_validation V2.f_invalidFields V2.f_valid].
  destruct (res_rawData result) as [[|entry entries]|]; try (repeat split; reflexivity).
  destruct (raw_data entry) as [[fields [v|] [inv|]]|];
    destruct (raw_validation entry) as [v'|];
    destruct (raw_invalidFields entry) as [inv'|];
    repeat split; reflexivity.
Qed.

Lemma mrzResultReporting_reports (st : option string) (inv : list string) :
  rawValidation (mrzResultReporting st inv) = mkValidation st /\
  rawInvalidFields (mrzResultReporting st inv) = inv.
Proof. split; reflexivity. Qed.

(** C3.  For every overall status [st] (any string, or none at all), every
    list [inv] of invalid fields and every raw MRZ result that reports
    them, the formatted result that [scan] returns for the [mrz] format
    hands on that validation object and that list, and its [valid] is a
    boolean that is [true] exactly when [st] is ['complete'], or [st] is
    ['partial'] and [inv] is empty. *)
Theorem mrz_valid_iff_complete_or_clean_partial :
  forall (s : V2.Session) (w : World) (st : option string) (inv : list string)
         (result : ScanResult) (rest : list ScanResult),
    rawValidation result = mkValidation st ->
    rawInvalidFields result = inv ->
    exists f b,
      V2.formatted (V2._formatScanResult s w (result :: rest) "mrz") = Some f /\
      V2.f_validation f = Some (mkValidation st) /\
      V2.f_invalidFields f = Some inv /\
      V2.f_valid f = Some b /\
      (b = true <-> mrz_valid_as_specified (mkValidation st) inv).
Proof.
  intros s w st inv result rest Hv Hi.
  destruct (formatMrzResult_reads_raw result) as (Hfv & Hfi & Hfb).
  rewrite Hv in Hfv, Hfb. rewrite Hi in Hfi, Hfb. cbn [overallStatus] in Hfb.
  eexists (V2._formatMrzResult result), _.
  split; [reflexivity|]. split; [exact Hfv|]. split; [exact Hfi|]. split; [exact Hfb|].
  unfold mrz_valid_as_specified. cbn [overallStatus].
  destruct st as [st|].
  - split.
    + intro H. apply orb_true_iff in H as [H|H].
      * left. apply String.eqb_eq in H. now subst.
      * right. apply andb_true_iff in H as [H1 H2].
        apply String.eqb_eq in H1. apply length_zero_nil in H2. now subst.
    + intros [H|[H1 H2]].
      * inversion H; subst. reflexivity.
      * inversion H1; subst. rewrite H2. reflexivity.
  - split; [discriminate|]. intros [H|[H _]]; discriminate H.
Qed.

(** A complete decode is valid whatever fields it lists as invalid. *)
Lemma mrz_valid_witness :
  exists f,
    V2.formatted (V2._formatScanResult Fixtures.activeMrz2 Fixtures.world0
                    [mrzResultReporting (Some "complete") ["documentNumber"]] "mrz")
      = Some f /\
    V2.f_validation f = Some (mkValidation (Some "complete")) /\
    V2.f_invalidFields f = Some ["documentNumber"] /\
    V2.f_valid f = Some true.
Proof.
  destruct (mrz_valid_iff_complete_or_clean_partial Fixtures.activeMrz2 Fixtures.world0
              (Some "complete") ["documentNumber"]
              (mrzResultReporting (Some "complete") ["documentNumber"]) []
              eq_refl eq_refl)
    as (f & b & Hf & Hv & Hi & Hb & Hiff).
  exists f. split; [exact Hf|]. split; [exact Hv|]. split; [exact Hi|].
  rewrite Hb. f_equal. apply Hiff. left. reflexivity.
Defined.

(* ================================================================== *)
(** ** [start] *)

Lemma cameraStarted_true (s : CameraScanner) :
  cameraStarted s = true <-> (_stream s <> None /\ _videoElement s <> None).
Proof.
  unfold cameraStarted.
  destruct (_stream s), (_videoElement s); split; intro H;
    try reflexivity; try discriminate H; try (split; discriminate);
    destruct H as [H1 H2]; congruence.
Qed.

(** C10.  When stream and video element are both present, [start] with a DOM
    element returns the 'Camera already active' success object and nothing
    else happens: the session (stream and video element included) and the
    world (container children, timers, tracks, scanner calls) are exactly
    as before, whatever the camera utilities would have answered.  Both
    listings behave so. *)
Theorem start_when_active_changes_nothing :
  forall (env : Env) (c : nat) (w : World) (s : CameraScanner) (s2 : V2.Session),
    _stream s <> None -> _videoElement s <> None ->
    _stream (V2.core s2) <> None -> _videoElement (V2.core s2) <> None ->
    (V1.start env (Element c) s w = Done (Returns (alreadyActive s)) s w /\
     V2.start env (Element c) s2 w = Done (Returns (alreadyActive (V2.core s2))) s2 w) /\
    (forall x : CameraScanner,
        st_success (alreadyActive x) = true /\
        st_message (alreadyActive x) = Some "Camera already active").
Proof.
  intros env c w s s2 H1 H2 H3 H4.
  assert (Hs : cameraStarted s = true) by (apply cameraStarted_true; auto).
  assert (Hs2 : cameraStarted (V2.core s2) = true) by (apply cameraStarted_true; auto).
  unfold V1.start, V2.start. rewrite Hs, Hs2.
  repeat split.
Qed.

Lemma start_when_active_witness :
  V1.start Fixtures.envVideoStalls (Element 3) Fixtures.activeBarcode Fixtures.world0
  = Done (Returns (alreadyActive Fixtures.activeBarcode)) Fixtures.activeBarcode
         Fixtures.world0.
Proof.
  apply (start_when_active_changes_nothing Fixtures.envVideoStalls 3 Fixtures.world0
           Fixtures.activeBarcode Fixtures.activeBarcode2);
    discriminate.
Defined.

Lemma classifyStartError_codes (e : JsError) :
  In (snd (V1.classifyStartError e)) (classifiedCodes ++ ["CAMERA_START_ERROR"]).
Proof.
  unfold V1.classifyStartError.
  repeat match goal with |- context [if ?b then _ else _] => destruct b end;
    simpl; tauto.
Qed.

Lemma stop_stops_tracks (s : CameraScanner) (w : World) (st : MediaStream) (t : nat) :
  _stream s = Some st -> In t (getTracks st) -> In t (stoppedTracks (snd (stop s w))).
Proof.
  intros Hs Ht. unfold stop. rewrite Hs. cbn [snd].
  destruct (_videoElement s); cbn; apply in_or_app; right; exact Ht.
Qed.

Lemma start_catch_structured (e : JsError) (s : CameraScanner) (w : World) :
  exists o,
    V1.start_catch e s w = Done (Returns o) (fst (stop s w)) (snd (stop s w)) /\
    st_success o = false /\
    st_code o = Some (snd (V1.classifyStartError e)) /\
    st_details o = Some (err_message e).
Proof.
  unfold V1.start_catch.
  destruct (stop s w) as [s' w'] eqn:Hstop.
  destruct (V1.classifyStartError e) as [m c] eqn:Hc.
  eexists; repeat split.
Qed.

(** C7, as the code has it.  With a DOM element as container and the camera
    not yet running, a [start] that cannot obtain the stream, or cannot
    obtain the video element (its creation fails or does not finish within
    ten seconds), performs [stop()] and returns, not throws, an object with
    [success = false] whose code is CAMERA_PERMISSION_DENIED,
    NO_CAMERA_FOUND, CAMERA_TIMEOUT, INVALID_CONTAINER or the default
    CAMERA_START_ERROR.  The session then holds no stream and no video
    element, and every track of a stream that had been obtained is stopped. *)
Theorem start_acquisition_failure_is_structured :
  forall (env : Env) (c : nat) (s : CameraScanner) (w : World),
    cameraStarted s = false ->
    ((exists d e, startCameraStream env = Settles d (Rejected e)) \/
     (exists d st d2 e,
         startCameraStream env = Settles d (Resolved st) /\
         race_timeout (createVideoElement env st) 10000 "Video load timeout"
           = Settles d2 (Rejected e))) ->
    structuredFailure (classifiedCodes ++ ["CAMERA_START_ERROR"])
                      (V1.start env (Element c) s w) /\
    (forall d st, startCameraStream env = Settles d (Resolved st) ->
       exists o s' w',
         V1.start env (Element c) s w = Done (Returns o) s' w' /\
         forall t, In t (getTracks st) -> In t (stoppedTracks w')).
Proof.
  intros env c s w Hns Hfail.
  unfold V1.start. rewrite Hns.
  destruct Hfail as [(d & e & He) | (d & st & d2 & e & Hst & Hv)].
  - rewrite He. split.
    + destruct (start_catch_structured e s (elapse d w)) as (o & Ho & Hsucc & Hcode & _).
      exists o, (fst (stop s (elapse d w))), (snd (stop s (elapse d w))).
      repeat split; try assumption.
      * exists (snd (V1.classifyStartError e)). split; [assumption|].
        apply classifyStartError_codes.
    + intros d' st' Hst'. discriminate Hst'.
  - rewrite Hst, Hv.
    set (s1 := set_stream (Some st) s).
    set (w1 := elapse d2 (snd (setTimeout 10000 (elapse d w)))).
    destruct (start_catch_structured e s1 w1) as (o & Ho & Hsucc & Hcode & _).
    split.
    + exists o, (fst (stop s1 w1)), (snd (stop s1 w1)).
      repeat split; try assumption.
      exists (snd (V1.classifyStartError e)). split; [assumption|].
      apply classifyStartError_codes.
    + intros d' st' Hst'. inversion Hst'; subst d' st'.
      exists o, (fst (stop s1 w1)), (snd (stop s1 w1)). split; [assumption|].
      intros t Ht. apply (stop_stops_tracks s1 w1 st t); [reflexivity | exact Ht].
Qed.

Lemma start_acquisition_failure_witness :
  structuredFailure (classifiedCodes ++ ["CAMERA_START_ERROR"])
    (V1.start Fixtures.envVideoStalls (Element 3) Fixtures.idleBarcode Fixtures.world0).
Proof.
  apply (start_acquisition_failure_is_structured Fixtures.envVideoStalls 3
           Fixtures.idleBarcode Fixtures.world0).
  - reflexivity.
  - right. exists 0, Fixtures.camera, 10000, (Error "Video load timeout").
    split; reflexivity.
Defined.

(** C7, as the specification states it, fails twice: a missing container
    makes [start] throw before its [try] block (nothing is returned and
    [stop()] is not reached), and an acquisition error that is none of the
    recognised kinds is reported under CAMERA_START_ERROR, a code outside the
    list. *)
Lemma start_failure_as_specified_fails :
  V1.start Fixtures.envVideoStalls NoContainer Fixtures.idleBarcode Fixtures.world0
    = Done (Throws (Error "Container element is required for CameraScanner.start()"))
           Fixtures.idleBarcode Fixtures.world0 /\
  (exists o s' w',
      V1.start (Fixtures.envCameraFails (mkError "NotReadableError" "Could not start video source"))
               (Element 3) Fixtures.idleBarcode Fixtures.world0
        = Done (Returns o) s' w' /\
      st_code o = Some "CAMERA_START_ERROR" /\
      ~ In "CAMERA_START_ERROR" classifiedCodes) /\
  ~ start_failure_as_specified.
Proof.
  split; [reflexivity|]. split.
  - eexists _, _, _. split; [reflexivity|]. split; [reflexivity|].
    simpl. intros [H|[H|[H|[H|[]]]]]; discriminate H.
  - intro Hclaim.
    destruct (Hclaim Fixtures.envVideoStalls NoContainer Fixtures.idleBarcode
                     Fixtures.world0 eq_refl (or_introl eq_refl))
      as (o & s' & w' & Hrun & _).
    discriminate Hrun.
Qed.

(* ================================================================== *)
(** ** The virtual clock *)

Lemma now_elapse (d : Z) (w : World) : now (elapse d w) = now w + Z.max 0 d.
Proof. reflexivity. Qed.

Lemma now_clearTimeout (id : nat) (w : World) : now (clearTimeout id w) = now w.
Proof. reflexivity. Qed.

Lemma now_setTimeout (d : Z) (w : World) : now (snd (setTimeout d w)) = now w.
Proof. reflexivity. Qed.

Lemma now_logScan (r : ScanRequest) (w : World) : now (logScan r w) = now w.
Proof. reflexivity. Qed.

Lemma now_clearIfArmed (t : option nat) (w : World) : now (clearIfArmed t w) = now w.
Proof. destruct t; reflexivity. Qed.

Lemma scanLog_elapse (d : Z) (w : World) : scanLog (elapse d w) = scanLog w.
Proof. reflexivity. Qed.

Lemma scanLog_clearTimeout (id : nat) (w : World) : scanLog (clearTimeout id w) = scanLog w.
Proof. reflexivity. Qed.

Lemma scanLog_setTimeout (d : Z) (w : World) : scanLog (snd (setTimeout d w)) = scanLog w.
Proof. reflexivity. Qed.

Lemma scanLog_logScan (r : ScanRequest) (w : World) : scanLog (logScan r w) = (scanLog w ++ [r])%list.
Proof. reflexivity. Qed.


Ltac clock :=
  repeat (rewrite now_elapse || rewrite now_clearTimeout || rewrite now_setTimeout
          || rewrite now_logScan || rewrite now_clearIfArmed).

(* ================================================================== *)
(** ** Single scans: [scanOnce] and [scan] *)

Lemma scanOnce_fail_finished (e : JsError) (l : V1.OnceLocals) (s : CameraScanner)
  (w : World) :
  exists o w', V1.scanOnce_fail e l s w = Finished (Returns o) (set_isScanning false s) w'.
Proof.
  unfold V1.scanOnce_fail. destruct (V1.scanOnce_catch e l s w) as [o w'].
  now exists o, w'.
Qed.

(** What a suspended [scanOnce] has established before its first [await]. *)
Lemma scanOnce_enter_awaiting (env : Env) (options : ScanOptions) (s s1 : CameraScanner)
  (w w1 : World) (l : V1.OnceLocals) :
  V1.scanOnce_enter env options s w = Awaiting l s1 w1 ->
  cameraStarted s = true /\ _isScanning s = false /\
  s1 = set_isScanning true s /\
  now w1 = now w /\
  V1.l_scanStartTime l = Some (now w) /\
  V1.l_scanSucceeded l = false /\
  V1.l_minScanTime l = snd (V1._getTimeoutConfig s1 (V1.l_finalFormats l)).
Proof.
  unfold V1.scanOnce_enter.
  destruct (cameraStarted s) eqn:Hc; cbn [negb]; [|discriminate].
  destruct (_isScanning s) eqn:Hi; [discriminate|].
  destruct (V1._getScanConfig (set_isScanning true s)) as [sc|e].
  2:{ destruct (scanOnce_fail_finished e V1.initialOnceLocals (set_isScanning true s) w)
        as (o & w' & ->). discriminate. }
  destruct (V1._validateConfiguration (set_isScanning true s)) as [av|e].
  2:{ destruct (scanOnce_fail_finished e V1.initialOnceLocals (set_isScanning true s) w)
        as (o & w' & ->). discriminate. }
  match goal with |- context [if (?n =? 0)%nat then _ else _] => destruct (n =? 0)%nat end.
  { match goal with |- context [V1.scanOnce_fail ?e ?l ?s ?w] =>
      destruct (scanOnce_fail_finished e l s w) as (o & w' & ->) end. discriminate. }
  match goal with |- context [if ?b then Awaiting _ _ _ else _] => destruct b end.
  - intro H; inversion H; subst; cbn.
    repeat split; reflexivity.
  - match goal with |- context [if ?b then _ else _] => destruct b end;
      intro H; inversion H; subst; cbn; repeat split; reflexivity.
Qed.

Lemma scan_enter_awaiting (env : Env) (options : ScanOptions) (s s1 : V2.Session)
  (w w1 : World) (l : V2.ScanLocals) :
  V2.scan_enter env options s w = Awaiting l s1 w1 ->
  cameraStarted (V2.core s) = true /\ _isScanning (V2.core s) = false /\
  s1 = V2.set_core (set_isScanning true (V2.core s)) s /\
  now w1 = now w /\
  V2.l_scanStartTime l = now w /\
  V2.l_minScanTime l = V2._getMinScanTime s.
Proof.
  unfold V2.scan_enter.
  destruct (cameraStarted (V2.core s)) eqn:Hc; cbn [negb]; [|discriminate].
  destruct (_isScanning (V2.core s)) eqn:Hi; [discriminate|].
  match goal with |- context [if ?b then _ else _] => destruct b end;
    intro H; inversion H; subst; cbn; repeat split; reflexivity.
Qed.

(** C2.  While a [scanOnce] (first listing) or a [scan] (second listing) is
    suspended on its scanner promise, any further call on the same session,
    with any options and at any later moment, ends at its entry, before any
    [await]: it throws 'Scan already in progress', it is not suspended or
    queued, and it hands back the session and the world exactly as it found
    them, so the suspended call resumes on an untouched session. *)
Theorem scan_while_scanning_fails_at_entry :
  forall (env env' : Env) (options options' : ScanOptions) (w w' : World),
    (forall s l s1 w1,
        V1.scanOnce_enter env options s w = Awaiting l s1 w1 ->
        V1.scanOnce_enter env' options' s1 w'
          = Finished (Throws scanInProgressOnce) s1 w' /\
        V1.scanOnce env' options' s1 w' = Done (Throws scanInProgressOnce) s1 w') /\
    (forall s l s1 w1,
        V2.scan_enter env options s w = Awaiting l s1 w1 ->
        V2.scan_enter env' options' s1 w' = Finished (Throws scanInProgress) s1 w' /\
        V2.scan env' options' s1 w' = Done (Throws scanInProgress) s1 w').
Proof.
  intros env env' options options' w w'. split.
  - intros s l s1 w1 H.
    apply scanOnce_enter_awaiting in H as (Hc & _ & -> & _).
    assert (E : V1.scanOnce_enter env' options' (set_isScanning true s) w'
                = Finished (Throws scanInProgressOnce) (set_isScanning true s) w').
    { unfold V1.scanOnce_enter.
      replace (cameraStarted (set_isScanning true s)) with true by (symmetry; exact Hc).
      reflexivity. }
    split; [exact E|]. unfold V1.scanOnce. now rewrite E.
  - intros s l s1 w1 H.
    apply scan_enter_awaiting in H as (Hc & _ & -> & _).
    assert (E : V2.scan_enter env' options' (V2.set_core (set_isScanning true (V2.core s)) s) w'
                = Finished (Throws scanInProgress)
                           (V2.set_core (set_isScanning true (V2.core s)) s) w').
    { unfold V2.scan_enter. cbn [V2.core V2.set_core].
      replace (cameraStarted (set_isScanning true (V2.core s))) with true
        by (symmetry; exact Hc).
      reflexivity. }
    split; [exact E|]. unfold V2.scan. now rewrite E.
Qed.

Lemma scan_while_scanning_witness :
  V1.scanOnce (Fixtures.envWith 5 (Resolved [Fixtures.qrDetection])) noOptions
              (set_isScanning true Fixtures.activeBarcode) (elapse 2 Fixtures.world0)
  = Done (Throws scanInProgressOnce) (set_isScanning true Fixtures.activeBarcode)
         (elapse 2 Fixtures.world0).
Proof.
  refine (proj2 (proj1 (scan_while_scanning_fails_at_entry
                   (Fixtures.envWith 900 (Resolved [])) 
                   (Fixtures.envWith 5 (Resolved [Fixtures.qrDetection]))
                   noOptions noOptions Fixtures.world0 (elapse 2 Fixtures.world0))
                 Fixtures.activeBarcode _ _ _ _)).
  reflexivity.
Defined.

Lemma getTimeoutConfig_floor (s : CameraScanner) (fmts : list string) :
  arr_includes fmts "mrz" = false -> snd (V1._getTimeoutConfig s fmts) = 1500.
Proof.
  intro H. unfold V1._getTimeoutConfig. rewrite H.
  destruct (arr_includes fmts "pdf417_enhanced"); reflexivity.
Qed.

(** The clock after the minimum-scan-time block of [scanOnce]. *)
Lemma scanOnce_floor_clock (minScanTime start : Z) (needs : bool) (w : World) :
  start <= now w ->
  now (if needs then
         let elapsedTime := elapsedSince (Some start) w in
         if elapsedTime <? minScanTime then
           let '(_, w') := setTimeout (minScanTime - elapsedTime) w in
           elapse (minScanTime - elapsedTime) w'
         else w
       else w)
  = if needs then Z.max (now w) (start + minScanTime) else now w.
Proof.
  intro Hle. destruct needs; [|reflexivity].
  cbn [elapsedSince]. cbv zeta.
  destruct (Z.ltb_spec (now w - start) minScanTime) as [Hlt|Hge].
  - cbn. lia.
  - lia.
Qed.

Lemma formatScanResult_success (s : CameraScanner) (w : World) (rs : list ScanResult)
  (fmt : string) :
  V1.success (V1._formatScanResult s w rs fmt) = true <-> rs <> [].
Proof.
  destruct rs; cbn; split; intro H; try discriminate; try reflexivity; congruence.
Qed.

Lemma scanOnce_catch_clock (e : JsError) (l : V1.OnceLocals) (s : CameraScanner)
  (w : World) :
  now (snd (V1.scanOnce_catch e l s w)) = now w.
Proof.
  unfold V1.scanOnce_catch.
  repeat match goal with |- context [if ?b then _ else _] => destruct b end;
    cbn [snd]; apply now_clearIfArmed.
Qed.

Lemma scanOnce_catch_not_succeeded (e : JsError) (l : V1.OnceLocals) (s : CameraScanner)
  (w : World) :
  V1.l_scanSucceeded l = false -> V1.success (fst (V1.scanOnce_catch e l s w)) = false.
Proof.
  intro H. unfold V1.scanOnce_catch. rewrite H, andb_false_r.
  destruct (String.eqb (err_message e) "SCAN_TIMEOUT"); reflexivity.
Qed.

(** [scanOnce], standard branch, when the race is won by a resolved scan. *)
Lemma scanOnce_resolved (env : Env) (options : ScanOptions) (s s1 : CameraScanner)
  (w w1 : World) (l : V1.OnceLocals) (d : Z) (rs : list ScanResult) :
  0 <= d ->
  V1.scanOnce_enter env options s w = Awaiting l s1 w1 ->
  V1.l_mrzCamera l = false ->
  race_timeout (V1.l_pending l) (V1.l_timeoutMs l) "SCAN_TIMEOUT" = Settles d (Resolved rs) ->
  exists o s' w',
    V1.scanOnce env options s w = Done (Returns o) s' w' /\
    (V1.success o = true <-> rs <> []) /\
    now w' = if arr_includes (V1.l_finalFormats l) "mrz" then now w + d
             else Z.max (now w + d) (now w + 1500).
Proof.
  intros Hd Henter Hmrz Hrace.
  pose proof (scanOnce_enter_awaiting _ _ _ _ _ _ _ Henter)
    as (_ & _ & Hs1 & Hnow & Hstart & _ & Hmin).
  unfold V1.scanOnce. rewrite Henter. unfold V1.scanOnce_resume.
  rewrite Hmrz, Hrace. cbv zeta. rewrite Hstart.
  set (w2 := clearIfArmed (V1.l_scanTimeout l) (elapse d w1)).
  assert (Hw2 : now w2 = now w + d) by (unfold w2; clock; lia).
  set (needs := negb (arr_includes (V1.l_finalFormats l) "mrz") && (0 <? V1.l_minScanTime l)).
  pose proof (scanOnce_floor_clock (V1.l_minScanTime l) (now w) needs w2 ltac:(lia)) as Hclock.
  cbv zeta in Hclock.
  assert (Hfinal :
    (if needs then Z.max (now w2) (now w + V1.l_minScanTime l) else now w2)
    = if arr_includes (V1.l_finalFormats l) "mrz" then now w + d
      else Z.max (now w + d) (now w + 1500)).
  { unfold needs. destruct (arr_includes (V1.l_finalFormats l) "mrz") eqn:Hinc; cbn [negb andb].
    - exact Hw2.
    - rewrite Hmin, (getTimeoutConfig_floor s1 _ Hinc). cbn. now rewrite Hw2. }
  destruct rs as [|r rs'].
  - eexists _, _, _. split; [reflexivity|]. split.
    + cbn. split; [discriminate | congruence].
    + rewrite <- Hfinal. exact Hclock.
  - eexists _, _, _. split; [reflexivity|]. split.
    + apply formatScanResult_success.
    + rewrite <- Hfinal. exact Hclock.
Qed.

(** [scanOnce], standard branch, when the scan rejects or the timer wins. *)
Lemma scanOnce_rejected (env : Env) (options : ScanOptions) (s s1 : CameraScanner)
  (w w1 : World) (l : V1.OnceLocals) (d : Z) (e : JsError) :
  0 <= d ->
  V1.scanOnce_enter env options s w = Awaiting l s1 w1 ->
  V1.l_mrzCamera l = false ->
  race_timeout (V1.l_pending l) (V1.l_timeoutMs l) "SCAN_TIMEOUT" = Settles d (Rejected e) ->
  exists o s' w',
    V1.scanOnce env options s w = Done (Returns o) s' w' /\
    V1.success o = false /\ now w' = now w + d.
Proof.
  intros Hd Henter Hmrz Hrace.
  pose proof (scanOnce_enter_awaiting _ _ _ _ _ _ _ Henter)
    as (_ & _ & Hs1 & Hnow & Hstart & Hsucc & Hmin).
  unfold V1.scanOnce. rewrite Henter. unfold V1.scanOnce_resume.
  rewrite Hmrz, Hrace.
  pose proof (scanOnce_catch_clock e l s1 (elapse d w1)) as Hc.
  pose proof (scanOnce_catch_not_succeeded e l s1 (elapse d w1) Hsucc) as Hf.
  destruct (V1.scanOnce_catch e l s1 (elapse d w1)) as [o wc].
  cbn [fst snd] in Hc, Hf.
  eexists _, _, _. split; [reflexivity|]. split; [exact Hf|].
  rewrite Hc. clock. lia.
Qed.

(** [scanOnce], MRZ camera branch: the result is returned as soon as the scan
    resolves. *)
Lemma scanOnce_mrz_camera (env : Env) (options : ScanOptions) (s s1 : CameraScanner)
  (w w1 : World) (l : V1.OnceLocals) (d : Z) (rs : list ScanResult) :
  0 <= d ->
  V1.scanOnce_enter env options s w = Awaiting l s1 w1 ->
  V1.l_mrzCamera l = true ->
  V1.l_pending l = Settles d (Resolved rs) ->
  exists o s' w',
    V1.scanOnce env options s w = Done (Returns o) s' w' /\
    (V1.success o = true <-> rs <> []) /\ now w' = now w + d.
Proof.
  intros Hd Henter Hmrz Hp.
  pose proof (scanOnce_enter_awaiting _ _ _ _ _ _ _ Henter)
    as (_ & _ & Hs1 & Hnow & _).
  unfold V1.scanOnce. rewrite Henter. unfold V1.scanOnce_resume.
  rewrite Hmrz, Hp.
  eexists _, _, _. split; [reflexivity|]. split.
  - apply formatScanResult_success.
  - clock. lia.
Qed.

Lemma scan_floor_clock (minScanTime start : Z) (w : World) :
  start <= now w ->
  now (if 0 <? minScanTime then
         let elapsedTime := now w - start in
         if elapsedTime <? minScanTime then
           let waitTime := minScanTime - elapsedTime in
           let '(_, w') := setTimeout waitTime w in
           elapse waitTime w'
         else w
       else w)
  = if 0 <? minScanTime then Z.max (now w) (start + minScanTime) else now w.
Proof.
  intro Hle. destruct (0 <? minScanTime); [|reflexivity].
  cbv zeta.
  destruct (Z.ltb_spec (now w - start) minScanTime) as [Hlt|Hge].
  - cbn. lia.
  - lia.
Qed.

Lemma formatScanResult2_success (s : V2.Session) (w : World) (rs : list ScanResult)
  (fmt : string) :
  V2.success (V2._formatScanResult s w rs fmt) = true <-> rs <> [].
Proof.
  destruct rs; cbn; split; intro H; try discriminate; try reflexivity; congruence.
Qed.

(** [scan] when the race is won by a resolved scan. *)
Lemma scan_resolved (env : Env) (options : ScanOptions) (s s1 : V2.Session)
  (w w1 : World) (l : V2.ScanLocals) (d : Z) (rs : list ScanResult) :
  0 <= d ->
  V2.scan_enter env options s w = Awaiting l s1 w1 ->
  race_timeout (V2.l_pending l) (V2.l_timeoutMs l) "SCAN_TIMEOUT" = Settles d (Resolved rs) ->
  exists o s' w',
    V2.scan env options s w = Done (Returns o) s' w' /\
    (V2.success o = true <-> rs <> []) /\
    now w' = if arr_includes (V2._formats s) "mrz" then now w + d
             else Z.max (now w + d) (now w + 1500).
Proof.
  intros Hd Henter Hrace.
  pose proof (scan_enter_awaiting _ _ _ _ _ _ _ Henter)
    as (_ & _ & Hs1 & Hnow & Hstart & Hmin).
  unfold V2.scan. rewrite Henter. unfold V2.scan_resume.
  rewrite Hrace. cbv zeta.
  set (wa := clearIfArmed (V2.l_timeout l) (elapse d w1)).
  assert (Hwa : now wa = now w + d) by (unfold wa; clock; lia).
  pose proof (scan_floor_clock (V2.l_minScanTime l) (V2.l_scanStartTime l) wa
                ltac:(rewrite Hstart; lia)) as Hclock.
  cbv zeta in Hclock.
  assert (Hfinal :
    (if 0 <? V2.l_minScanTime l
     then Z.max (now wa) (V2.l_scanStartTime l + V2.l_minScanTime l) else now wa)
    = if arr_includes (V2._formats s) "mrz" then now w + d
      else Z.max (now w + d) (now w + 1500)).
  { rewrite Hmin, Hstart, Hwa. unfold V2._getMinScanTime.
    destruct (arr_includes (V2._formats s) "mrz"); reflexivity. }
  destruct rs as [|r rs'].
  - eexists _, _, _. split; [reflexivity|]. split.
    + cbn. split; [discriminate | congruence].
    + rewrite <- Hfinal. exact Hclock.
  - eexists _, _, _. split; [reflexivity|]. split.
    + apply formatScanResult2_success.
    + rewrite <- Hfinal. exact Hclock.
Qed.

(** [scan] when the scan rejects or the timer wins. *)
Lemma scan_rejected (env : Env) (options : ScanOptions) (s s1 : V2.Session)
  (w w1 : World) (l : V2.ScanLocals) (d : Z) (e : JsError) :
  0 <= d ->
  V2.scan_enter env options s w = Awaiting l s1 w1 ->
  race_timeout (V2.l_pending l) (V2.l_timeoutMs l) "SCAN_TIMEOUT" = Settles d (Rejected e) ->
  exists o s' w',
    V2.scan env options s w = Done (Returns o) s' w' /\
    V2.success o = false /\ now w' = now w + d.
Proof.
  intros Hd Henter Hrace.
  pose proof (scan_enter_awaiting _ _ _ _ _ _ _ Henter)
    as (_ & _ & Hs1 & Hnow & _).
  unfold V2.scan. rewrite Henter. unfold V2.scan_resume.
  rewrite Hrace. unfold V2.scan_catch.
  destruct (String.eqb (err_message e) "SCAN_TIMEOUT");
    (eexists _, _, _; split; [reflexivity|]; split; [reflexivity|]; clock; lia).
Qed.

(** C1, as the code has it.  Take a single scan that reached its scanner
    call, and let the race between the scan promise and the timeout timer
    settle [d] milliseconds after the scan started.
    - [scanOnce], standard branch: when the scan promise resolves, with or
      without detections, the call resolves at [max d 1500] milliseconds
      after the start if the final formats do not include 'mrz', and at [d]
      if they do; it reports success exactly when there is a detection.
    - [scanOnce], MRZ camera branch: the call resolves at [d].
    - [scan]: the same as the standard branch, the exemption being decided
      by the session's configured formats.
    - In both methods a scan that rejects or times out is reported as a
      failure at [d]: no floor is applied. *)
Theorem single_scan_minimum_duration :
  forall (env : Env) (options : ScanOptions) (w : World) (d : Z),
    0 <= d ->
    (forall s l s1 w1,
        V1.scanOnce_enter env options s w = Awaiting l s1 w1 ->
        (V1.l_mrzCamera l = false ->
         (forall rs,
             race_timeout (V1.l_pending l) (V1.l_timeoutMs l) "SCAN_TIMEOUT"
               = Settles d (Resolved rs) ->
             exists o s' w',
               V1.scanOnce env options s w = Done (Returns o) s' w' /\
               (V1.success o = true <-> rs <> []) /\
               now w' = if arr_includes (V1.l_finalFormats l) "mrz" then now w + d
                        else Z.max (now w + d) (now w + 1500)) /\
         (forall e,
             race_timeout (V1.l_pending l) (V1.l_timeoutMs l) "SCAN_TIMEOUT"
               = Settles d (Rejected e) ->
             exists o s' w',
               V1.scanOnce env options s w = Done (Returns o) s' w' /\
               V1.success o = false /\ now w' = now w + d)) /\
        (V1.l_mrzCamera l = true ->
         forall rs,
           V1.l_pending l = Settles d (Resolved rs) ->
           exists o s' w',
             V1.scanOnce env options s w = Done (Returns o) s' w' /\
             (V1.success o = true <-> rs <> []) /\ now w' = now w + d)) /\
    (forall s l s1 w1,
        V2.scan_enter env options s w = Awaiting l s1 w1 ->
        (forall rs,
            race_timeout (V2.l_pending l) (V2.l_timeoutMs l) "SCAN_TIMEOUT"
              = Settles d (Resolved rs) ->
            exists o s' w',
              V2.scan env options s w = Done (Returns o) s' w' /\
              (V2.success o = true <-> rs <> []) /\
              now w' = if arr_includes (V2._formats s) "mrz" then now w + d
                       else Z.max (now w + d) (now w + 1500)) /\
        (forall e,
            race_timeout (V2.l_pending l) (V2.l_timeoutMs l) "SCAN_TIMEOUT"
              = Settles d (Rejected e) ->
            exists o s' w',
              V2.scan env options s w = Done (Returns o) s' w' /\
              V2.success o = false /\ now w' = now w + d)).
Proof.
  intros env options w d Hd. split.
  - intros s l s1 w1 Henter. split.
    + intro Hmrz. split.
      * intros rs Hrace. exact (scanOnce_resolved _ _ _ _ _ _ _ _ _ Hd Henter Hmrz Hrace).
      * intros e Hrace. exact (scanOnce_rejected _ _ _ _ _ _ _ _ _ Hd Henter Hmrz Hrace).
    + intros Hmrz rs Hp. exact (scanOnce_mrz_camera _ _ _ _ _ _ _ _ _ Hd Henter Hmrz Hp).
  - intros s l s1 w1 Henter. split.
    + intros rs Hrace. exact (scan_resolved _ _ _ _ _ _ _ _ _ Hd Henter Hrace).
    + intros e Hrace. exact (scan_rejected _ _ _ _ _ _ _ _ _ Hd Henter Hrace).
Qed.

(** A QR code found after 5 ms is handed over 1500 ms after the scan
    started. *)
Lemma single_scan_minimum_duration_witness :
  exists o s' w',
    V1.scanOnce (Fixtures.envWith 5 (Resolved [Fixtures.qrDetection])) noOptions
                Fixtures.activeBarcode Fixtures.world0 = Done (Returns o) s' w' /\
    (V1.success o = true <-> [Fixtures.qrDetection] <> []) /\
    now w' = 2500.
Proof.
  let v := eval vm_compute in
        (V1.scanOnce_enter (Fixtures.envWith 5 (Resolved [Fixtures.qrDetection]))
                           noOptions Fixtures.activeBarcode Fixtures.world0) in
  match v with
  | Awaiting ?l ?s1 ?w1 =>
    exact (proj1 (proj1 (proj1 (single_scan_minimum_duration
             (Fixtures.envWith 5 (Resolved [Fixtures.qrDetection])) noOptions
             Fixtures.world0 5 (proj1 (Z.leb_le 0 5) eq_refl)) Fixtures.activeBarcode l s1 w1
             eq_refl) eq_refl) [Fixtures.qrDetection] eq_refl)
  end.
Defined.

(** In the second listing the exemption follows the session's configured
    formats: a barcode session asked for 'mrz' only still waits out the
    floor. *)
Example scan_floor_follows_configured_formats :
  exists o s' w',
    V2.scan (Fixtures.envWith 5 (Resolved [Fixtures.mrzDetection]))
            (mkOptions (Some ["mrz"]) None None None None None None)
            Fixtures.activeBarcode2 Fixtures.world0
      = Done (Returns o) s' w' /\
    V2.success o = true /\ now w' = now Fixtures.world0 + 1500.
Proof. eexists _, _, _. repeat split. Qed.

(** C1, as the specification states it, fails: a barcode scan whose scanner
    answers after 5 ms with no detection is kept until 1500 ms have passed
    and only then reports the failure. *)
Lemma floor_applies_without_detection :
  (exists o s' w',
      V1.scanOnce (Fixtures.envWith 5 (Resolved [])) noOptions
                  Fixtures.activeBarcode Fixtures.world0 = Done (Returns o) s' w' /\
      V1.success o = false /\
      now w' = now Fixtures.world0 + 1500) /\
  ~ floor_only_on_success_as_specified.
Proof.
  split.
  - eexists _, _, _. repeat split.
  - intro Hclaim.
    destruct (Hclaim (Fixtures.envWith 5 (Resolved [])) noOptions Fixtures.activeBarcode
                     Fixtures.world0 _ _ _ 5 eq_refl eq_refl ltac:(lia))
      as (o & s' & w' & Hrun & Hnow).
    cbv in Hrun. inversion Hrun; subst. cbv in Hnow. discriminate Hnow.
Qed.

(* ================================================================== *)
(** ** The continuous-scan loop *)

Lemma throwIfAborted_never (signal : option AbortSignal) (w : World) :
  neverAborts signal -> throwIfAborted signal w = false.
Proof.
  intro H. destruct signal as [sg|]; [|reflexivity].
  unfold throwIfAborted, aborted. now rewrite (H sg eq_refl).
Qed.

Lemma intervalWait_completes (interval : Z) (signal : option AbortSignal) (w : World) :
  neverAborts signal ->
  exists id w',
    V1.intervalWait interval signal w = (Resolved tt, id, w') /\
    scanLog w' = scanLog w.
Proof.
  intro H. unfold V1.intervalWait.
  destruct signal as [sg|].
  - pose proof (H sg eq_refl) as Hsg.
    cbn. unfold aborted. rewrite Hsg. cbn.
    eexists _, _. split; reflexivity.
  - cbn. eexists _, _. split; reflexivity.
Qed.

(** With [m] attempts left before the bound [n], the loop performs exactly
    [m] scans and then returns the max-attempts outcome. *)
Lemma continuousLoop_reaches_bound (env : Env) (s : CameraScanner)
  (finalFormats : list string) (mode : string) (signal : option AbortSignal)
  (interval n : Z) :
  neverDetects env -> neverAborts signal ->
  forall (m fuel : nat) (l : V1.ContLocals) (w : World),
    V1.c_attempt l = n - Z.of_nat m ->
    (m < fuel)%nat ->
    exists l' w',
      V1.continuousLoop fuel env s finalFormats mode signal interval (Some n) l w
        = BReturn (Some (V1.maxAttemptsReached s n (n + 1))) l' w' /\
      List.length (scanLog w') = (List.length (scanLog w) + m)%nat.
Proof.
  intros Hnd Hna. induction m as [|m IH]; intros fuel l w Hl Hfuel.
  - destruct fuel as [|fuel]; [lia|]. cbn [V1.continuousLoop].
    rewrite (throwIfAborted_never signal w Hna).
    replace (n <? V1.c_attempt l + 1) with true
      by (symmetry; apply Z.ltb_lt; cbn in Hl; lia).
    replace (V1.c_attempt l + 1) with (n + 1) by (cbn in Hl; lia).
    eexists _, _. split; [reflexivity|]. now rewrite Nat.add_0_r.
  - destruct fuel as [|fuel]; [lia|]. cbn [V1.continuousLoop].
    rewrite (throwIfAborted_never signal w Hna).
    replace (n <? V1.c_attempt l + 1) with false
      by (symmetry; apply Z.ltb_ge; lia).
    cbv zeta.
    set (req := mkRequest "video" finalFormats mode signal).
    set (l1 := V1.mkContLocals (V1.c_scanStartTime l) (V1.c_scanSucceeded l)
                               (V1.c_attempt l + 1)).
    assert (Hnext : forall w1, scanLog w1 = (scanLog w ++ [req])%list ->
      exists l' w',
        match V1.intervalWait interval signal w1 with
        | (Resolved _, _, w'') =>
          V1.continuousLoop fuel env s finalFormats mode signal interval (Some n) l1 w''
        | (Rejected e, _, w'') => BThrow e l1 w''
        end = BReturn (Some (V1.maxAttemptsReached s n (n + 1))) l' w' /\
        List.length (scanLog w') = (List.length (scanLog w) + S m)%nat).
    { intros w1 Hlog.
      destruct (intervalWait_completes interval signal w1 Hna) as (id & w2 & -> & Hlog2).
      destruct (IH fuel l1 w2) as (l' & w' & Hrun & Hlen).
      - unfold l1; cbn. lia.
      - lia.
      - exists l', w'. split; [exact Hrun|].
        rewrite Hlen, Hlog2, Hlog, length_app. cbn. lia. }
    destruct (Hnd (List.length (scanLog w)) req (now w)) as (d & [Hr | (e & Hr & He)]);
      rewrite Hr.
    + apply Hnext. reflexivity.
    + rewrite He. apply Hnext. reflexivity.
Qed.

Lemma getScanConfig_barcode (s : CameraScanner) :
  scanType (config s) = "barcode" ->
  V1._getScanConfig s
  = Returns (V1.mkScanConfig ["qr_code"; "pdf417_enhanced"; "pdf417"] true
                             (scanMode (config s))).
Proof. intro H. unfold V1._getScanConfig. now rewrite H. Qed.

(** C4.  On a started barcode session whose OpticalScanner has no
    [scanContinuous] of its own, with [maxAttempts = n >= 1], no
    cancellation, and a scanner none of whose calls yields a detection,
    [scanContinuous] terminates: it calls the scanner exactly [n] times and
    returns the MAX_ATTEMPTS_REACHED failure with [attempts = n] (any loop
    bound above [n] is enough for the model to reach that result). *)
Theorem continuous_scan_stops_at_max_attempts :
  forall (env : Env) (options : ScanOptions) (s : CameraScanner) (w : World)
         (n : Z) (avail : list string) (fuel : nat),
    1 <= n ->
    o_maxAttempts options = Some n ->
    neverAborts (o_signal options) ->
    neverDetects env ->
    cameraStarted s = true ->
    _isScanning s = false ->
    scanType (config s) = "barcode" ->
    has_scanContinuous (_opticalScanner s) = false ->
    V1._validateConfiguration s = Returns avail ->
    filter (arr_includes avail)
           (optOr (o_formats options) ["qr_code"; "pdf417_enhanced"; "pdf417"]) <> [] ->
    (Z.to_nat n < fuel)%nat ->
    exists o w',
      V1.scanContinuous fuel env options s w
        = Done (Returns (Some o)) (set_isScanning false s) w' /\
      V1.success o = false /\
      V1.code o = Some "MAX_ATTEMPTS_REACHED" /\
      V1.attempts o = Some n /\
      List.length (scanLog w') = (List.length (scanLog w) + Z.to_nat n)%nat.
Proof.
  intros env options s w n avail fuel Hn Hmax Hna Hnd Hstarted Hidle Htype Hno Hval Hfmts Hfuel.
  unfold V1.scanContinuous. rewrite Hstarted, Hidle. cbn [negb].
  rewrite (getScanConfig_barcode (set_isScanning true s) Htype).
  cbn [V1.useContinuousScanning negb].
  unfold V1.scanContinuous_body.
  change (V1._validateConfiguration (set_isScanning true s))
    with (V1._validateConfiguration s).
  rewrite Hval. cbn [V1.formats V1.preferredMode].
  destruct (List.length _ =? 0)%nat eqn:Hlen.
  { apply length_zero_nil in Hlen. contradiction. }
  rewrite (throwIfAborted_never _ w Hna).
  change (has_scanContinuous (_opticalScanner (set_isScanning true s)))
    with (has_scanContinuous (_opticalScanner s)).
  rewrite Hno.
  assert (Hm : V1.maxAttemptsOf options = Some n).
  { unfold V1.maxAttemptsOf. rewrite Hmax.
    destruct (Z.eqb_spec n 0); [lia | reflexivity]. }
  rewrite Hm.
  match goal with
  | |- context [V1.continuousLoop fuel env ?s1 ?ff ?mode ?sig ?int (Some n) ?l ?w0] =>
    destruct (continuousLoop_reaches_bound env s1 ff mode sig int n Hnd Hna
                (Z.to_nat n) fuel l w0) as (l' & w' & Hrun & Hlog);
      [cbn; lia | exact Hfuel | rewrite Hrun]
  end.
  eexists _, w'. split; [reflexivity|].
  repeat split; cbn.
  - f_equal. lia.
  - exact Hlog.
Qed.

Lemma continuous_scan_stops_at_max_attempts_witness :
  exists o w',
    V1.scanContinuous 4 (Fixtures.envWith 5 (Resolved []))
                      (mkOptions None None None None None (Some 3) None)
                      Fixtures.activeBarcode Fixtures.world0
      = Done (Returns (Some o)) (set_isScanning false Fixtures.activeBarcode) w' /\
    V1.success o = false /\
    V1.code o = Some "MAX_ATTEMPTS_REACHED" /\
    V1.attempts o = Some 3 /\
    List.length (scanLog w') = (List.length (scanLog Fixtures.world0) + Z.to_nat 3)%nat.
Proof.
  apply (continuous_scan_stops_at_max_attempts
           (Fixtures.envWith 5 (Resolved []))
           (mkOptions None None None None None (Some 3) None)
           Fixtures.activeBarcode Fixtures.world0 3
           ["qr_code"; "pdf417_enhanced"; "pdf417"] 4).
  - lia.
  - reflexivity.
  - intros sg H. discriminate H.
  - intros k req t. exists 5. left. reflexivity.
  - reflexivity.
  - reflexivity.
  - reflexivity.
  - reflexivity.
  - reflexivity.
  - discriminate.
  - cbn. lia.
Defined.

(** The per-attempt timeout the loop computes would indeed stay within the
    interval. *)
Lemma individualTimeout_within_interval (interval : Z) :
  0 <= interval -> (V1.individualTimeout interval <= inject_Z interval)%Q.
Proof.
  intro H. unfold V1.individualTimeout.
  eapply Qle_trans; [apply Q.le_min_l|].
  unfold Qle, Qmult, inject_Z; cbn. lia.
Qed.

(** The fallback loop computes [individualTimeout = min(interval * 0.8, 5000)]
    and then awaits the scanner without it.  With an interval of 1000 ms the
    computed bound is 800 ms, yet an attempt whose scanner answers after
    60000 ms is awaited to its end: the call returns 60000 ms after it
    started.  (The loop runs only on a scanner without a [scanContinuous]
    method.) *)
Lemma continuous_attempt_outlasts_individual_timeout :
  (V1.individualTimeout 1000 == inject_Z 800)%Q /\
  exists o w',
    V1.scanContinuous 1 (Fixtures.envWith 60000 (Resolved [Fixtures.qrDetection]))
                      (mkOptions None None None None (Some 1000) None None)
                      Fixtures.activeBarcode Fixtures.world0
      = Done (Returns (Some o)) Fixtures.activeBarcode w' /\
    V1.success o = true /\
    now w' = now Fixtures.world0 + 60000.
Proof.
  split; [reflexivity|].
  eexists _, _. repeat split.
Qed.



(** The same scenario through the whole method: the first attempt finds
    nothing at 1005, the signal aborts at 1100, and [scanContinuous] returns
    the cancelled outcome at 1100 instead of waiting until 3505. *)
Example continuous_scan_cancelled_during_wait :
  exists o s' w',
    V1.scanContinuous 10 (Fixtures.envWith 5 (Resolved []))
                      (mkOptions None None None (Some (mkSignal (Some 1100))) None None None)
                      Fixtures.activeBarcode Fixtures.world0
      = Done (Returns (Some o)) s' w' /\
    V1.success o = false /\ V1.cancelled o = true /\
    V1.attempts o = Some 1 /\ now w' = 1100 /\ timer_armed 0 w' = false.
Proof. eexists _, _, _. repeat split. Qed.



(* ================================================================== *)
(** ** File batches *)

Lemma race_settles {A} (p : Behaviour A) (t : Z) (msg : string) :
  0 < t -> exists d r, race_timeout p t msg = Settles d r.
Proof.
  intro H. unfold race_timeout.
  replace (0 <? t) with true by (symmetry; now apply Z.ltb_lt).
  destruct p as [d r|]; [destruct (d <=? t)|]; eexists _, _; reflexivity.
Qed.

Lemma race_reject_not_abort (env : Env) (k : nat) (req : ScanRequest) (t tm d : Z)
  (msg : string) (e : JsError) :
  noAbortErrors env ->
  race_timeout (os_scan env k req t) tm msg = Settles d (Rejected e) ->
  String.eqb (err_name e) "AbortError" = false.
Proof.
  intros Hna. unfold race_timeout.
  destruct (0 <? tm); destruct (os_scan env k req t) as [d' r|] eqn:Hs;
    try destruct (d' <=? tm); intro H; inversion H; subst;
    try reflexivity; eapply Hna; exact Hs.
Qed.

Lemma fileLoop_processAll (env : Env) (s : CameraScanner) (finalFormats : list string)
  (mode : string) (signal : option AbortSignal) (timeoutMs : Z) :
  neverAborts signal -> noAbortErrors env -> 0 < timeoutMs ->
  forall (files : list V1.File) (l : V1.FileLocals) (w : World),
  exists entries l' w',
    V1.fileLoop env s finalFormats mode signal true timeoutMs files l w
      = BReturn None l' w' /\
    V1.f_allResults l' = (V1.f_allResults l ++ entries)%list /\
    V1.f_processedFiles l' = (V1.f_processedFiles l + List.length files)%nat /\
    V1.f_scanStartTime l' = V1.f_scanStartTime l /\
    Forall2 (entryFor env finalFormats mode signal timeoutMs) files entries.
Proof.
  intros Hsig Hna Hpos. induction files as [|f files IH]; intros l w.
  - exists [], l, w. cbn. rewrite app_nil_r, Nat.add_0_r. repeat split. constructor.
  - cbn [V1.fileLoop]. rewrite (throwIfAborted_never signal w Hsig).
    replace (0 <? timeoutMs) with true by (symmetry; now apply Z.ltb_lt).
    cbn [setTimeout]. cbv zeta.
    set (req := mkRequest (V1.file_name f) finalFormats mode signal).
    destruct (race_settles (os_scan env (List.length (scanLog w)) req (now w)) timeoutMs
                "FILE_SCAN_TIMEOUT" Hpos) as (d & r & Hrace).
    
    rewrite Hrace.
    assert (Hname : forall o', V1.file o' = Some (V1.fileInfo f (S (V1.f_processedFiles l))) ->
              option_map V1.fi_name (V1.file o') = Some (V1.file_name f)).
    { intros o' ->. reflexivity. }
    assert (Hstep : forall (o : V1.Outcome) (l2 : V1.FileLocals) (w2 : World),
      V1.file o = Some (V1.fileInfo f (S (V1.f_processedFiles l))) ->
      V1.success o = detects (Settles d r) ->
      V1.f_allResults l2 = (V1.f_allResults l ++ [o])%list ->
      V1.f_processedFiles l2 = S (V1.f_processedFiles l) ->
      V1.f_scanStartTime l2 = V1.f_scanStartTime l ->
      exists entries l' w',
        V1.fileLoop env s finalFormats mode signal true timeoutMs files l2 w2
          = BReturn None l' w' /\
        V1.f_allResults l' = (V1.f_allResults l ++ entries)%list /\
        V1.f_processedFiles l' = (V1.f_processedFiles l + List.length (f :: files))%nat /\
        V1.f_scanStartTime l' = V1.f_scanStartTime l /\
        Forall2 (entryFor env finalFormats mode signal timeoutMs) (f :: files) entries).
    { intros o l2 w2 Hfile Hsucc Hres Hcount Hstart.
      destruct (IH l2 w2) as (entries & l' & w' & Hrun & Hall & Hproc & Hst & Hent).
      exists (o :: entries), l', w'. split; [exact Hrun|].
      split; [rewrite Hall, Hres, <- app_assoc; reflexivity|].
      split; [rewrite Hproc, Hcount; cbn; lia|].
      split; [congruence|].
      constructor; [|exact Hent].
      split; [apply Hname; exact Hfile|].
      exists (List.length (scanLog w)), (now w). fold req. rewrite Hrace. exact Hsucc. }
    destruct r as [[|r0 rs]|e].
    + apply Hstep with (o := V1.fileEntry s (Lit "No optical codes detected in file") None
                               f (S (V1.f_processedFiles l))); reflexivity.
    + match goal with
      | |- context [(_ ++ [?entry])%list] => apply Hstep with (o := entry); reflexivity
      end.
    + rewrite (race_reject_not_abort env _ req _ _ _ _ e Hna Hrace).
      apply Hstep with (o := V1.fileError s e timeoutMs f (S (V1.f_processedFiles l)));
        try reflexivity;
        unfold V1.fileError;
        destruct (String.eqb (err_message e) "FILE_SCAN_TIMEOUT"); reflexivity.
Qed.

Lemma supported_no_invalid (files : list V1.File) :
  forallb V1.typeSupported files = true ->
  filter (fun f => negb (V1.typeSupported f)) files = [].
Proof.
  induction files as [|a l IH]; [reflexivity|].
  cbn [forallb filter]. intro H. apply andb_true_iff in H as [Ha Hl].
  rewrite Ha. cbn [negb]. apply IH. exact Hl.
Qed.

Lemma getFileTimeoutConfig_positive (fmts : list string) :
  0 < V1._getFileTimeoutConfig fmts.
Proof.
  unfold V1._getFileTimeoutConfig.
  destruct (arr_includes fmts "mrz"); [lia|].
  destruct (arr_includes fmts "pdf417_enhanced"); lia.
Qed.

Lemma filter_complement_length {A} (p : A -> bool) (l : list A) :
  (List.length l - List.length (filter p l))%nat
  = List.length (filter (fun a => negb (p a)) l).
Proof.
  induction l as [|a l IH]; [reflexivity|].
  pose proof (filter_length_le p l) as Hle.
  cbn [filter]. destruct (p a); cbn [negb List.length].
  - rewrite <- IH. lia.
  - rewrite <- IH. lia.
Qed.

Lemma entries_names (env : Env) (ff : list string) (mode : string)
  (signal : option AbortSignal) (tm : Z) (files : list V1.File) (entries : list V1.Outcome) :
  Forall2 (entryFor env ff mode signal tm) files entries ->
  map (fun o => option_map V1.fi_name (V1.file o)) entries
  = map (fun f => Some (V1.file_name f)) files.
Proof.
  induction 1 as [|f o fs os [Hn _] _ IH]; [reflexivity|].
  cbn [map]. rewrite Hn, IH. reflexivity.
Qed.

Lemma entries_verdicts (env : Env) (ff : list string) (mode : string)
  (signal : option AbortSignal) (tm : Z) (beh : string -> Behaviour (list ScanResult))
  (files : list V1.File) (entries : list V1.Outcome) :
  (forall k req t, os_scan env k req t = beh (req_source req)) ->
  Forall2 (entryFor env ff mode signal tm) files entries ->
  map V1.success entries
  = map (fun f => detects (race_timeout (beh (V1.file_name f)) tm "FILE_SCAN_TIMEOUT")) files.
Proof.
  intro Hbeh. induction 1 as [|f o fs os [_ (k & t & Hs)] _ IH]; [reflexivity|].
  cbn [map]. rewrite Hs, Hbeh, IH. reflexivity.
Qed.

(** C6, as the code has it.  Take a session with a valid scan configuration
    and a non-empty batch whose files all pass the MIME-type check, with
    [processAll = true], no cancellation, a scanner that never rejects with
    an AbortError, and a positive per-file timeout (the default, or an
    override above zero).  Then [scanFile] returns a batch object: one entry
    per file, in order and under the file's own name; an entry is a success
    exactly when that file's scan, raced against the timeout, delivered a
    detection; a scan that rejects, times out or finds nothing yields a
    failure entry and the batch goes on.  The summary has
    [totalFiles = processedFiles] = number of files, [successfulFiles] =
    number of success entries and [failedFiles] = number of failure
    entries. *)
Theorem batch_isolates_file_failures :
  forall (env : Env) (files : list V1.File) (options : ScanOptions) (s : CameraScanner)
         (w : World) (scanConfig : V1.ScanConfig) (fmts avail : list string),
    files <> [] ->
    forallb V1.typeSupported files = true ->
    o_processAll options = Some true ->
    neverAborts (o_signal options) ->
    noAbortErrors env ->
    (forall t, o_timeoutMs options = Some t -> 0 < t) ->
    V1._getScanConfig s = Returns scanConfig ->
    match o_formats options with
    | Some requested => Returns requested
    | None => V1._getFileScanFormats s
    end = Returns fmts ->
    V1._validateConfiguration s = Returns avail ->
    filter (arr_includes avail) fmts <> [] ->
    let finalFormats := filter (arr_includes avail) fmts in
    let mode := modeOr (o_mode options) (V1.preferredMode scanConfig) in
    let timeoutMs := optOr (o_timeoutMs options) (V1._getFileTimeoutConfig finalFormats) in
    exists r entries sm w',
      V1.scanFile env (V1.FileArray files) options s w = Done (Returns r) s w' /\
      V1.results r = Some entries /\
      V1.summary r = Some sm /\
      Forall2 (entryFor env finalFormats mode (o_signal options) timeoutMs) files entries /\
      map (fun o => option_map V1.fi_name (V1.file o)) entries
        = map (fun f => Some (V1.file_name f)) files /\
      V1.totalFiles sm = List.length files /\
      V1.processedFiles sm = List.length files /\
      V1.successfulFiles sm = Some (List.length (filter V1.success entries)) /\
      V1.failedFiles sm
        = Some (List.length (filter (fun o => negb (V1.success o)) entries)) /\
      (forall beh,
          (forall k req t, os_scan env k req t = beh (req_source req)) ->
          map V1.success entries
          = map (fun f => detects (race_timeout (beh (V1.file_name f)) timeoutMs
                                                "FILE_SCAN_TIMEOUT")) files).
Proof.
  intros env files options s w scanConfig fmts avail Hne Htypes Hall Hsig Hna Htm
         Hcfg Hf Hval Hfmts finalFormats mode timeoutMs.
  assert (Hpos : 0 < timeoutMs).
  { unfold timeoutMs. destruct (o_timeoutMs options) as [t|] eqn:Ht; cbn.
    - apply Htm. reflexivity.
    - apply getFileTimeoutConfig_positive. }
  destruct (fileLoop_processAll env s finalFormats mode (o_signal options) timeoutMs
              Hsig Hna Hpos files (V1.mkFileLocals (Some (now w)) false 0 []) w)
    as (entries & l' & w' & Hrun & Hres & Hproc & Hstart & Hent).
  cbn [V1.f_allResults V1.f_processedFiles V1.f_scanStartTime app Nat.add] in Hres, Hproc, Hstart.
  assert (Hbody : V1.scanFile_body env files options s w
    = BReturn
        (V1.mkFileScanResult
           (V1.mkOutcome (0 <? V1.successCount entries)%nat (scanType (config s))
                         None None None false None None None None None None)
           (Some entries)
           (Some (V1.mkSummary (List.length files) (List.length files)
                    (Some (V1.successCount entries))
                    (Some (List.length entries - V1.successCount entries)%nat)
                    (elapsedSince (Some (now w)) w'))))
        l' w').
  { unfold V1.scanFile_body.
    rewrite Hcfg, Hf, Hval. fold finalFormats.
    destruct (List.length finalFormats =? 0)%nat eqn:Hlen.
    { apply length_zero_nil in Hlen. contradiction. }
    rewrite (throwIfAborted_never _ w Hsig).
    rewrite Hall. cbn [optOr]. fold mode. fold timeoutMs.
    rewrite Hrun, Hres, Hproc, Hstart. reflexivity. }
  eexists _, entries, _, w'. split.
  - unfold V1.scanFile. destruct files as [|f files]; [contradiction|].
    cbn [List.length Nat.eqb].
    rewrite (supported_no_invalid _ Htypes). cbn [List.length Nat.ltb Nat.leb].
    rewrite Hbody. reflexivity.
  - split; [reflexivity|]. split; [reflexivity|].
    cbn [V1.totalFiles V1.processedFiles V1.successfulFiles V1.failedFiles].
    split; [exact Hent|].
    split; [eapply entries_names; exact Hent|].
    split; [reflexivity|]. split; [reflexivity|]. split; [reflexivity|].
    split.
    + f_equal. apply filter_complement_length.
    + intros beh Hbeh. eapply entries_verdicts; eassumption.
Qed.

Lemma filter_length_map {A} (p : A -> bool) (l : list A) :
  List.length (filter p l) = List.length (filter (fun b : bool => b) (map p l)).
Proof.
  induction l as [|a l IH]; [reflexivity|].
  cbn [map filter]. destruct (p a); cbn [List.length]; now rewrite IH.
Qed.

(** Three pictures, of which [b.jpg] cannot be decoded: two successes, one
    failure, names kept. *)
Lemma batch_isolates_file_failures_witness :
  exists r entries sm w',
    V1.scanFile Fixtures.envFiles
                (V1.FileArray [Fixtures.photoA; Fixtures.photoB; Fixtures.photoC])
                Fixtures.processAll Fixtures.activeBarcode Fixtures.world0
      = Done (Returns r) Fixtures.activeBarcode w' /\
    V1.results r = Some entries /\
    V1.summary r = Some sm /\
    map (fun o => option_map V1.fi_name (V1.file o)) entries
      = [Some "a.png"; Some "b.jpg"; Some "c.webp"] /\
    V1.successfulFiles sm = Some 2%nat /\
    V1.failedFiles sm = Some 1%nat.
Proof.
  destruct (batch_isolates_file_failures Fixtures.envFiles
              [Fixtures.photoA; Fixtures.photoB; Fixtures.photoC]
              Fixtures.processAll Fixtures.activeBarcode Fixtures.world0
              (V1.mkScanConfig ["qr_code"; "pdf417_enhanced"; "pdf417"] true "first")
              ["qr_code"; "pdf417"; "pdf417_enhanced"]
              ["qr_code"; "pdf417_enhanced"; "pdf417"]
              ltac:(discriminate) eq_refl eq_refl
              ltac:(intros sg H; discriminate H)
              ltac:(intros k req t d e H; cbn in H;
                    destruct (String.eqb (req_source req) "b.jpg");
                    inversion H; reflexivity)
              ltac:(intros t H; discriminate H)
              eq_refl eq_refl eq_refl ltac:(discriminate))
    as (r & entries & sm & w' & Hrun & Hres & Hsum & _ & Hnames & _ & _ & Hs & Hf & Hv).
  exists r, entries, sm, w'.
  pose proof (Hv (fun src => if String.eqb src "b.jpg"
                             then Settles 7 (Rejected (Error "decode failed"))
                             else Settles 5 (Resolved [Fixtures.qrDetection]))
                 (fun _ _ _ => eq_refl)) as Hverdicts.
  cbn in Hverdicts.
  repeat split; try assumption.
  - rewrite Hs, filter_length_map, Hverdicts. reflexivity.
  - rewrite Hf, (filter_length_map (fun o => negb (V1.success o))).
    rewrite <- (map_map V1.success negb), Hverdicts. reflexivity.
Defined.

(** C6, as the specification states it, fails: with a PDF among the files
    the method throws 'Unsupported file types: b.pdf' before it scans
    anything, so no summary is returned and no file is counted. *)
Lemma unsupported_file_rejects_batch :
  V1.scanFile Fixtures.envFiles
              (V1.FileArray [Fixtures.photoA; Fixtures.document; Fixtures.photoC])
              Fixtures.processAll Fixtures.activeBarcode Fixtures.world0
    = Done (Throws (Error "Unsupported file types: b.pdf"))
           Fixtures.activeBarcode Fixtures.world0 /\
  ~ batch_with_unsupported_as_specified.
Proof.
  split; [reflexivity|].
  intro Hclaim.
  destruct (Hclaim Fixtures.envFiles
                   [Fixtures.photoA; Fixtures.document; Fixtures.photoC]
                   Fixtures.processAll Fixtures.activeBarcode Fixtures.world0 eq_refl)
    as (r & sm & w' & n & Hrun & _).
  - exists Fixtures.document. split; [right; left; reflexivity | reflexivity].
  - discriminate Hrun.
Qed.

(* ================================================================== *)
(** ** Further properties of [stop] and [start] *)

Lemma children_setChildren (el : nat) (kids : list nat) (w : World) :
  children el (setChildren el kids w) = kids.
Proof.
  unfold children, setChildren; cbn [dom find fst snd]. now rewrite Nat.eqb_refl.
Qed.

(** X1.  [stop()] leaves the session with no stream, no video element and
    the scanning flag down, keeps configuration and plugin options, stops
    every track of the stream it held and clears the source of the video
    element it held; it does not touch the clock or the container.  Calling
    it again changes nothing. *)
Theorem stop_releases_and_is_idempotent :
  forall (s : CameraScanner) (w : World),
    released (fst (stop s w)) /\
    _isScanning (fst (stop s w)) = false /\
    config (fst (stop s w)) = config s /\
    _pluginOptions (fst (stop s w)) = _pluginOptions s /\
    (forall st t, _stream s = Some st -> In t (getTracks st) ->
                  In t (stoppedTracks (snd (stop s w)))) /\
    (forall v, _videoElement s = Some v ->
               In (video_id v) (clearedVideos (snd (stop s w)))) /\
    now (snd (stop s w)) = now w /\
    dom (snd (stop s w)) = dom w /\
    stop (fst (stop s w)) (snd (stop s w)) = stop s w.
Proof.
  intros s w. unfold released, stop.
  destruct (_stream s) as [st|], (_videoElement s) as [v|]; cbn;
    repeat split; try reflexivity; intros; try discriminate;
    match goal with
    | H : Some _ = Some _ |- _ => inversion H; subst; clear H
    end;
    try (apply in_or_app; right; assumption);
    try (apply in_or_app; right; left; reflexivity).
Qed.

Lemma start_setup_video_insertion (c : nat) (video : VideoElement) (s : CameraScanner)
  (w : World) (sc : V1.ScanConfig) :
  V1._getScanConfig s = Returns sc ->
  (String.eqb (scanType (config s)) "mrz" && isMrzCameraMode s) = false ->
  exists o,
    V1.start_setup c video s w
      = Done (Returns o) s
             (setChildren c (children c (setChildren c [] w) ++ [video_id video])
                          (setChildren c [] w)) /\
    st_success o = true /\ st_strategy o = Some "video_insertion".
Proof.
  intros Hcfg Hmode. unfold V1.start_setup. rewrite Hcfg.
  unfold isMrzCameraMode in Hmode.
  destruct (String.eqb (scanType (config s)) "mrz"); cbn [andb] in Hmode.
  - destruct (opt_mrz (_pluginOptions s)) as [m|].
    + rewrite Hmode. cbn. eexists. repeat split.
    + cbn. eexists. repeat split.
  - cbn. eexists. repeat split.
Qed.

Lemma start_video_insertion_run (env : Env) (c : nat) (s : CameraScanner) (w : World)
  (sc : V1.ScanConfig) (d d2 : Z) (stream : MediaStream) (video : VideoElement) :
  cameraStarted s = false ->
  startCameraStream env = Settles d (Resolved stream) ->
  race_timeout (createVideoElement env stream) 10000 "Video load timeout"
    = Settles d2 (Resolved video) ->
  V1._getScanConfig s = Returns sc ->
  (String.eqb (scanType (config s)) "mrz" && isMrzCameraMode s) = false ->
  exists o w',
    V1.start env (Element c) s w
      = Done (Returns o) (set_videoElement (Some video) (set_stream (Some stream) s)) w' /\
    st_success o = true /\
    st_strategy o = Some "video_insertion" /\
    children c w' = [video_id video] /\
    stoppedTracks w' = stoppedTracks w /\
    clearedVideos w' = clearedVideos w.
Proof.
  intros Hns Hst Hv Hcfg Hmode.
  unfold V1.start. rewrite Hns, Hst, Hv.
  destruct (start_setup_video_insertion c video
              (set_videoElement (Some video) (set_stream (Some stream) s))
              (elapse d2 (snd (setTimeout 10000 (elapse d w)))) sc Hcfg Hmode)
    as (o & Hrun & Hsucc & Hstrat).
  rewrite Hrun. eexists _, _. split; [reflexivity|].
  split; [exact Hsucc|]. split; [exact Hstrat|].
  split; [|split].
  - rewrite children_setChildren, children_setChildren. reflexivity.
  - reflexivity.
  - reflexivity.
Qed.

(** X2.  A [start] on a session whose camera is not running, given a DOM
    element, a stream and a video element that arrive in time, and a scan
    type that shows the video (anything but the MRZ native UI), succeeds:
    the session holds that stream and video element, the container's former
    content is gone and the video element is its only child, and the
    scanning flag is as before.  A further [start], with any container and
    any collaborators, then only reports 'Camera already active'. *)
Theorem start_installs_video_in_container :
  forall (env : Env) (c : nat) (s : CameraScanner) (w : World) (sc : V1.ScanConfig)
         (d d2 : Z) (stream : MediaStream) (video : VideoElement),
    cameraStarted s = false ->
    startCameraStream env = Settles d (Resolved stream) ->
    race_timeout (createVideoElement env stream) 10000 "Video load timeout"
      = Settles d2 (Resolved video) ->
    V1._getScanConfig s = Returns sc ->
    (String.eqb (scanType (config s)) "mrz" && isMrzCameraMode s) = false ->
    exists o s' w',
      V1.start env (Element c) s w = Done (Returns o) s' w' /\
      st_success o = true /\
      st_strategy o = Some "video_insertion" /\
      s' = set_videoElement (Some video) (set_stream (Some stream) s) /\
      children c w' = [video_id video] /\
      stoppedTracks w' = stoppedTracks w /\
      (forall env' c',
          V1.start env' (Element c') s' w' = Done (Returns (alreadyActive s')) s' w').
Proof.
  intros env c s w sc d d2 stream video Hns Hst Hv Hcfg Hmode.
  destruct (start_video_insertion_run env c s w sc d d2 stream video
              Hns Hst Hv Hcfg Hmode)
    as (o & w' & Hrun & Hsucc & Hstrat & Hkids & Htracks & _).
  exists o, (set_videoElement (Some video) (set_stream (Some stream) s)), w'.
  split; [exact Hrun|].
  split; [exact Hsucc|]. split; [exact Hstrat|]. split; [reflexivity|].
  split; [exact Hkids|]. split; [exact Htracks|].
  intros env' c'. reflexivity.
Qed.

Lemma start_installs_video_in_container_witness :
  exists o s' w',
    V1.start (Fixtures.envWith 5 (Resolved [])) (Element 3) Fixtures.idleBarcode
             Fixtures.world0 = Done (Returns o) s' w' /\
    st_success o = true /\
    st_strategy o = Some "video_insertion" /\
    s' = Fixtures.activeBarcode /\
    children 3 w' = [7%nat] /\
    stoppedTracks w' = [] /\
    (forall env' c',
        V1.start env' (Element c') s' w' = Done (Returns (alreadyActive s')) s' w').
Proof.
  apply (start_installs_video_in_container (Fixtures.envWith 5 (Resolved [])) 3
           Fixtures.idleBarcode Fixtures.world0
           (V1.mkScanConfig ["qr_code"; "pdf417_enhanced"; "pdf417"] true "first")
           0 0 Fixtures.camera Fixtures.video);
    reflexivity.
Defined.

(** X3.  On an MRZ session whose plugin options ask for the native camera
    UI, a successful [start] empties the container and does not insert the
    video element; it records the container in the MRZ plugin's scanner
    configuration and reports the 'dynamsoft_native' strategy. *)
Theorem start_native_ui_hands_container_to_plugin :
  forall (env : Env) (c : nat) (s : CameraScanner) (w : World)
         (d d2 : Z) (stream : MediaStream) (video : VideoElement)
         (m : MrzOptions) (cfg0 : ScannerConfig),
    cameraStarted s = false ->
    startCameraStream env = Settles d (Resolved stream) ->
    race_timeout (createVideoElement env stream) 10000 "Video load timeout"
      = Settles d2 (Resolved video) ->
    scanType (config s) = "mrz" ->
    opt_mrz (_pluginOptions s) = Some m ->
    mrzMode m = "camera" ->
    scannerConfig m = Some cfg0 ->
    exists o s' w',
      V1.start env (Element c) s w = Done (Returns o) s' w' /\
      st_success o = true /\
      st_strategy o = Some "dynamsoft_native" /\
      st_mrzMode o = Some "camera" /\
      cameraStarted s' = true /\
      children c w' = [] /\
      opt_mrz (_pluginOptions s')
        = Some (mkMrzOptions (mrz_licenseKey m) "camera"
                             (Some (mkScannerConfig (Some c)))).
Proof.
  intros env c s w d d2 stream video m cfg0 Hns Hst Hv Htype Hm Hmode Hsc.
  unfold V1.start. rewrite Hns, Hst, Hv.
  unfold V1.start_setup, V1._getScanConfig.
  change (config (set_videoElement (Some video) (set_stream (Some stream) s)))
    with (config s).
  change (_pluginOptions (set_videoElement (Some video) (set_stream (Some stream) s)))
    with (_pluginOptions s).
  rewrite Htype, Hm, Hsc, Hmode. cbv zeta.
  cbn -[setChildren children elapse setTimeout].
  eexists _, _, _. split; [reflexivity|].
  repeat split. apply children_setChildren.
Qed.

Lemma start_native_ui_witness :
  exists o s' w',
    V1.start (Fixtures.envWith 5 (Resolved [])) (Element 3)
             (mkScanner Fixtures.mrzConfig None None Fixtures.plainScanner false
                        Fixtures.mrzOptions)
             Fixtures.world0 = Done (Returns o) s' w' /\
    st_success o = true /\
    st_strategy o = Some "dynamsoft_native" /\
    st_mrzMode o = Some "camera" /\
    cameraStarted s' = true /\
    children 3 w' = [] /\
    opt_mrz (_pluginOptions s')
      = Some (mkMrzOptions "LICENSE-KEY" "camera" (Some (mkScannerConfig (Some 3%nat)))).
Proof.
  apply (start_native_ui_hands_container_to_plugin (Fixtures.envWith 5 (Resolved [])) 3
           (mkScanner Fixtures.mrzConfig None None Fixtures.plainScanner false
                      Fixtures.mrzOptions)
           Fixtures.world0 0 0 Fixtures.camera Fixtures.video
           (mkMrzOptions "LICENSE-KEY" "camera" (Some (mkScannerConfig None)))
           (mkScannerConfig None));
    reflexivity.
Defined.

(** X4.  [start] followed by [stop]: after a successful video-insertion
    start, [stop] stops every track of the stream that was acquired, clears
    the video element's source and brings the session back to what [stop]
    makes of the session before the start; the video element stays in the
    container. *)
Theorem start_then_stop_releases_camera :
  forall (env : Env) (c : nat) (s : CameraScanner) (w : World) (sc : V1.ScanConfig)
         (d d2 : Z) (stream : MediaStream) (video : VideoElement),
    cameraStarted s = false ->
    startCameraStream env = Settles d (Resolved stream) ->
    race_timeout (createVideoElement env stream) 10000 "Video load timeout"
      = Settles d2 (Resolved video) ->
    V1._getScanConfig s = Returns sc ->
    (String.eqb (scanType (config s)) "mrz" && isMrzCameraMode s) = false ->
    exists o s' w',
      V1.start env (Element c) s w = Done (Returns o) s' w' /\
      fst (stop s' w') = fst (stop s w) /\
      cameraStarted (fst (stop s' w')) = false /\
      (forall t, In t (getTracks stream) -> In t (stoppedTracks (snd (stop s' w')))) /\
      In (video_id video) (clearedVideos (snd (stop s' w'))) /\
      children c (snd (stop s' w')) = [video_id video].
Proof.
  intros env c s w sc d d2 stream video Hns Hst Hv Hcfg Hmode.
  destruct (start_video_insertion_run env c s w sc d d2 stream video
              Hns Hst Hv Hcfg Hmode)
    as (o & w' & Hrun & _ & _ & Hkids & _ & _).
  exists o, (set_videoElement (Some video) (set_stream (Some stream) s)), w'.
  split; [exact Hrun|].
  split; [reflexivity|]. split; [reflexivity|].
  split; [|split].
  - intros t Ht. cbn. apply in_or_app. right. exact Ht.
  - cbn. apply in_or_app. right. left. reflexivity.
  - exact Hkids.
Qed.

Lemma start_then_stop_witness :
  exists o s' w',
    V1.start (Fixtures.envWith 5 (Resolved [])) (Element 3) Fixtures.idleBarcode
             Fixtures.world0 = Done (Returns o) s' w' /\
    fst (stop s' w') = fst (stop Fixtures.idleBarcode Fixtures.world0) /\
    cameraStarted (fst (stop s' w')) = false /\
    (forall t, In t [11%nat; 12%nat] -> In t (stoppedTracks (snd (stop s' w')))) /\
    In 7%nat (clearedVideos (snd (stop s' w'))) /\
    children 3 (snd (stop s' w')) = [7%nat].
Proof.
  apply (start_then_stop_releases_camera (Fixtures.envWith 5 (Resolved [])) 3
           Fixtures.idleBarcode Fixtures.world0
           (V1.mkScanConfig ["qr_code"; "pdf417_enhanced"; "pdf417"] true "first")
           0 0 Fixtures.camera Fixtures.video);
    reflexivity.
Defined.

(* ================================================================== *)
(** ** Further properties of single scans *)

Lemma scanOnce_resume_shape (l : V1.OnceLocals) (s : CameraScanner) (w : World) :
  (exists o w', V1.scanOnce_resume l s w = Done (Returns o) (set_isScanning false s) w') \/
  V1.scanOnce_resume l s w = Hang s w.
Proof.
  unfold V1.scanOnce_resume.
  destruct (V1.l_mrzCamera l).
  - destruct (V1.l_pending l) as [d [rs|e]|]; [left | left | right; reflexivity].
    + eexists _, _. reflexivity.
    + destruct (V1.scanOnce_catch e l s (elapse d w)) as [o w1]. eexists _, _. reflexivity.
  - destruct (race_timeout (V1.l_pending l) (V1.l_timeoutMs l) "SCAN_TIMEOUT")
      as [d [rs|e]|]; [left | left | right; reflexivity].
    + destruct rs; eexists _, _; reflexivity.
    + destruct (V1.scanOnce_catch e l s (elapse d w)) as [o w1]. eexists _, _. reflexivity.
Qed.

Lemma scanOnce_enter_shape (env : Env) (options : ScanOptions) (s : CameraScanner)
  (w : World) :
  cameraStarted s = true -> _isScanning s = false ->
  (exists o w', V1.scanOnce_enter env options s w
                = Finished (Returns o) (set_isScanning false s) w') \/
  (exists l w1, V1.scanOnce_enter env options s w
                = Awaiting l (set_isScanning true s) w1).
Proof.
  intros Hc Hi. unfold V1.scanOnce_enter. rewrite Hc, Hi. cbn [negb].
  destruct (V1._getScanConfig (set_isScanning true s)) as [sc|e].
  2:{ left. destruct (scanOnce_fail_finished e V1.initialOnceLocals
                        (set_isScanning true s) w) as (o & w' & ->).
      now exists o, w'. }
  destruct (V1._validateConfiguration (set_isScanning true s)) as [av|e].
  2:{ left. destruct (scanOnce_fail_finished e V1.initialOnceLocals
                        (set_isScanning true s) w) as (o & w' & ->).
      now exists o, w'. }
  match goal with |- context [if (?n =? 0)%nat then _ else _] => destruct (n =? 0)%nat end.
  { left.
    match goal with |- context [V1.scanOnce_fail ?e ?l ?s0 ?w0] =>
      destruct (scanOnce_fail_finished e l s0 w0) as (o & w' & ->) end.
    now exists o, w'. }
  right.
  match goal with |- context [if ?b then Awaiting _ _ _ else _] => destruct b end.
  - eexists _, _. reflexivity.
  - match goal with |- context [if ?b then _ else _] => destruct b end;
      eexists _, _; reflexivity.
Qed.

(** X5.  Once the camera runs and no scan is pending, [scanOnce] never
    throws: configuration errors, scanner errors and timeouts all come back
    as a returned object.  When it completes, the session is the one it was
    given with the scanning flag down; the only other possibility is that it
    waits for ever on the scanner with the flag up. *)
Theorem scanOnce_returns_an_outcome_or_waits :
  forall (env : Env) (options : ScanOptions) (s : CameraScanner) (w : World),
    cameraStarted s = true ->
    _isScanning s = false ->
    (exists o w',
        V1.scanOnce env options s w = Done (Returns o) (set_isScanning false s) w') \/
    (exists w', V1.scanOnce env options s w = Hang (set_isScanning true s) w').
Proof.
  intros env options s w Hc Hi. unfold V1.scanOnce.
  destruct (scanOnce_enter_shape env options s w Hc Hi)
    as [(o & w' & ->) | (l & w1 & ->)].
  - left. now exists o, w'.
  - destruct (scanOnce_resume_shape l (set_isScanning true s) w1)
      as [(o & w' & ->) | ->].
    + left. now exists o, w'.
    + right. now exists w1.
Qed.

Lemma scanOnce_returns_witness :
  (exists o w',
      V1.scanOnce (Fixtures.envWith 5 (Rejected (Error "decoder crashed"))) noOptions
                  Fixtures.activeBarcode Fixtures.world0
      = Done (Returns o) (set_isScanning false Fixtures.activeBarcode) w') \/
  (exists w',
      V1.scanOnce (Fixtures.envWith 5 (Rejected (Error "decoder crashed"))) noOptions
                  Fixtures.activeBarcode Fixtures.world0
      = Hang (set_isScanning true Fixtures.activeBarcode) w').
Proof.
  exact (scanOnce_returns_an_outcome_or_waits
           (Fixtures.envWith 5 (Rejected (Error "decoder crashed"))) noOptions
           Fixtures.activeBarcode Fixtures.world0 eq_refl eq_refl).
Defined.

Lemma race_within {A} (p : Behaviour A) (t d : Z) (msg : string) (r : Settled A) :
  0 < t -> race_timeout p t msg = Settles d r -> d <= t.
Proof.
  intros Ht. unfold race_timeout.
  replace (0 <? t) with true by (symmetry; now apply Z.ltb_lt).
  destruct p as [d' r'|].
  - destruct (Z.leb_spec d' t) as [Hle|Hgt]; intro E; inversion E; subst; lia.
  - intro E; inversion E; subst; lia.
Qed.

Lemma race_never_settles {A} (p : Behaviour A) (t : Z) (msg : string) :
  0 < t -> race_timeout p t msg <> Never.
Proof.
  intros Ht. unfold race_timeout.
  replace (0 <? t) with true by (symmetry; now apply Z.ltb_lt).
  destruct p as [d' r'|]; [destruct (d' <=? t)|]; discriminate.
Qed.

Lemma race_lost {A} (p : Behaviour A) (t : Z) (msg : string) :
  0 < t ->
  (p = Never \/ exists d r, p = Settles d r /\ t < d) ->
  race_timeout p t msg = Settles t (Rejected (Error msg)).
Proof.
  intros Ht Hp. unfold race_timeout.
  replace (0 <? t) with true by (symmetry; now apply Z.ltb_lt).
  destruct Hp as [-> | (d & r & -> & Hd)]; [reflexivity|].
  replace (d <=? t) with false by (symmetry; apply Z.leb_gt; exact Hd). reflexivity.
Qed.

Lemma getTimeoutConfig_min_range (s : CameraScanner) (fmts : list string) :
  0 <= snd (V1._getTimeoutConfig s fmts) <= 1500.
Proof.
  unfold V1._getTimeoutConfig.
  repeat match goal with |- context [if ?b then _ else _] => destruct b end; cbn; lia.
Qed.

(** X6.  The timeout race of [scanOnce] (standard branch).  With a positive
    timeout, a whole number of milliseconds that the platform's timers
    honour (at most 2147483647 ms, the largest delay [setTimeout] takes),
    the call always completes, no later than [max timeout 1500]
    milliseconds after it started; if the scanner has not settled when the
    timeout expires, the call returns the SCAN_TIMEOUT failure exactly at
    the timeout.  With a timeout of zero or less no timer is armed, and a
    scanner that never settles keeps the call waiting for ever. *)
Theorem scanOnce_timeout_race :
  forall (env : Env) (options : ScanOptions) (s s1 : CameraScanner) (w w1 : World)
         (l : V1.OnceLocals),
    V1.scanOnce_enter env options s w = Awaiting l s1 w1 ->
    V1.l_mrzCamera l = false ->
    (0 < V1.l_timeoutMs l <= 2147483647 ->
     exists o s' w',
       V1.scanOnce env options s w = Done (Returns o) s' w' /\
       now w <= now w' <= now w + Z.max (V1.l_timeoutMs l) 1500 /\
       ((V1.l_pending l = Never \/
         exists d r, V1.l_pending l = Settles d r /\ V1.l_timeoutMs l < d) ->
        V1.success o = false /\ V1.code o = Some "SCAN_TIMEOUT" /\
        now w' = now w + V1.l_timeoutMs l)) /\
    (V1.l_timeoutMs l <= 0 -> V1.l_pending l = Never ->
     V1.scanOnce env options s w = Hang s1 w1 /\ V1.l_scanTimeout l = None).
Proof.
  intros env options s s1 w w1 l Henter Hmrz.
  pose proof (scanOnce_enter_awaiting _ _ _ _ _ _ _ Henter)
    as (_ & _ & Hs1 & Hnow & Hstart & Hsucc & Hmin).
  split.
  - intros [Hpos _]. unfold V1.scanOnce. rewrite Henter. unfold V1.scanOnce_resume.
    rewrite Hmrz.
    destruct (race_timeout (V1.l_pending l) (V1.l_timeoutMs l) "SCAN_TIMEOUT")
      as [d [rs|e]|] eqn:Hrace.
    + pose proof (race_within _ _ _ _ _ Hpos Hrace) as Hd.
      cbv zeta. rewrite Hstart.
      set (w2 := clearIfArmed (V1.l_scanTimeout l) (elapse d w1)).
      assert (Hw2 : now w2 = now w + Z.max 0 d)
        by (unfold w2; rewrite now_clearIfArmed, now_elapse; lia).
      set (needs := negb (arr_includes (V1.l_finalFormats l) "mrz")
                    && (0 <? V1.l_minScanTime l)).
      pose proof (scanOnce_floor_clock (V1.l_minScanTime l) (now w) needs w2
                    ltac:(lia)) as Hclock.
      cbv zeta in Hclock.
      pose proof (getTimeoutConfig_min_range s1 (V1.l_finalFormats l)) as Hrange.
      rewrite <- Hmin in Hrange.
      assert (Hbound : now w <=
                (if needs then Z.max (now w2) (now w + V1.l_minScanTime l) else now w2)
                <= now w + Z.max (V1.l_timeoutMs l) 1500)
        by (destruct needs; lia).
      rewrite <- Hclock in Hbound.
      assert (Hnot : ~ (V1.l_pending l = Never \/
                        exists d0 r, V1.l_pending l = Settles d0 r /\ V1.l_timeoutMs l < d0)).
      { intro Hp. rewrite (race_lost _ _ _ Hpos Hp) in Hrace. discriminate Hrace. }
      destruct rs as [|r rs'];
        (eexists _, _, _; split; [reflexivity|]; split; [exact Hbound|];
         intro Hp; contradiction).
    + pose proof (race_within _ _ _ _ _ Hpos Hrace) as Hd.
      pose proof (scanOnce_catch_clock e l s1 (elapse d w1)) as Hc.
      destruct (V1.scanOnce_catch e l s1 (elapse d w1)) as [o wc] eqn:Hcatch.
      cbn [snd] in Hc.
      eexists _, _, _. split; [reflexivity|]. split.
      * rewrite Hc, now_elapse. lia.
      * intro Hp. rewrite (race_lost _ _ _ Hpos Hp) in Hrace.
        inversion Hrace; subst d e.
        unfold V1.scanOnce_catch in Hcatch. rewrite Hsucc in Hcatch.
        cbn in Hcatch. inversion Hcatch; subst o wc.
        repeat split. rewrite now_clearIfArmed, now_elapse. lia.
    + exfalso. exact (race_never_settles _ _ _ Hpos Hrace).
  - intros Hnon Hnever. unfold V1.scanOnce. rewrite Henter. unfold V1.scanOnce_resume.
    rewrite Hmrz, Hnever. unfold race_timeout.
    replace (0 <? V1.l_timeoutMs l) with false by (symmetry; apply Z.ltb_ge; lia).
    split; [reflexivity|].
    revert Henter Hmrz Hnon. clear. unfold V1.scanOnce_enter.
    destruct (negb (cameraStarted s)); [discriminate|].
    destruct (_isScanning s); [discriminate|].
    destruct (V1._getScanConfig (set_isScanning true s)) as [sc|e].
    2:{ destruct (scanOnce_fail_finished e V1.initialOnceLocals
                    (set_isScanning true s) w) as (o & w' & ->). discriminate. }
    destruct (V1._validateConfiguration (set_isScanning true s)) as [av|e].
    2:{ destruct (scanOnce_fail_finished e V1.initialOnceLocals
                    (set_isScanning true s) w) as (o & w' & ->). discriminate. }
    match goal with |- context [if (?n =? 0)%nat then _ else _] => destruct (n =? 0)%nat end.
    { match goal with |- context [V1.scanOnce_fail ?e ?l ?s0 ?w0] =>
        destruct (scanOnce_fail_finished e l s0 w0) as (o & w' & ->) end. discriminate. }
    match goal with |- context [if ?b then Awaiting _ _ _ else _] => destruct b end.
    + intro H; inversion H; subst; cbn. discriminate.
    + match goal with |- context [if ?b then _ else _] => destruct b eqn:Hb end;
        intro H; inversion H; subst; cbn; intros _ Hnon; [|reflexivity].
      apply Z.ltb_lt in Hb. lia.
Qed.

(** A scanner that never answers: the default 20 s barcode timeout ends the
    call. *)
Lemma scanOnce_timeout_race_witness :
  exists o s' w',
    V1.scanOnce Fixtures.envVideoStalls noOptions Fixtures.activeBarcode Fixtures.world0
      = Done (Returns o) s' w' /\
    V1.success o = false /\ V1.code o = Some "SCAN_TIMEOUT" /\
    now w' = 21000.
Proof.
  let v := eval vm_compute in
        (V1.scanOnce_enter Fixtures.envVideoStalls noOptions Fixtures.activeBarcode
                           Fixtures.world0) in
  match v with
  | Awaiting ?l ?s1 ?w1 =>
      destruct (scanOnce_timeout_race Fixtures.envVideoStalls noOptions
                  Fixtures.activeBarcode s1 Fixtures.world0 w1 l eq_refl eq_refl)
        as [Hpos _]
  end.
  destruct (Hpos ltac:(cbn; lia)) as (o & s' & w' & Hrun & _ & Hlost).
  destruct (Hlost (or_introl eq_refl)) as (Hs & Hc & Hn).
  exists o, s', w'. repeat split; assumption.
Defined.

(** *** Timers *)

Lemma In_timers_elapse (d : Z) (w : World) (tm : Timer) :
  In tm (timers (elapse d w)) -> In tm (timers w).
Proof. unfold elapse; cbn [timers]. intro H. apply filter_In in H. tauto. Qed.

Lemma In_timers_clearTimeout (id : nat) (w : World) (tm : Timer) :
  In tm (timers (clearTimeout id w)) -> In tm (timers w) /\ timer_id tm <> id.
Proof.
  unfold clearTimeout; cbn [timers]. intro H. apply filter_In in H as [Hin Hne].
  split; [exact Hin|]. apply negb_true_iff, Nat.eqb_neq in Hne. exact Hne.
Qed.

Lemma In_timers_clearIfArmed (t : option nat) (w : World) (tm : Timer) :
  In tm (timers (clearIfArmed t w)) ->
  In tm (timers w) /\ forall id, t = Some id -> timer_id tm <> id.
Proof.
  destruct t as [id|]; cbn [clearIfArmed]; intro H.
  - apply In_timers_clearTimeout in H as [Hin Hne]. split; [exact Hin|].
    intros id' E. inversion E; subst. exact Hne.
  - split; [exact H|]. intros id E. discriminate E.
Qed.

(** A timer armed for [m] milliseconds has fired once [m] milliseconds have
    passed. *)
Lemma In_timers_after_wait (m : Z) (w : World) (tm : Timer) :
  In tm (timers (elapse m (snd (setTimeout m w)))) -> In tm (timers w).
Proof.
  unfold elapse, setTimeout; cbn [timers snd now]. intro H.
  apply filter_In in H as [[Heq|Hin] Hdue]; [|exact Hin].
  subst tm. cbn [timer_due] in Hdue. apply Z.ltb_lt in Hdue. lia.
Qed.

Lemma scanOnce_catch_world (e : JsError) (l : V1.OnceLocals) (s : CameraScanner)
  (w : World) :
  snd (V1.scanOnce_catch e l s w) = clearIfArmed (V1.l_scanTimeout l) w.
Proof.
  unfold V1.scanOnce_catch.
  repeat match goal with |- context [if ?b then _ else _] => destruct b end; reflexivity.
Qed.

Lemma scanOnce_resume_timers (l : V1.OnceLocals) (s s' : CameraScanner) (w w' : World)
  (r : Completion V1.Outcome) (tm : Timer) :
  V1.scanOnce_resume l s w = Done r s' w' ->
  In tm (timers w') ->
  In tm (timers w) /\
  (V1.l_mrzCamera l = false -> forall id, V1.l_scanTimeout l = Some id -> timer_id tm <> id).
Proof.
  unfold V1.scanOnce_resume.
  destruct (V1.l_mrzCamera l).
  - destruct (V1.l_pending l) as [d [rs|e]|]; [| |discriminate].
    + intro H; inversion H; subst. intro Hin.
      split; [eapply In_timers_elapse; exact Hin | discriminate].
    + pose proof (scanOnce_catch_world e l s (elapse d w)) as Hw.
      destruct (V1.scanOnce_catch e l s (elapse d w)) as [o wc]. cbn [snd] in Hw.
      intro H; inversion H; subst. intro Hin.
      apply In_timers_clearIfArmed in Hin as [Hin _].
      split; [eapply In_timers_elapse; exact Hin | discriminate].
  - destruct (race_timeout (V1.l_pending l) (V1.l_timeoutMs l) "SCAN_TIMEOUT")
      as [d [rs|e]|]; [| |discriminate].
    + cbv zeta.
      set (w2 := clearIfArmed (V1.l_scanTimeout l) (elapse d w)).
      assert (Hw2 : forall t0, In t0 (timers w2) ->
                In t0 (timers w) /\
                forall id, V1.l_scanTimeout l = Some id -> timer_id t0 <> id).
      { intros t0 Hin. apply In_timers_clearIfArmed in Hin as [Hin Hid].
        split; [eapply In_timers_elapse; exact Hin | exact Hid]. }
      match goal with
      | |- context [match rs with [] => Done _ _ ?w3 | _ :: _ => _ end] =>
        assert (Hw3 : forall t0, In t0 (timers w3) -> In t0 (timers w2))
      end.
      { intros t0. destruct (negb _ && _); [|tauto].
        cbv zeta. destruct (_ <? _); [|tauto].
        match goal with |- context [setTimeout ?m ?w0] =>
          change (let '(_, w'0) := setTimeout m w0 in elapse m w'0)
            with (elapse m (snd (setTimeout m w0))) end.
        apply In_timers_after_wait. }
      destruct rs; intro H; inversion H; subst; intro Hin;
        apply Hw3, Hw2 in Hin; destruct Hin as [Hin Hid]; (split; [exact Hin|]);
        intros _; exact Hid.
    + pose proof (scanOnce_catch_world e l s (elapse d w)) as Hw.
      destruct (V1.scanOnce_catch e l s (elapse d w)) as [o wc]. cbn [snd] in Hw.
      intro H; inversion H; subst. intro Hin.
      apply In_timers_clearIfArmed in Hin as [Hin Hid].
      split; [eapply In_timers_elapse; exact Hin | intros _; exact Hid].
Qed.

Lemma arr_includes_In (arr : list string) (x : string) :
  arr_includes arr x = true <-> In x arr.
Proof.
  unfold arr_includes. rewrite existsb_exists. split.
  - intros (y & Hy & E). apply String.eqb_eq in E. now subst.
  - intro H. exists x. split; [exact H | apply String.eqb_refl].
Qed.

(** The formats [_validateConfiguration] returns are configured formats the
    OpticalScanner supports. *)
Lemma validateConfiguration_supported (s : CameraScanner) (avail : list string) :
  V1._validateConfiguration s = Returns avail ->
  Forall (fun f => arr_includes (getSupportedFormats (_opticalScanner s)) f = true) avail /\
  avail <> [] /\
  (scanType (config s) = "mrz" ->
   arr_includes (getSupportedFormats (_opticalScanner s)) "mrz" = true).
Proof.
  unfold V1._validateConfiguration.
  destruct (V1._getScanConfig s) as [sc|e] eqn:Hcfg; [|discriminate].
  destruct (arr_includes (V1.formats sc) "mrz" && negb (V1.feat_mrz (V1.getEnhancedFeatures s)))
    eqn:Hmrz.
  { destruct (negb (V1.licensed s)); discriminate. }
  destruct (List.length _ =? 0)%nat eqn:Hlen; [discriminate|].
  intro H; inversion H; subst avail. split; [|split].
  - apply Forall_forall. intros f Hf. apply filter_In in Hf. tauto.
  - intro Hnil. rewrite Hnil in Hlen. discriminate Hlen.
  - intro Htype. unfold V1._getScanConfig in Hcfg. rewrite Htype in Hcfg.
    cbn in Hcfg. inversion Hcfg; subst sc. cbn in Hmrz.
    apply negb_false_iff in Hmrz. apply andb_true_iff in Hmrz. tauto.
Qed.

(** The world a suspended [scanOnce] leaves behind: one scanner request, for
    supported formats and without a signal, and at most one timer, whose id
    the call keeps. *)
Lemma scanOnce_enter_world (env : Env) (options : ScanOptions) (s s1 : CameraScanner)
  (w w1 : World) (l : V1.OnceLocals) :
  V1.scanOnce_enter env options s w = Awaiting l s1 w1 ->
  exists req,
    scanLog w1 = (scanLog w ++ [req])%list /\
    req_signal req = None /\
    req_formats req <> [] /\
    Forall (fun f => arr_includes (getSupportedFormats (_opticalScanner s)) f = true)
           (req_formats req) /\
    ((V1.l_scanTimeout l = None /\ timers w1 = timers w) \/
     (V1.l_mrzCamera l = false /\
      exists id due, V1.l_scanTimeout l = Some id /\
                     timers w1 = mkTimer id due :: timers w)).
Proof.
  unfold V1.scanOnce_enter.
  destruct (negb (cameraStarted s)); [discriminate|].
  destruct (_isScanning s); [discriminate|].
  destruct (V1._getScanConfig (set_isScanning true s)) as [sc|e] eqn:Hcfg.
  2:{ destruct (scanOnce_fail_finished e V1.initialOnceLocals
                  (set_isScanning true s) w) as (o & w' & ->). discriminate. }
  destruct (V1._validateConfiguration (set_isScanning true s)) as [av|e] eqn:Hval.
  2:{ destruct (scanOnce_fail_finished e V1.initialOnceLocals
                  (set_isScanning true s) w) as (o & w' & ->). discriminate. }
  pose proof (validateConfiguration_supported _ _ Hval) as (Hsup & _ & Hmrz).
  cbn [_opticalScanner set_isScanning config] in Hsup, Hmrz.
  match goal with |- context [if (List.length ?ff =? 0)%nat then _ else _] =>
    set (finalFormats := ff); destruct (List.length finalFormats =? 0)%nat eqn:Hlen end.
  { match goal with |- context [V1.scanOnce_fail ?e ?l0 ?s0 ?w0] =>
      destruct (scanOnce_fail_finished e l0 s0 w0) as (o & w' & ->) end. discriminate. }
  assert (Hff : finalFormats <> []).
  { intro Hnil. rewrite Hnil in Hlen. discriminate Hlen. }
  assert (Hffsup : Forall (fun f => arr_includes (getSupportedFormats (_opticalScanner s)) f
                                    = true) finalFormats).
  { apply Forall_forall. intros f Hf. apply filter_In in Hf as [_ Hf].
    apply arr_includes_In in Hf. rewrite Forall_forall in Hsup. apply Hsup. exact Hf. }
  match goal with |- context [if ?b then Awaiting _ _ _ else _] => destruct b eqn:Hcam end.
  - intro H; inversion H; subst. eexists. split; [reflexivity|].
    split; [reflexivity|]. split; [discriminate|]. split.
    + constructor; [|constructor]. apply Hmrz.
      apply andb_true_iff in Hcam as [Ht _]. apply String.eqb_eq in Ht. exact Ht.
    + left. split; reflexivity.
  - match goal with |- context [if ?b then _ else _] => destruct b end;
      intro H; inversion H; subst; eexists; (split; [reflexivity|]);
      (split; [reflexivity|]); (split; [exact Hff|]); (split; [exact Hffsup|]).
    + right. split; [reflexivity|]. eexists _, _. split; reflexivity.
    + left. split; reflexivity.
Qed.

Lemma scanOnce_resume_log (l : V1.OnceLocals) (s s' : CameraScanner) (w w' : World)
  (r : Completion V1.Outcome) :
  V1.scanOnce_resume l s w = Done r s' w' -> scanLog w' = scanLog w.
Proof.
  unfold V1.scanOnce_resume.
  destruct (V1.l_mrzCamera l).
  - destruct (V1.l_pending l) as [d [rs|e]|]; [| |discriminate].
    + intro H; inversion H; subst. reflexivity.
    + pose proof (scanOnce_catch_world e l s (elapse d w)) as Hw.
      destruct (V1.scanOnce_catch e l s (elapse d w)) as [o wc]. cbn [snd] in Hw.
      intro H; inversion H; subst. destruct (V1.l_scanTimeout l); reflexivity.
  - destruct (race_timeout (V1.l_pending l) (V1.l_timeoutMs l) "SCAN_TIMEOUT")
      as [d [rs|e]|]; [| |discriminate].
    + cbv zeta.
      match goal with
      | |- context [match rs with [] => Done _ _ ?w3 | _ :: _ => _ end] =>
        assert (Hw3 : scanLog w3 = scanLog w)
      end.
      { destruct (negb _ && _); [|destruct (V1.l_scanTimeout l); reflexivity].
        cbv zeta. destruct (_ <? _); destruct (V1.l_scanTimeout l); reflexivity. }
      destruct rs; intro H; inversion H; subst; exact Hw3.
    + pose proof (scanOnce_catch_world e l s (elapse d w)) as Hw.
      destruct (V1.scanOnce_catch e l s (elapse d w)) as [o wc]. cbn [snd] in Hw.
      intro H; inversion H; subst. destruct (V1.l_scanTimeout l); reflexivity.
Qed.

Lemma scanOnce_fail_world (e : JsError) (s : CameraScanner) (w : World)
  (r : Completion V1.Outcome) (s' : CameraScanner) (w' : World) :
  V1.scanOnce_fail e V1.initialOnceLocals s w = Finished r s' w' -> w' = w.
Proof.
  unfold V1.scanOnce_fail.
  pose proof (scanOnce_catch_world e V1.initialOnceLocals s w) as Hw.
  destruct (V1.scanOnce_catch e V1.initialOnceLocals s w) as [o wc]. cbn in Hw.
  intro H; inversion H; subst. reflexivity.
Qed.

Lemma scanOnce_enter_finished_world (env : Env) (options : ScanOptions)
  (s s' : CameraScanner) (w w' : World) (r : Completion V1.Outcome) :
  V1.scanOnce_enter env options s w = Finished r s' w' -> w' = w.
Proof.
  unfold V1.scanOnce_enter.
  destruct (negb (cameraStarted s)); [intro H; inversion H; reflexivity|].
  destruct (_isScanning s); [intro H; inversion H; reflexivity|].
  destruct (V1._getScanConfig (set_isScanning true s)) as [sc|e];
    [|apply scanOnce_fail_world].
  destruct (V1._validateConfiguration (set_isScanning true s)) as [av|e];
    [|apply scanOnce_fail_world].
  match goal with |- context [if (?n =? 0)%nat then _ else _] => destruct (n =? 0)%nat end;
    [apply scanOnce_fail_world|].
  match goal with |- context [if ?b then Awaiting _ _ _ else _] => destruct b end;
    [discriminate|].
  match goal with |- context [if ?b then _ else _] => destruct b end; discriminate.
Qed.

(** X7.  [scanOnce] cleans up after itself: when the call completes, by a
    result, a scanner error, a timeout or a configuration error, every
    timer still armed was armed before the call.  Neither the timeout timer
    nor the minimum-scan-time timer outlives it. *)
Theorem scanOnce_leaves_no_timer_behind :
  forall (env : Env) (options : ScanOptions) (s s' : CameraScanner) (w w' : World)
         (r : Completion V1.Outcome) (tm : Timer),
    V1.scanOnce env options s w = Done r s' w' ->
    In tm (timers w') -> In tm (timers w).
Proof.
  intros env options s s' w w' r tm. unfold V1.scanOnce.
  destruct (V1.scanOnce_enter env options s w) as [r0 s0 w0 | l s1 w1] eqn:Henter.
  - intro H; inversion H; subst.
    rewrite (scanOnce_enter_finished_world _ _ _ _ _ _ _ Henter). tauto.
  - intros Hres Hin.
    destruct (scanOnce_resume_timers _ _ _ _ _ _ _ Hres Hin) as [Hin1 Hid].
    destruct (scanOnce_enter_world _ _ _ _ _ _ _ Henter)
      as (req & _ & _ & _ & _ & [[_ Ht] | (Hmrz & id & due & Hl & Ht)]).
    + rewrite Ht in Hin1. exact Hin1.
    + rewrite Ht in Hin1. destruct Hin1 as [Heq | Hin1]; [|exact Hin1].
      exfalso. apply (Hid Hmrz id Hl). subst tm. reflexivity.
Qed.

(** A timer armed by somebody else before the call is the only one left
    after it. *)
Lemma scanOnce_leaves_no_timer_behind_witness :
  In (mkTimer 0 51000) (timers (snd (setTimeout 50000 Fixtures.world0))).
Proof.
  let v := eval vm_compute in
        (V1.scanOnce (Fixtures.envWith 5 (Resolved [Fixtures.qrDetection])) noOptions
                     Fixtures.activeBarcode (snd (setTimeout 50000 Fixtures.world0))) in
  match v with
  | Done ?r ?s' ?w' =>
      exact (scanOnce_leaves_no_timer_behind
               (Fixtures.envWith 5 (Resolved [Fixtures.qrDetection])) noOptions
               Fixtures.activeBarcode s' (snd (setTimeout 50000 Fixtures.world0)) w' r
               (mkTimer 0 51000) eq_refl (or_introl eq_refl))
  end.
Defined.

(** X8.  [scanOnce] calls the OpticalScanner at most once, and only for
    formats the scanner supports: when the call completes, the log of
    scanner requests is unchanged or has grown by a single request, whose
    format list is not empty, holds supported formats only, and carries no
    abort signal. *)
Theorem scanOnce_asks_only_for_supported_formats :
  forall (env : Env) (options : ScanOptions) (s s' : CameraScanner) (w w' : World)
         (r : Completion V1.Outcome),
    V1.scanOnce env options s w = Done r s' w' ->
    scanLog w' = scanLog w \/
    exists req,
      scanLog w' = (scanLog w ++ [req])%list /\
      req_formats req <> [] /\
      Forall (fun f => arr_includes (getSupportedFormats (_opticalScanner s)) f = true)
             (req_formats req) /\
      req_signal req = None.
Proof.
  intros env options s s' w w' r. unfold V1.scanOnce.
  destruct (V1.scanOnce_enter env options s w) as [r0 s0 w0 | l s1 w1] eqn:Henter.
  - intro H; inversion H; subst. left.
    now rewrite (scanOnce_enter_finished_world _ _ _ _ _ _ _ Henter).
  - intro Hres. right.
    destruct (scanOnce_enter_world _ _ _ _ _ _ _ Henter)
      as (req & Hlog & Hsig & Hne & Hsup & _).
    exists req. rewrite (scanOnce_resume_log _ _ _ _ _ _ Hres).
    repeat split; assumption.
Qed.

Lemma scanOnce_asks_only_for_supported_formats_witness :
  exists r w',
    V1.scanOnce (Fixtures.envWith 5 (Resolved [Fixtures.qrDetection])) noOptions
                Fixtures.activeBarcode Fixtures.world0
      = Done r Fixtures.activeBarcode w' /\
    (scanLog w' = scanLog Fixtures.world0 \/
     exists req,
       scanLog w' = (scanLog Fixtures.world0 ++ [req])%list /\
       req_formats req <> [] /\
       Forall (fun f => arr_includes Fixtures.bundledFormats f = true) (req_formats req) /\
       req_signal req = None).
Proof.
  let v := eval vm_compute in
        (V1.scanOnce (Fixtures.envWith 5 (Resolved [Fixtures.qrDetection])) noOptions
                     Fixtures.activeBarcode Fixtures.world0) in
  match v with
  | Done ?r ?s' ?w' =>
      exists r, w'; split;
      [ reflexivity
      | exact (scanOnce_asks_only_for_supported_formats
                 (Fixtures.envWith 5 (Resolved [Fixtures.qrDetection])) noOptions
                 Fixtures.activeBarcode s' Fixtures.world0 w' r eq_refl) ]
  end.
Defined.

(* ================================================================== *)
(** ** Further properties of [scanContinuous] *)

(** X9.  On a started MRZ session [scanContinuous] never reaches the
    scanner.  It raises the scanning flag and then hands over to
    [scanOnce], which finds the flag up: the call is rejected with
    'Scan already in progress', whatever the options, and the flag is down
    again afterwards. *)
Theorem scanContinuous_on_mrz_session_is_rejected :
  forall (fuel : nat) (env : Env) (options : ScanOptions) (s : CameraScanner) (w : World),
    cameraStarted s = true ->
    _isScanning s = false ->
    scanType (config s) = "mrz" ->
    V1.scanContinuous fuel env options s w
      = Done (Throws scanInProgressOnce) (set_isScanning false s) w.
Proof.
  intros fuel env options s w Hc Hi Ht.
  unfold V1.scanContinuous. rewrite Hc, Hi. cbn [negb].
  unfold V1._getScanConfig. cbn [config set_isScanning]. rewrite Ht.
  cbn [String.eqb Ascii.eqb Bool.eqb V1.useContinuousScanning negb].
  unfold V1.scanOnce_enter.
  change (cameraStarted (set_isScanning true s)) with (cameraStarted s).
  rewrite Hc. reflexivity.
Qed.

Lemma scanContinuous_on_mrz_witness :
  V1.scanContinuous 5 (Fixtures.envWith 5 (Resolved [Fixtures.mrzDetection])) noOptions
                    Fixtures.activeMrz Fixtures.world0
    = Done (Throws scanInProgressOnce) (set_isScanning false Fixtures.activeMrz)
           Fixtures.world0.
Proof.
  exact (scanContinuous_on_mrz_session_is_rejected 5
           (Fixtures.envWith 5 (Resolved [Fixtures.mrzDetection])) noOptions
           Fixtures.activeMrz Fixtures.world0 eq_refl eq_refl eq_refl).
Defined.

Lemma continuousLoop_unbounded (env : Env) (s : CameraScanner)
  (finalFormats : list string) (mode : string) (signal : option AbortSignal)
  (interval : Z) :
  neverDetects env -> neverAborts signal ->
  forall (fuel : nat) (l : V1.ContLocals) (w : World),
    V1.continuousLoop fuel env s finalFormats mode signal interval None l w = BFuel.
Proof.
  intros Hnd Hna. induction fuel as [|fuel IH]; intros l w; [reflexivity|].
  cbn [V1.continuousLoop]. rewrite (throwIfAborted_never signal w Hna). cbv zeta.
  set (req := mkRequest "video" finalFormats mode signal).
  assert (Hnext : forall l1 w1,
    match V1.intervalWait interval signal w1 with
    | (Resolved _, _, w'') =>
      V1.continuousLoop fuel env s finalFormats mode signal interval None l1 w''
    | (Rejected e, _, w'') => BThrow e l1 w''
    end = BFuel).
  { intros l1 w1.
    destruct (intervalWait_completes interval signal w1 Hna) as (id & w2 & -> & _).
    apply IH. }
  destruct (Hnd (List.length (scanLog w)) req (now w)) as (d & [Hr | (e & Hr & He)]);
    rewrite Hr.
  - apply Hnext.
  - rewrite He. apply Hnext.
Qed.

(** X10.  Without a maximum number of attempts ([maxAttempts] absent, or 0,
    which the method reads as absent) and without cancellation, a scanner
    that never yields a detection keeps the fallback loop of
    [scanContinuous] running for ever: no bound on the number of iterations
    lets it return. *)
Theorem continuous_scan_without_bound_never_returns :
  forall (env : Env) (options : ScanOptions) (s : CameraScanner) (w : World)
         (avail : list string) (fuel : nat),
    (o_maxAttempts options = None \/ o_maxAttempts options = Some 0) ->
    neverAborts (o_signal options) ->
    neverDetects env ->
    cameraStarted s = true ->
    _isScanning s = false ->
    scanType (config s) = "barcode" ->
    has_scanContinuous (_opticalScanner s) = false ->
    V1._validateConfiguration s = Returns avail ->
    filter (arr_includes avail)
           (optOr (o_formats options) ["qr_code"; "pdf417_enhanced"; "pdf417"]) <> [] ->
    V1.scanContinuous fuel env options s w = OutOfFuel.
Proof.
  intros env options s w avail fuel Hmax Hna Hnd Hstarted Hidle Htype Hno Hval Hfmts.
  unfold V1.scanContinuous. rewrite Hstarted, Hidle. cbn [negb].
  rewrite (getScanConfig_barcode (set_isScanning true s) Htype).
  cbn [V1.useContinuousScanning negb].
  unfold V1.scanContinuous_body.
  change (V1._validateConfiguration (set_isScanning true s))
    with (V1._validateConfiguration s).
  rewrite Hval. cbn [V1.formats V1.preferredMode].
  destruct (List.length _ =? 0)%nat eqn:Hlen.
  { apply length_zero_nil in Hlen. contradiction. }
  rewrite (throwIfAborted_never _ w Hna).
  change (has_scanContinuous (_opticalScanner (set_isScanning true s)))
    with (has_scanContinuous (_opticalScanner s)).
  rewrite Hno.
  assert (Hm : V1.maxAttemptsOf options = None).
  { unfold V1.maxAttemptsOf. destruct Hmax as [-> | ->]; reflexivity. }
  rewrite Hm, continuousLoop_unbounded by assumption. reflexivity.
Qed.

Lemma continuous_scan_without_bound_witness :
  V1.scanContinuous 50 (Fixtures.envWith 5 (Resolved []))
                    (mkOptions None None None None None (Some 0) None)
                    Fixtures.activeBarcode Fixtures.world0 = OutOfFuel.
Proof.
  apply (continuous_scan_without_bound_never_returns
           (Fixtures.envWith 5 (Resolved []))
           (mkOptions None None None None None (Some 0) None)
           Fixtures.activeBarcode Fixtures.world0
           ["qr_code"; "pdf417_enhanced"; "pdf417"] 50).
  - right. reflexivity.
  - intros sg H. discriminate H.
  - intros k req t. exists 5. left. reflexivity.
  - reflexivity.
  - reflexivity.
  - reflexivity.
  - reflexivity.
  - reflexivity.
  - discriminate.
Defined.

Lemma continuousLoop_first_detection (env : Env) (s : CameraScanner)
  (finalFormats : list string) (mode : string) (signal : option AbortSignal)
  (interval d : Z) (maxAttempts : option Z) (r : ScanResult) (rs : list ScanResult) :
  neverAborts signal ->
  forall (k fuel : nat) (l : V1.ContLocals) (w : World),
    detectsAtCall env (mkRequest "video" finalFormats mode signal)
                  (List.length (scanLog w)) k d (r :: rs) ->
    (forall m, maxAttempts = Some m -> V1.c_attempt l + Z.of_nat k < m) ->
    (k < fuel)%nat ->
    exists l' w',
      V1.continuousLoop fuel env s finalFormats mode signal interval maxAttempts l w
        = BReturn (Some (V1._formatScanResult s w' (r :: rs) (res_format r))) l' w' /\
      V1.c_attempt l' = V1.c_attempt l + Z.of_nat k + 1 /\
      List.length (scanLog w') = (List.length (scanLog w) + k + 1)%nat.
Proof.
  intros Hna. set (req := mkRequest "video" finalFormats mode signal).
  induction k as [|k IH]; intros fuel l w [Hbefore Hat] Hmax Hfuel;
    (destruct fuel as [|fuel]; [lia|]); cbn [V1.continuousLoop];
    rewrite (throwIfAborted_never signal w Hna);
    (replace (match maxAttempts with
              | Some m => m <? V1.c_attempt l + 1
              | None => false
              end) with false
       by (destruct maxAttempts as [m|]; [|reflexivity];
           symmetry; apply Z.ltb_ge; specialize (Hmax m eq_refl); lia));
    cbv zeta; fold req.
  - specialize (Hat (now w)). rewrite Nat.add_0_r in Hat. rewrite Hat.
    eexists _, _. split; [reflexivity|]. split; [cbn; lia|].
    rewrite scanLog_elapse, scanLog_logScan, length_app. cbn. lia.
  - destruct (Hbefore 0%nat (now w) ltac:(lia)) as (d0 & r0 & Hscan & Hnone).
    rewrite Nat.add_0_r in Hscan. rewrite Hscan.
    set (l1 := V1.mkContLocals (V1.c_scanStartTime l) (V1.c_scanSucceeded l)
                               (V1.c_attempt l + 1)).
    assert (Hnext : forall w1, scanLog w1 = (scanLog w ++ [req])%list ->
      exists l' w',
        match V1.intervalWait interval signal w1 with
        | (Resolved _, _, w'') =>
          V1.continuousLoop fuel env s finalFormats mode signal interval maxAttempts l1 w''
        | (Rejected e, _, w'') => BThrow e l1 w''
        end = BReturn (Some (V1._formatScanResult s w' (r :: rs) (res_format r))) l' w' /\
        V1.c_attempt l' = V1.c_attempt l + Z.of_nat (S k) + 1 /\
        List.length (scanLog w') = (List.length (scanLog w) + S k + 1)%nat).
    { intros w1 Hlog.
      destruct (intervalWait_completes interval signal w1 Hna) as (id & w2 & -> & Hlog2).
      assert (Hlen : List.length (scanLog w2) = S (List.length (scanLog w))).
      { rewrite Hlog2, Hlog, length_app. cbn. lia. }
      destruct (IH fuel l1 w2) as (l' & w' & Hrun & Hatt & Hlen').
      - split.
        + intros j t Hj. rewrite Hlen.
          destruct (Hbefore (S j) t ltac:(lia)) as (dj & rj & Hs & Hn).
          exists dj, rj. split; [|exact Hn].
          rewrite <- Hs. f_equal. lia.
        + intro t. rewrite Hlen. rewrite <- (Hat t). f_equal. lia.
      - intros m Hm. specialize (Hmax m Hm). unfold l1; cbn. lia.
      - lia.
      - exists l', w'. split; [exact Hrun|]. split.
        + rewrite Hatt. unfold l1; cbn. lia.
        + rewrite Hlen', Hlen. lia. }
    destruct Hnone as [-> | (e & -> & He)].
    + apply Hnext. reflexivity.
    + rewrite He. apply Hnext. reflexivity.
Qed.

(** X11.  The fallback loop returns the first detection.  On a started
    barcode session without cancellation, if the scanner's next [k] calls
    find nothing (empty results or non-abort errors) and the call after
    them delivers a detection, and [maxAttempts], when set, exceeds [k],
    then [scanContinuous] terminates with the formatted detection as a
    success, after exactly [k + 1] scanner calls, and lowers the scanning
    flag. *)
Theorem continuous_scan_returns_first_detection :
  forall (env : Env) (options : ScanOptions) (s : CameraScanner) (w : World)
         (avail : list string) (k fuel : nat) (d : Z) (r : ScanResult)
         (rs : list ScanResult),
    detectsAtCall env
      (mkRequest "video"
         (filter (arr_includes avail)
                 (optOr (o_formats options) ["qr_code"; "pdf417_enhanced"; "pdf417"]))
         (modeOr (o_mode options) (scanMode (config s))) (o_signal options))
      (List.length (scanLog w)) k d (r :: rs) ->
    (forall m, o_maxAttempts options = Some m -> m = 0 \/ Z.of_nat k < m) ->
    neverAborts (o_signal options) ->
    cameraStarted s = true ->
    _isScanning s = false ->
    scanType (config s) = "barcode" ->
    has_scanContinuous (_opticalScanner s) = false ->
    V1._validateConfiguration s = Returns avail ->
    filter (arr_includes avail)
           (optOr (o_formats options) ["qr_code"; "pdf417_enhanced"; "pdf417"]) <> [] ->
    (k < fuel)%nat ->
    exists o p w',
      V1.scanContinuous fuel env options s w
        = Done (Returns (Some o)) (set_isScanning false s) w' /\
      V1.success o = true /\
      V1.payload o = Some p /\
      V1.p_format p = res_format r /\
      V1.p_rawData p = res_data r /\
      List.length (scanLog w') = (List.length (scanLog w) + k + 1)%nat.
Proof.
  intros env options s w avail k fuel d r rs Hdet Hmax Hna Hstarted Hidle Htype Hno
         Hval Hfmts Hfuel.
  unfold V1.scanContinuous. rewrite Hstarted, Hidle. cbn [negb].
  rewrite (getScanConfig_barcode (set_isScanning true s) Htype).
  cbn [V1.useContinuousScanning negb].
  unfold V1.scanContinuous_body.
  change (V1._validateConfiguration (set_isScanning true s))
    with (V1._validateConfiguration s).
  rewrite Hval. cbn [V1.formats V1.preferredMode].
  destruct (List.length _ =? 0)%nat eqn:Hlen.
  { apply length_zero_nil in Hlen. contradiction. }
  rewrite (throwIfAborted_never _ w Hna).
  change (has_scanContinuous (_opticalScanner (set_isScanning true s)))
    with (has_scanContinuous (_opticalScanner s)).
  rewrite Hno.
  match goal with
  | |- context [V1.continuousLoop fuel env ?s1 ?ff ?mode ?sig ?int ?maxA ?l ?w0] =>
    destruct (continuousLoop_first_detection env s1 ff mode sig int d maxA r rs Hna
                k fuel l w0) as (l' & w' & Hrun & _ & Hlog);
      [exact Hdet | | exact Hfuel | rewrite Hrun]
  end.
  { intros m Hm. unfold V1.maxAttemptsOf in Hm.
    destruct (o_maxAttempts options) as [m0|] eqn:Ho; [|discriminate].
    destruct (Z.eqb_spec m0 0); [discriminate|]. inversion Hm; subst m0.
    destruct (Hmax m eq_refl); cbn; lia. }
  eexists _, _, w'. split; [reflexivity|].
  cbn. repeat split. exact Hlog.
Qed.

(** Two empty frames, then a QR code on the third attempt. *)
Lemma continuous_scan_returns_first_detection_witness :
  exists o p w',
    V1.scanContinuous 3
       (mkEnv Never (fun _ => Never)
              (fun k _ _ => if (k <? 2)%nat then Settles 5 (Resolved [])
                            else Settles 5 (Resolved [Fixtures.qrDetection]))
              (fun _ _ => Never))
       noOptions Fixtures.activeBarcode Fixtures.world0
      = Done (Returns (Some o)) (set_isScanning false Fixtures.activeBarcode) w' /\
    V1.success o = true /\
    V1.payload o = Some p /\
    V1.p_format p = "qr_code" /\
    V1.p_rawData p = res_data Fixtures.qrDetection /\
    List.length (scanLog w') = 3%nat.
Proof.
  apply (continuous_scan_returns_first_detection
           (mkEnv Never (fun _ => Never)
              (fun k _ _ => if (k <? 2)%nat then Settles 5 (Resolved [])
                            else Settles 5 (Resolved [Fixtures.qrDetection]))
              (fun _ _ => Never))
           noOptions Fixtures.activeBarcode Fixtures.world0
           ["qr_code"; "pdf417_enhanced"; "pdf417"] 2 3 5 Fixtures.qrDetection []).
  - split.
    + intros j t Hj. exists 5, (Resolved []). cbn.
      destruct j as [|[|j]]; [| |lia]; (split; [reflexivity | left; reflexivity]).
    + intro t. reflexivity.
  - intros m H. discriminate H.
  - intros sg H. discriminate H.
  - reflexivity.
  - reflexivity.
  - reflexivity.
  - reflexivity.
  - reflexivity.
  - discriminate.
  - lia.
Defined.

(** X12.  A [scanContinuous] called with a signal that is already aborted
    (without a reason, or with an error object as reason) never calls the
    scanner: on a started barcode session with a valid configuration it
    returns at once, with zero attempts, the world as it was and the
    scanning flag down again.  What it returns follows the signal's
    reason, which is what the cancellation check throws: the
    cancelled outcome when the reason is named 'AbortError' (as it is when
    [abort()] was called without a reason) or its message contains
    'cancelled'; otherwise a failure with code CONTINUOUS_SCAN_ERROR that
    carries the reason's message, and [cancelled] is not set. *)
Theorem continuous_scan_with_aborted_signal_never_scans :
  forall (fuel : nat) (env : Env) (options : ScanOptions) (s : CameraScanner)
         (w : World) (avail : list string) (sg : AbortSignal) (t : Z),
    o_signal options = Some sg ->
    abortAt sg = Some t ->
    t <= now w ->
    cameraStarted s = true ->
    _isScanning s = false ->
    scanType (config s) = "barcode" ->
    V1._validateConfiguration s = Returns avail ->
    filter (arr_includes avail)
           (optOr (o_formats options) ["qr_code"; "pdf417_enhanced"; "pdf417"]) <> [] ->
    exists o,
      V1.scanContinuous fuel env options s w
        = Done (Returns (Some o)) (set_isScanning false s) w /\
      V1.success o = false /\
      V1.attempts o = Some 0 /\
      (if String.eqb (err_name (signalReason (Some sg))) "AbortError"
          || includes (err_message (signalReason (Some sg))) "cancelled"
       then V1.cancelled o = true /\ V1.code o = None /\
            V1.error o = Some (Lit "Continuous scan cancelled")
       else V1.cancelled o = false /\ V1.code o = Some "CONTINUOUS_SCAN_ERROR" /\
            V1.error o = Some (Lit (messageOr (signalReason (Some sg))
                                              "Continuous scan failed"))) /\
      (abortReason sg = None -> V1.cancelled o = true /\ V1.code o = None).
Proof.
  intros fuel env options s w avail sg t Hsig Hab Ht Hstarted Hidle Htype Hval Hfmts.
  unfold V1.scanContinuous. rewrite Hstarted, Hidle. cbn [negb].
  rewrite (getScanConfig_barcode (set_isScanning true s) Htype).
  cbn [V1.useContinuousScanning negb].
  unfold V1.scanContinuous_body.
  change (V1._validateConfiguration (set_isScanning true s))
    with (V1._validateConfiguration s).
  rewrite Hval. cbn [V1.formats V1.preferredMode].
  destruct (List.length _ =? 0)%nat eqn:Hlen.
  { apply length_zero_nil in Hlen. contradiction. }
  rewrite Hsig. unfold throwIfAborted, aborted. rewrite Hab.
  replace (t <=? now w) with true by (symmetry; apply Z.leb_le; exact Ht).
  eexists. split; [reflexivity|].
  unfold V1.scanContinuous_catch.
  cbn [V1.c_scanSucceeded V1.c_attempt andb].
  rewrite andb_false_r.
  split; [|split; [|split]].
  - destruct (String.eqb (err_name (signalReason (Some sg))) "AbortError"
              || includes (err_message (signalReason (Some sg))) "cancelled");
      reflexivity.
  - destruct (String.eqb (err_name (signalReason (Some sg))) "AbortError"
              || includes (err_message (signalReason (Some sg))) "cancelled");
      reflexivity.
  - destruct (String.eqb (err_name (signalReason (Some sg))) "AbortError"
              || includes (err_message (signalReason (Some sg))) "cancelled");
      repeat split.
  - intros Hnone. unfold signalReason. rewrite Hnone. split; reflexivity.
Qed.

(** Two runs on an aborted signal: [abort()] without a reason gives the
    cancelled outcome; [abort(new Error('user left the page'))] gives
    CONTINUOUS_SCAN_ERROR. *)
Lemma continuous_scan_with_aborted_signal_witness :
  (exists o,
     V1.scanContinuous 5 (Fixtures.envWith 5 (Resolved [Fixtures.qrDetection]))
                       (mkOptions None None None (Some (mkSignal (Some 900))) None None None)
                       Fixtures.activeBarcode Fixtures.world0
       = Done (Returns (Some o)) (set_isScanning false Fixtures.activeBarcode)
              Fixtures.world0 /\
     V1.success o = false /\ V1.attempts o = Some 0 /\
     V1.cancelled o = true /\ V1.code o = None) /\
  (exists o,
     V1.scanContinuous 5 (Fixtures.envWith 5 (Resolved [Fixtures.qrDetection]))
                       (mkOptions None None None
                          (Some (mkAbortSignal (Some 900)
                                               (Some (Error "user left the page"))))
                          None None None)
                       Fixtures.activeBarcode Fixtures.world0
       = Done (Returns (Some o)) (set_isScanning false Fixtures.activeBarcode)
              Fixtures.world0 /\
     V1.success o = false /\ V1.attempts o = Some 0 /\
     V1.cancelled o = false /\ V1.code o = Some "CONTINUOUS_SCAN_ERROR").
Proof.
  split.
  - destruct (continuous_scan_with_aborted_signal_never_scans 5
                (Fixtures.envWith 5 (Resolved [Fixtures.qrDetection]))
                (mkOptions None None None (Some (mkSignal (Some 900))) None None None)
                Fixtures.activeBarcode Fixtures.world0
                ["qr_code"; "pdf417_enhanced"; "pdf417"] (mkSignal (Some 900)) 900
                eq_refl eq_refl ltac:(cbn; lia) eq_refl eq_refl eq_refl eq_refl
                ltac:(discriminate))
      as (o & Hrun & Hs & Ha & _ & Hdefault).
    exists o. destruct (Hdefault eq_refl) as [Hc Hcode].
    repeat split; assumption.
  - destruct (continuous_scan_with_aborted_signal_never_scans 5
                (Fixtures.envWith 5 (Resolved [Fixtures.qrDetection]))
                (mkOptions None None None
                   (Some (mkAbortSignal (Some 900) (Some (Error "user left the page"))))
                   None None None)
                Fixtures.activeBarcode Fixtures.world0
                ["qr_code"; "pdf417_enhanced"; "pdf417"]
                (mkAbortSignal (Some 900) (Some (Error "user left the page"))) 900
                eq_refl eq_refl ltac:(cbn; lia) eq_refl eq_refl eq_refl eq_refl
                ltac:(discriminate))
      as (o & Hrun & Hs & Ha & Hreason & _).
    exists o. cbn in Hreason. destruct Hreason as (Hc & Hcode & _).
    repeat split; assumption.
Defined.

(* ================================================================== *)
(** ** Further properties of [scanFile] *)

(** Files skipped by the first-success mode: each is scanned, found without
    a detection, and leaves no entry. *)
Lemma fileLoop_skips_misses (env : Env) (s : CameraScanner) (finalFormats : list string)
  (mode : string) (signal : option AbortSignal) (timeoutMs : Z)
  (beh : string -> Behaviour (list ScanResult)) (rest : list V1.File) :
  neverAborts signal -> noAbortErrors env -> 0 < timeoutMs ->
  (forall k req t, os_scan env k req t = beh (req_source req)) ->
  forall (pre : list V1.File) (l : V1.FileLocals) (w : World),
    (forall f, In f pre ->
       detects (race_timeout (beh (V1.file_name f)) timeoutMs "FILE_SCAN_TIMEOUT") = false) ->
    exists w',
      V1.fileLoop env s finalFormats mode signal false timeoutMs (pre ++ rest) l w
      = V1.fileLoop env s finalFormats mode signal false timeoutMs rest
          (V1.mkFileLocals (V1.f_scanStartTime l) (V1.f_scanSucceeded l)
                           (V1.f_processedFiles l + List.length pre)
                           (V1.f_allResults l)) w' /\
      List.length (scanLog w') = (List.length (scanLog w) + List.length pre)%nat.
Proof.
  intros Hsig Hna Hpos Hbeh. induction pre as [|f pre IH]; intros l w Hmiss.
  - exists w. cbn [app List.length]. rewrite !Nat.add_0_r. destruct l; split; reflexivity.
  - cbn [app V1.fileLoop]. rewrite (throwIfAborted_never signal w Hsig).
    replace (0 <? timeoutMs) with true by (symmetry; now apply Z.ltb_lt).
    cbn [setTimeout]. cbv zeta.
    set (req := mkRequest (V1.file_name f) finalFormats mode signal).
    pose proof (Hmiss f (or_introl eq_refl)) as Hf.
    assert (Hrace0 : race_timeout (os_scan env (List.length (scanLog w)) req (now w))
                       timeoutMs "FILE_SCAN_TIMEOUT"
                     = race_timeout (beh (V1.file_name f)) timeoutMs "FILE_SCAN_TIMEOUT")
      by (rewrite Hbeh; reflexivity).
    destruct (race_settles (os_scan env (List.length (scanLog w)) req (now w)) timeoutMs
                "FILE_SCAN_TIMEOUT" Hpos) as (d & r & Hrace).
    rewrite Hrace.
    assert (Hstep : forall w2,
      scanLog w2 = (scanLog w ++ [req])%list ->
      exists w',
        V1.fileLoop env s finalFormats mode signal false timeoutMs (pre ++ rest)
          (V1.mkFileLocals (V1.f_scanStartTime l) (V1.f_scanSucceeded l)
                           (S (V1.f_processedFiles l)) (V1.f_allResults l)) w2
        = V1.fileLoop env s finalFormats mode signal false timeoutMs rest
            (V1.mkFileLocals (V1.f_scanStartTime l) (V1.f_scanSucceeded l)
                             (V1.f_processedFiles l + List.length (f :: pre))
                             (V1.f_allResults l)) w' /\
        List.length (scanLog w') = (List.length (scanLog w) + List.length (f :: pre))%nat).
    { intros w2 Hlog.
      destruct (IH (V1.mkFileLocals (V1.f_scanStartTime l) (V1.f_scanSucceeded l)
                                    (S (V1.f_processedFiles l)) (V1.f_allResults l)) w2)
        as (w' & Hrun & Hlen).
      - intros f0 Hin. apply Hmiss. right. exact Hin.
      - exists w'. split.
        + rewrite Hrun. cbn [V1.f_scanStartTime V1.f_scanSucceeded V1.f_processedFiles
                             V1.f_allResults List.length].
          replace (S (V1.f_processedFiles l) + List.length pre)%nat
            with (V1.f_processedFiles l + S (List.length pre))%nat by lia.
          reflexivity.
        + rewrite Hlen, Hlog, length_app. cbn. lia. }
    destruct r as [[|r0 rs]|e].
    + apply Hstep. reflexivity.
    + rewrite <- Hrace0, Hrace in Hf. discriminate Hf.
    + rewrite (race_reject_not_abort env _ req _ _ _ _ e Hna Hrace).
      apply Hstep. reflexivity.
Qed.

Ltac enter_file_loop Hcfg Hf Hval Hsig w :=
  unfold V1.scanFile_body;
  rewrite Hcfg, Hf, Hval;
  match goal with
  | |- context [if (List.length ?ff =? 0)%nat then _ else _] =>
    let Hlen := fresh "Hlen" in
    destruct (List.length ff =? 0)%nat eqn:Hlen;
    [apply length_zero_nil in Hlen; contradiction|]
  end;
  rewrite (throwIfAborted_never _ w Hsig).

(** X13.  Stop at first success.  Without [processAll], on a session with a
    valid configuration, no cancellation and a positive per-file timeout, if
    the files before [f] all come back without a detection (nothing found,
    a scan error or a timeout) and the scan of [f] delivers one, [scanFile]
    returns the formatted detection enriched with the name of [f] and its
    position in the batch, and the files after [f] are never handed to the
    scanner. *)
Theorem scanFile_stops_at_first_success :
  forall (env : Env) (pre post : list V1.File) (f : V1.File) (options : ScanOptions)
         (s : CameraScanner) (w : World) (scanConfig : V1.ScanConfig)
         (fmts avail : list string) (beh : string -> Behaviour (list ScanResult))
         (d : Z) (r : ScanResult) (rs : list ScanResult),
    forallb V1.typeSupported (pre ++ f :: post) = true ->
    (o_processAll options = None \/ o_processAll options = Some false) ->
    neverAborts (o_signal options) ->
    noAbortErrors env ->
    (forall t, o_timeoutMs options = Some t -> 0 < t) ->
    V1._getScanConfig s = Returns scanConfig ->
    match o_formats options with
    | Some requested => Returns requested
    | None => V1._getFileScanFormats s
    end = Returns fmts ->
    V1._validateConfiguration s = Returns avail ->
    filter (arr_includes avail) fmts <> [] ->
    let timeoutMs :=
      optOr (o_timeoutMs options)
            (V1._getFileTimeoutConfig (filter (arr_includes avail) fmts)) in
    (forall k req t, os_scan env k req t = beh (req_source req)) ->
    (forall f0, In f0 pre ->
       detects (race_timeout (beh (V1.file_name f0)) timeoutMs "FILE_SCAN_TIMEOUT") = false) ->
    race_timeout (beh (V1.file_name f)) timeoutMs "FILE_SCAN_TIMEOUT"
      = Settles d (Resolved (r :: rs)) ->
    exists o p w',
      V1.scanFile env (V1.FileArray (pre ++ f :: post)) options s w
        = Done (Returns (V1.mkFileScanResult o None None)) s w' /\
      V1.success o = true /\
      V1.payload o = Some p /\ V1.p_format p = res_format r /\
      V1.file o = Some (V1.fileInfo f (S (List.length pre))) /\
      List.length (scanLog w') = (List.length (scanLog w) + List.length pre + 1)%nat.
Proof.
  intros env pre post f options s w scanConfig fmts avail beh d r rs Htypes Hall Hsig Hna
         Htm Hcfg Hf Hval Hfmts timeoutMs Hbeh Hmiss Hhit.
  assert (Hpos : 0 < timeoutMs).
  { unfold timeoutMs. destruct (o_timeoutMs options) as [t|] eqn:Ht; cbn.
    - apply Htm. reflexivity.
    - apply getFileTimeoutConfig_positive. }
  assert (Hpa : optOr (o_processAll options) false = false)
    by (destruct Hall as [-> | ->]; reflexivity).
  set (finalFormats := filter (arr_includes avail) fmts) in *.
  set (mode := modeOr (o_mode options) (V1.preferredMode scanConfig)).
  destruct (fileLoop_skips_misses env s finalFormats mode (o_signal options) timeoutMs beh
              (f :: post) Hsig Hna Hpos Hbeh pre
              (V1.mkFileLocals (Some (now w)) false 0 []) w Hmiss)
    as (w1 & Hskip & Hlen1).
  cbn [V1.f_scanStartTime V1.f_scanSucceeded V1.f_processedFiles V1.f_allResults Nat.add]
    in Hskip.
  assert (Hloop : exists o p w',
    V1.fileLoop env s finalFormats mode (o_signal options) false timeoutMs
                (pre ++ f :: post) (V1.mkFileLocals (Some (now w)) false 0 []) w
      = BReturn (Some o) (V1.mkFileLocals (Some (now w)) true (S (List.length pre)) []) w' /\
    V1.success o = true /\ V1.payload o = Some p /\ V1.p_format p = res_format r /\
    V1.file o = Some (V1.fileInfo f (S (List.length pre))) /\
    List.length (scanLog w') = (List.length (scanLog w) + List.length pre + 1)%nat).
  { rewrite Hskip. cbn [V1.fileLoop]. rewrite (throwIfAborted_never _ w1 Hsig).
    replace (0 <? timeoutMs) with true by (symmetry; now apply Z.ltb_lt).
    cbn [setTimeout]. cbv zeta. rewrite Hbeh. cbn [req_source]. rewrite Hhit.
    cbn [V1.f_scanStartTime V1.f_processedFiles V1.f_allResults].
    eexists _, _, _. split; [reflexivity|].
    cbn. repeat split. rewrite length_app. cbn. lia. }
  destruct Hloop as (o & p & w' & Hrun & Hs & Hp & Hfmt & Hfile & Hlog).
  exists o, p, w'. split; [|repeat split; assumption].
  unfold V1.scanFile.
  destruct (pre ++ f :: post)%list as [|f0 fs] eqn:Hfiles.
  { destruct pre; discriminate Hfiles. }
  cbn [List.length Nat.eqb].
  rewrite (supported_no_invalid _ Htypes). cbn [List.length Nat.ltb Nat.leb].
  replace (V1.scanFile_body env (f0 :: fs) options s w)
    with (BReturn (A := V1.FileScanResult) (V1.mkFileScanResult o None None)
                  (V1.mkFileLocals (Some (now w)) true (S (List.length pre)) []) w');
    [reflexivity|].
  symmetry. enter_file_loop Hcfg Hf Hval Hsig w.
  fold finalFormats. rewrite Hpa. fold mode. fold timeoutMs.
  rewrite Hrun. reflexivity.
Qed.

(** X14.  Nothing found.  Without [processAll], under the same conditions,
    if no file's scan delivers a detection, [scanFile] hands every file to
    the scanner once and returns the NO_RESULTS_IN_FILES failure, whose
    summary counts all files as processed and carries no success or failure
    counts and no per-file entries. *)
Theorem scanFile_reports_when_nothing_found :
  forall (env : Env) (files : list V1.File) (options : ScanOptions)
         (s : CameraScanner) (w : World) (scanConfig : V1.ScanConfig)
         (fmts avail : list string) (beh : string -> Behaviour (list ScanResult)),
    files <> [] ->
    forallb V1.typeSupported files = true ->
    (o_processAll options = None \/ o_processAll options = Some false) ->
    neverAborts (o_signal options) ->
    noAbortErrors env ->
    (forall t, o_timeoutMs options = Some t -> 0 < t) ->
    V1._getScanConfig s = Returns scanConfig ->
    match o_formats options with
    | Some requested => Returns requested
    | None => V1._getFileScanFormats s
    end = Returns fmts ->
    V1._validateConfiguration s = Returns avail ->
    filter (arr_includes avail) fmts <> [] ->
    let timeoutMs :=
      optOr (o_timeoutMs options)
            (V1._getFileTimeoutConfig (filter (arr_includes avail) fmts)) in
    (forall k req t, os_scan env k req t = beh (req_source req)) ->
    (forall f0, In f0 files ->
       detects (race_timeout (beh (V1.file_name f0)) timeoutMs "FILE_SCAN_TIMEOUT") = false) ->
    exists r sm w',
      V1.scanFile env (V1.FileArray files) options s w = Done (Returns r) s w' /\
      V1.success (V1.top r) = false /\
      V1.code (V1.top r) = Some "NO_RESULTS_IN_FILES" /\
      V1.results r = None /\
      V1.summary r = Some sm /\
      V1.totalFiles sm = List.length files /\
      V1.processedFiles sm = List.length files /\
      V1.successfulFiles sm = None /\ V1.failedFiles sm = None /\
      List.length (scanLog w') = (List.length (scanLog w) + List.length files)%nat.
Proof.
  intros env files options s w scanConfig fmts avail beh Hne Htypes Hall Hsig Hna
         Htm Hcfg Hf Hval Hfmts timeoutMs Hbeh Hmiss.
  assert (Hpos : 0 < timeoutMs).
  { unfold timeoutMs. destruct (o_timeoutMs options) as [t|] eqn:Ht; cbn.
    - apply Htm. reflexivity.
    - apply getFileTimeoutConfig_positive. }
  assert (Hpa : optOr (o_processAll options) false = false)
    by (destruct Hall as [-> | ->]; reflexivity).
  set (finalFormats := filter (arr_includes avail) fmts) in *.
  set (mode := modeOr (o_mode options) (V1.preferredMode scanConfig)).
  destruct (fileLoop_skips_misses env s finalFormats mode (o_signal options) timeoutMs beh
              [] Hsig Hna Hpos Hbeh files
              (V1.mkFileLocals (Some (now w)) false 0 []) w Hmiss)
    as (w1 & Hskip & Hlen1).
  rewrite app_nil_r in Hskip.
  cbn [V1.f_scanStartTime V1.f_scanSucceeded V1.f_processedFiles V1.f_allResults Nat.add
       V1.fileLoop] in Hskip.
  eexists _, _, w1. split.
  - unfold V1.scanFile. destruct files as [|f0 fs]; [contradiction|].
    cbn [List.length Nat.eqb].
    rewrite (supported_no_invalid _ Htypes). cbn [List.length Nat.ltb Nat.leb].
    enter_file_loop Hcfg Hf Hval Hsig w.
    fold finalFormats. rewrite Hpa. fold mode. fold timeoutMs.
    rewrite Hskip. reflexivity.
  - cbn. repeat split. exact Hlen1.
Qed.

Lemma scanFile_reports_when_nothing_found_witness :
  exists r sm w',
    V1.scanFile (Fixtures.envWith 5 (Resolved []))
                (V1.FileArray [Fixtures.photoA; Fixtures.photoC]) noOptions
                Fixtures.activeBarcode Fixtures.world0 = Done (Returns r) Fixtures.activeBarcode w' /\
    V1.success (V1.top r) = false /\
    V1.code (V1.top r) = Some "NO_RESULTS_IN_FILES" /\
    V1.results r = None /\
    V1.summary r = Some sm /\
    V1.totalFiles sm = 2%nat /\
    V1.processedFiles sm = 2%nat /\
    V1.successfulFiles sm = None /\ V1.failedFiles sm = None /\
    List.length (scanLog w') = 2%nat.
Proof.
  apply (scanFile_reports_when_nothing_found (Fixtures.envWith 5 (Resolved []))
           [Fixtures.photoA; Fixtures.photoC] noOptions Fixtures.activeBarcode
           Fixtures.world0
           (V1.mkScanConfig ["qr_code"; "pdf417_enhanced"; "pdf417"] true "first")
           ["qr_code"; "pdf417"; "pdf417_enhanced"]
           ["qr_code"; "pdf417_enhanced"; "pdf417"]
           (fun _ => Settles 5 (Resolved [])));
    try reflexivity; try discriminate.
  left. reflexivity.
Defined.

(** The second of three pictures holds the first code; the third is never
    scanned. *)
Lemma scanFile_stops_at_first_success_witness :
  exists o p w',
    V1.scanFile Fixtures.envFiles
                (V1.FileArray [Fixtures.photoB; Fixtures.photoA; Fixtures.photoC])
                noOptions Fixtures.activeBarcode Fixtures.world0
      = Done (Returns (V1.mkFileScanResult o None None)) Fixtures.activeBarcode w' /\
    V1.success o = true /\
    V1.payload o = Some p /\ V1.p_format p = "qr_code" /\
    V1.file o = Some (V1.fileInfo Fixtures.photoA 2) /\
    List.length (scanLog w') = 2%nat.
Proof.
  apply (scanFile_stops_at_first_success Fixtures.envFiles
           [Fixtures.photoB] [Fixtures.photoC] Fixtures.photoA noOptions
           Fixtures.activeBarcode Fixtures.world0
           (V1.mkScanConfig ["qr_code"; "pdf417_enhanced"; "pdf417"] true "first")
           ["qr_code"; "pdf417"; "pdf417_enhanced"]
           ["qr_code"; "pdf417_enhanced"; "pdf417"]
           (fun src => if String.eqb src "b.jpg"
                       then Settles 7 (Rejected (Error "decode failed"))
                       else Settles 5 (Resolved [Fixtures.qrDetection]))
           5 Fixtures.qrDetection []);
    try reflexivity; try discriminate.
  - left. reflexivity.
  - intros k req t d e H. cbn in H.
    destruct (String.eqb (req_source req) "b.jpg"); inversion H; reflexivity.
  - intros f0 [<- | []]. reflexivity.
Defined.

(* ================================================================== *)
(** ** Further properties of [scan] (second listing) *)

Lemma getTimeout_barcode_range (s : V2.Session) :
  String.eqb (scanType (config (V2.core s))) "mrz" = false ->
  1500 <= V2._getTimeout s <= 30000.
Proof.
  intro Hty. unfold V2._getTimeout. rewrite Hty.
  destruct (V2._formats s) as [|primaryFormat rest]; [lia|].
  unfold V2.TIMEOUT_CONFIG.
  repeat match goal with
         | |- context [if String.eqb ?a ?b then _ else _] => destruct (String.eqb a b)
         end; cbn; lia.
Qed.

Lemma getMinScanTime_range (s : V2.Session) : 0 <= V2._getMinScanTime s <= 1500.
Proof. unfold V2._getMinScanTime. destruct (arr_includes _ _); lia. Qed.

Lemma scan_flag_restored (s : V2.Session) :
  _isScanning (V2.core s) = false ->
  V2.set_core
    (set_isScanning false (V2.core (V2.set_core (set_isScanning true (V2.core s)) s)))
    (V2.set_core (set_isScanning true (V2.core s)) s) = s.
Proof.
  destruct s as [c f u m]; destruct c as [cfg st v os i p]; cbn. intros ->. reflexivity.
Qed.

Lemma In_timers_after_wait_aux (m : Z) (w : World) (tm : Timer) :
  In tm (timers (let '(_, w') := setTimeout m w in elapse m w')) -> In tm (timers w).
Proof.
  unfold elapse, setTimeout; cbn [timers snd now]. intro H.
  apply filter_In in H as [[Heq|Hin] Hdue]; [|exact Hin].
  subst tm. cbn [timer_due] in Hdue. apply Z.ltb_lt in Hdue. lia.
Qed.

(** X15.  [scan] on a started, idle session of any scan type but 'mrz'
    always comes back: whatever the scanner does (find something, find
    nothing, fail, or never answer), the call returns an outcome object, it
    does not throw, it returns no later than the session's timeout (between
    1.5 s and 30 s) after it was called, it leaves the session exactly as it
    found it (scanning flag down), and it leaves behind no timer of its
    own. *)
Theorem scan_on_barcode_session_always_completes :
  forall (env : Env) (options : ScanOptions) (s : V2.Session) (w : World),
    cameraStarted (V2.core s) = true ->
    _isScanning (V2.core s) = false ->
    String.eqb (scanType (config (V2.core s))) "mrz" = false ->
    exists o w',
      V2.scan env options s w = Done (Returns o) s w' /\
      now w <= now w' <= now w + V2._getTimeout s /\
      V2._getTimeout s <= 30000 /\
      (forall tm, In tm (timers w') -> In tm (timers w) /\ timer_id tm <> nextTimer w).
Proof.
  intros env options s w Hc Hi Hty.
  pose proof (getTimeout_barcode_range s Hty) as Ht.
  pose proof (getMinScanTime_range s) as Hm.
  unfold V2.scan, V2.scan_enter. rewrite Hc, Hi. cbn [negb]. cbv zeta.
  replace (0 <? V2._getTimeout s) with true by (symmetry; apply Z.ltb_lt; lia).
  set (req := V2._buildScanOptions options s).
  set (pending := os_scan env (List.length (scanLog w)) req (now w)).
  cbn [setTimeout]. unfold V2.scan_resume.
  cbn [V2.l_pending V2.l_timeoutMs V2.l_timeout V2.l_minScanTime V2.l_scanStartTime].
  rewrite (scan_flag_restored s Hi).
  set (w2 := mkWorld _ _ _ _ _ _ _).
  assert (Hnow2 : now w2 = now w) by reflexivity.
  assert (Htm2 : forall d tm,
             In tm (timers (clearIfArmed (Some (nextTimer w)) (elapse d w2))) ->
             In tm (timers w) /\ timer_id tm <> nextTimer w).
  { intros d tm Hin. unfold clearIfArmed, clearTimeout, elapse in Hin.
    cbn [timers] in Hin. apply filter_In in Hin as [Hin Hid].
    apply filter_In in Hin as [Hin _].
    apply negb_true_iff, Nat.eqb_neq in Hid.
    unfold w2 in Hin; cbn [timers logScan] in Hin.
    destruct Hin as [<- | Hin]; [cbn in Hid; congruence|]. split; assumption. }
  destruct (race_timeout pending (V2._getTimeout s) "SCAN_TIMEOUT")
    as [d [rs|e]|] eqn:Hrace.
  - assert (Hd : d <= V2._getTimeout s).
    { revert Hrace. unfold race_timeout.
      replace (0 <? V2._getTimeout s) with true by (symmetry; apply Z.ltb_lt; lia).
      destruct pending as [d' r'|]; [|discriminate].
      destruct (Z.leb_spec d' (V2._getTimeout s)); intro E; inversion E; subst; lia. }
    set (w3 := clearIfArmed (Some (nextTimer w)) (elapse d w2)).
    assert (Hnow3 : now w3 = now w + Z.max 0 d) by reflexivity.
    pose proof (scan_floor_clock (V2._getMinScanTime s) (now w) w3 ltac:(lia)) as Hclock.
    cbv zeta in Hclock.
    match type of Hclock with now ?W = _ => set (w4 := W) in * end.
    assert (Hbound : now w <= now w4 <= now w + V2._getTimeout s).
    { rewrite Hclock. destruct (0 <? V2._getMinScanTime s); lia. }
    assert (Htm4 : forall tm, In tm (timers w4) ->
                              In tm (timers w) /\ timer_id tm <> nextTimer w).
    { intros tm Hin. apply (Htm2 d). fold w3. revert Hin. unfold w4.
      destruct (0 <? V2._getMinScanTime s); [|tauto].
      destruct (now w3 - now w <? V2._getMinScanTime s); [|tauto].
      apply (In_timers_after_wait_aux). }
    destruct rs as [|r rs'];
      (eexists _, w4; split; [reflexivity|]; split; [exact Hbound|];
       split; [lia | exact Htm4]).
  - assert (Hd : d <= V2._getTimeout s).
    { revert Hrace. unfold race_timeout.
      replace (0 <? V2._getTimeout s) with true by (symmetry; apply Z.ltb_lt; lia).
      destruct pending as [d' r'|].
      - destruct (Z.leb_spec d' (V2._getTimeout s)); intro E; inversion E; subst; lia.
      - intro E; inversion E; subst; lia. }
    unfold V2.scan_catch. cbn [V2.l_timeout].
    change (nextTimer (logScan req w)) with (nextTimer w).
    destruct (String.eqb (err_message e) "SCAN_TIMEOUT");
      (eexists _, _; split; [reflexivity|]; split;
       [ change (now (clearIfArmed (Some (nextTimer w)) (elapse d w2)))
           with (now w + Z.max 0 d); lia
       | split; [lia | apply Htm2] ]).
  - exfalso. revert Hrace. unfold race_timeout.
    replace (0 <? V2._getTimeout s) with true by (symmetry; apply Z.ltb_lt; lia).
    destruct pending as [d' r'|]; [destruct (d' <=? _)|]; discriminate.
Qed.

Lemma scan_on_barcode_session_witness :
  exists o w',
    V2.scan Fixtures.envVideoStalls noOptions Fixtures.activeBarcode2 Fixtures.world0
      = Done (Returns o) Fixtures.activeBarcode2 w' /\
    1000 <= now w' <= 1000 + V2._getTimeout Fixtures.activeBarcode2 /\
    V2._getTimeout Fixtures.activeBarcode2 <= 30000 /\
    (forall tm, In tm (timers w') -> In tm [] /\ timer_id tm <> 0%nat).
Proof.
  exact (scan_on_barcode_session_always_completes Fixtures.envVideoStalls noOptions
           Fixtures.activeBarcode2 Fixtures.world0 eq_refl eq_refl eq_refl).
Defined.

(* ================================================================== *)
(** ** The constructor *)

(** X16.  The constructor of the first listing returns a session exactly
    when the scan mode is one of the three known ones and the scan type is
    usable: 'mrz' with a non-empty license key and an MRZ plugin registered,
    or 'barcode' with at least one of the three barcode formats registered.
    The session it returns holds the given configuration, has no stream and
    no video element, is not scanning, and passes
    [_validateConfiguration]. *)
Theorem construct_accepts_exactly_usable_configurations :
  forall (cfg : Config) (os : OpticalScanner),
    ((exists s, V1.construct cfg os = Returns s) <->
     (In (scanMode cfg) ["first"; "all"; "exhaustive"] /\
      ((scanType cfg = "mrz" /\ licenseKey cfg <> EmptyString /\
        In "mrz" (getSupportedFormats os)) \/
       (scanType cfg = "barcode" /\
        exists f, In f ["qr_code"; "pdf417_enhanced"; "pdf417"] /\
                  In f (getSupportedFormats os))))) /\
    (forall s, V1.construct cfg os = Returns s ->
       config s = cfg /\ _opticalScanner s = os /\
       released s /\ _isScanning s = false /\
       _pluginOptions s = V1._buildPluginOptions s /\
       exists avail, V1._validateConfiguration s = Returns avail /\ avail <> []).
Proof.
  intros cfg os.
  assert (Hshape : forall s, V1.construct cfg os = Returns s ->
                     s = mkScanner cfg None None os false
                           (V1._buildPluginOptions
                              (mkScanner cfg None None os false (mkPluginOptions None None)))
                     /\ exists avail, V1._validateConfiguration s = Returns avail).
  { intros s. unfold V1.construct.
    destruct (negb (arr_includes ["mrz"; "barcode"] (scanType cfg))); [discriminate|].
    destruct (negb (arr_includes ["first"; "all"; "exhaustive"] (scanMode cfg)));
      [discriminate|].
    cbv zeta.
    destruct (V1._validateConfiguration _) as [av|e] eqn:Hval; [|discriminate].
    intro H; inversion H; subst s. split; [reflexivity|]. exists av. exact Hval. }
  split.
  - split.
    + intros (s & Hs). revert Hs. unfold V1.construct.
      destruct (arr_includes ["mrz"; "barcode"] (scanType cfg)) eqn:Hty;
        cbn [negb]; [|discriminate].
      destruct (arr_includes ["first"; "all"; "exhaustive"] (scanMode cfg)) eqn:Hmode;
        cbn [negb]; [|discriminate].
      cbv zeta.
      destruct (V1._validateConfiguration _) as [av|e] eqn:Hval; [|discriminate].
      intros _. split; [apply arr_includes_In; exact Hmode|].
      apply arr_includes_In in Hty.
      revert Hval. unfold V1._validateConfiguration, V1._getScanConfig,
        V1.getEnhancedFeatures, V1.licensed.
      cbn [config set_pluginOptions _opticalScanner V1.feat_mrz].
      destruct Hty as [Hty | [Hty | []]]; rewrite <- Hty; cbn [String.eqb Ascii.eqb Bool.eqb
        V1.formats arr_includes existsb orb andb negb].
      * destruct (String.eqb (licenseKey cfg) EmptyString) eqn:Hkey; cbn [negb andb];
          [discriminate|].
        destruct (arr_includes (getSupportedFormats os) "mrz") eqn:Hsup; cbn [negb];
          [|discriminate].
        intros _. left. split; [reflexivity|]. split.
        -- apply String.eqb_neq. exact Hkey.
        -- apply arr_includes_In. exact Hsup.
      * cbn [filter].
        destruct (arr_includes (getSupportedFormats os) "qr_code") eqn:H1.
        { intros _. right. split; [reflexivity|]. exists "qr_code".
          split; [left; reflexivity | apply arr_includes_In; exact H1]. }
        destruct (arr_includes (getSupportedFormats os) "pdf417_enhanced") eqn:H2.
        { intros _. right. split; [reflexivity|]. exists "pdf417_enhanced".
          split; [right; left; reflexivity | apply arr_includes_In; exact H2]. }
        destruct (arr_includes (getSupportedFormats os) "pdf417") eqn:H3.
        { intros _. right. split; [reflexivity|]. exists "pdf417".
          split; [right; right; left; reflexivity | apply arr_includes_In; exact H3]. }
        cbn. discriminate.
    + intros (Hmode & Hty). apply arr_includes_In in Hmode.
      unfold V1.construct. rewrite Hmode. cbn [negb].
      destruct Hty as [(Hty & Hkey & Hsup) | (Hty & f & Hf & Hsup)]; rewrite Hty;
        cbn [arr_includes existsb String.eqb Ascii.eqb Bool.eqb orb negb]; cbv zeta;
        unfold V1._validateConfiguration, V1._getScanConfig, V1.getEnhancedFeatures,
          V1.licensed;
        cbn [config set_pluginOptions _opticalScanner V1.feat_mrz]; rewrite Hty;
        cbn [String.eqb Ascii.eqb Bool.eqb V1.formats arr_includes existsb orb andb negb].
      * apply String.eqb_neq in Hkey. rewrite Hkey.
        apply arr_includes_In in Hsup. rewrite Hsup. cbn. rewrite ?Hsup. cbn.
        eexists. reflexivity.
      * apply arr_includes_In in Hsup.
        destruct (List.length (filter (arr_includes (getSupportedFormats os))
                                      ["qr_code"; "pdf417_enhanced"; "pdf417"]) =? 0)%nat
          eqn:Hlen.
        -- exfalso. apply length_zero_nil in Hlen.
           assert (Hin : In f (filter (arr_includes (getSupportedFormats os))
                                      ["qr_code"; "pdf417_enhanced"; "pdf417"]))
             by (apply filter_In; split; assumption).
           rewrite Hlen in Hin. exact Hin.
        -- eexists. reflexivity.
  - intros s Hs. destruct (Hshape s Hs) as (-> & av & Hval).
    cbn [config _opticalScanner _isScanning _pluginOptions].
    split; [reflexivity|]. split; [reflexivity|]. split; [split; reflexivity|].
    split; [reflexivity|]. split; [reflexivity|].
    exists av. split; [exact Hval|].
    apply validateConfiguration_supported in Hval. tauto.
Qed.

Lemma construct_accepts_witness :
  exists s, V1.construct Fixtures.mrzConfig Fixtures.plainScanner = Returns s.
Proof.
  apply (proj2 (proj1 (construct_accepts_exactly_usable_configurations
                         Fixtures.mrzConfig Fixtures.plainScanner))).
  split; [left; reflexivity|].
  left. split; [reflexivity|]. split; [discriminate | right; right; right; left; reflexivity].
Defined.

(* ================================================================== *)
(** ** Result formatting (second listing) *)

Lemma textOr_nonempty (o : option string) (fallback : string) :
  fallback <> EmptyString -> V2.textOr o fallback <> EmptyString.
Proof.
  intro Hf. unfold V2.textOr, truthy.
  destruct o as [[|c t]|]; try exact Hf. discriminate.
Qed.

(** X17.  A detection of format 'qr_code', 'pdf417' or 'pdf417_enhanced' is
    always formatted with a text that is a non-empty string: where the raw
    result has no usable text, a fixed placeholder takes its place.  For
    'pdf417_enhanced' the type is 'DL', and [parsed] is true exactly when
    the raw result carries driver-license data, which then are the
    [fields]. *)
Theorem formatted_code_text_is_never_empty :
  forall (s : V2.Session) (w : World) (result : ScanResult) (rest : list ScanResult),
    (forall fmt, fmt = "qr_code" \/ fmt = "pdf417" \/ fmt = "pdf417_enhanced" ->
       exists f t,
         V2.formatted (V2._formatScanResult s w (result :: rest) fmt) = Some f /\
         V2.f_text f = Some (inl t) /\ t <> EmptyString) /\
    (exists f,
       V2.formatted (V2._formatScanResult s w (result :: rest) "pdf417_enhanced") = Some f /\
       V2.f_type f = "DL" /\
       match licenseData result with
       | Some dl => V2.f_parsed f = Some true /\ V2.f_fields f = Some (V2.DlFields dl)
       | None => V2.f_parsed f = Some false /\
                 V2.f_fields f = Some (V2.PlainFields (optOr (res_fields result) []))
       end).
Proof.
  intros s w result rest. split.
  - intros fmt [-> | [-> | ->]]; cbn.
    + eexists _, _. split; [reflexivity|]. split; [reflexivity|].
      apply textOr_nonempty. discriminate.
    + eexists _, _. split; [reflexivity|]. split; [reflexivity|].
      apply textOr_nonempty. discriminate.
    + unfold V2._formatDriverLicenseResult, licenseData.
      destruct (res_data result) as [|[str|o] items];
        [| |destruct (det_driverLicense o)];
        try destruct (res_driverLicense result);
        (eexists _, _; split; [reflexivity|]; split; [reflexivity|];
         apply textOr_nonempty; discriminate).
  - cbn. unfold V2._formatDriverLicenseResult, licenseData.
    destruct (res_data result) as [|[str|o] items];
      [| |destruct (det_driverLicense o)];
      try destruct (res_driverLicense result);
      (eexists; split; [reflexivity|]; split; [reflexivity|]; split; reflexivity).
Qed.

(* ================================================================== *)
(** ** Configuration updates *)

Lemma buildPluginOptions_ignores_options (p : PluginOptions) (s : CameraScanner) :
  V1._buildPluginOptions (set_pluginOptions p s) = V1._buildPluginOptions s.
Proof. reflexivity. Qed.

Lemma differs_same (v : string) : V1.differs (Some v) v = false.
Proof. unfold V1.differs. now rewrite String.eqb_refl. Qed.

Lemma updateConfig_keeps_camera (u : V1.ConfigUpdate) (s : CameraScanner) :
  _stream (V1.updateConfig u s) = _stream s /\
  _videoElement (V1.updateConfig u s) = _videoElement s /\
  _opticalScanner (V1.updateConfig u s) = _opticalScanner s /\
  _isScanning (V1.updateConfig u s) = _isScanning s.
Proof.
  unfold V1.updateConfig.
  destruct (V1.differs _ _ || V1.differs _ _); repeat split; reflexivity.
Qed.

(** X18.  [updateConfig] touches the configuration and the plugin options
    only: stream, video element, scanner and scanning flag stay as they
    are.  Handing it the object [getConfig()] returned changes nothing at
    all, and applying the same update twice is the same as applying it
    once. *)
Theorem updateConfig_round_trip :
  forall (u : V1.ConfigUpdate) (s : CameraScanner),
    _stream (V1.updateConfig u s) = _stream s /\
    _videoElement (V1.updateConfig u s) = _videoElement s /\
    _opticalScanner (V1.updateConfig u s) = _opticalScanner s /\
    _isScanning (V1.updateConfig u s) = _isScanning s /\
    V1.updateConfig (V1.asUpdate (V1.getConfig s)) s = s /\
    V1.updateConfig u (V1.updateConfig u s) = V1.updateConfig u s.
Proof.
  intros u s.
  destruct (updateConfig_keeps_camera u s) as (H1 & H2 & H3 & H4).
  repeat (split; [assumption|]). split.
  - unfold V1.updateConfig, V1.asUpdate, V1.getConfig.
    cbn [V1.new_scanType V1.new_scanMode V1.new_licenseKey V1.new_targetContainer optOr].
    rewrite !differs_same. cbn [orb].
    destruct s as [[t m k c] st v os i p]. reflexivity.
  - clear. destruct u as [nt nm nk nc]. destruct s as [[t m k c] st v os i p].
    unfold V1.updateConfig, V1._rebuildPluginOptions.
    cbn [V1.new_scanType V1.new_scanMode V1.new_licenseKey V1.new_targetContainer
         config licenseKey scanType scanMode targetContainer set_config].
    destruct nm as [nm|], nc as [nc|], nk as [nk|], nt as [nt|];
      cbn [V1.differs optOr orb];
      rewrite ?orb_true_r; cbn [orb];
      try reflexivity.
    all: destruct (negb (String.eqb nk k) || negb (String.eqb nt t));
      cbn -[String.eqb V1._buildPluginOptions]; rewrite !String.eqb_refl; reflexivity.
Qed.

(** X19.  [updateConfig] validates nothing.  If the configuration it leaves
    behind is one the constructor would reject for its scan type or for a
    missing plugin or license (the scan mode being a known one), the
    update itself succeeds; a later [scanOnce] on the started, idle session
    then never reaches the scanner: it returns, at once and without
    throwing, a failure with code SCAN_ERROR, and leaves the session and
    the world as they were. *)
Theorem updateConfig_defers_validation_to_scan :
  forall (env : Env) (options : ScanOptions) (u : V1.ConfigUpdate) (s : CameraScanner)
         (w : World) (e : JsError),
    cameraStarted s = true ->
    _isScanning s = false ->
    In (scanMode (config (V1.updateConfig u s))) ["first"; "all"; "exhaustive"] ->
    V1.construct (config (V1.updateConfig u s)) (_opticalScanner s) = Throws e ->
    exists o,
      V1.scanOnce env options (V1.updateConfig u s) w
        = Done (Returns o) (V1.updateConfig u s) w /\
      V1.success o = false /\
      V1.code o = Some "SCAN_ERROR".
Proof.
  intros env options u s w e Hc Hi Hmode Hrej.
  destruct (updateConfig_keeps_camera u s) as (Hst & Hv & Hos & Hsc).
  set (s' := V1.updateConfig u s) in *. clearbody s'.
  assert (Hc' : cameraStarted s' = true)
    by (unfold cameraStarted; rewrite Hst, Hv; exact Hc).
  assert (Hi' : _isScanning s' = false) by (rewrite Hsc; exact Hi).
  assert (Hflag : set_isScanning false (set_isScanning true s') = s').
  { destruct s' as [cfg st v os i p]. cbn in Hi'. subst i. reflexivity. }
  (* what the constructor rejects, the entry checks of scanOnce reject *)
  assert (Hfail : (exists e1, V1._getScanConfig (set_isScanning true s') = Throws e1) \/
                  (exists sc e1, V1._getScanConfig (set_isScanning true s') = Returns sc /\
                                 V1._validateConfiguration (set_isScanning true s')
                                   = Throws e1)).
  { revert Hrej. unfold V1.construct.
    apply arr_includes_In in Hmode. rewrite Hmode. cbn [negb].
    destruct (arr_includes ["mrz"; "barcode"] (scanType (config s'))) eqn:Hty; cbn [negb].
    - cbv zeta.
      match goal with |- context [V1._validateConfiguration ?x] =>
        change (V1._validateConfiguration x)
          with (V1._validateConfiguration
                  (mkScanner (config s') None None (_opticalScanner s) false
                     (V1._buildPluginOptions
                        (mkScanner (config s') None None (_opticalScanner s) false
                                   (mkPluginOptions None None)))))
      end.
      assert (Hsame : forall st v i p,
                 V1._validateConfiguration
                   (mkScanner (config s') st v (_opticalScanner s) i p)
                 = V1._validateConfiguration (set_isScanning true s')).
      { intros st v i p. unfold V1._validateConfiguration, V1._getScanConfig,
          V1.getEnhancedFeatures, V1.licensed.
        cbn [config _opticalScanner set_isScanning]. rewrite Hos. reflexivity. }
      rewrite Hsame.
      destruct (V1._getScanConfig (set_isScanning true s')) as [sc|e2] eqn:Hcfg.
      2:{ exfalso. revert Hcfg. unfold V1._getScanConfig. cbn [config set_isScanning].
          apply arr_includes_In in Hty. destruct Hty as [<- | [<- | []]]; discriminate. }
      destruct (V1._validateConfiguration (set_isScanning true s')) as [av|e1] eqn:Hval;
        [discriminate|].
      intros _. right. exists sc, e1. split; reflexivity.
    - intros _. left. unfold V1._getScanConfig. cbn [config set_isScanning].
      unfold arr_includes in Hty. cbn [existsb] in Hty.
      apply orb_false_iff in Hty as [H1 Hty]. apply orb_false_iff in Hty as [H2 _].
      rewrite H1, H2. eexists. reflexivity. }
  unfold V1.scanOnce, V1.scanOnce_enter. rewrite Hc', Hi'. cbn [negb]. cbv zeta.
  assert (Hcatch : forall e1, err_name e1 = "Error" ->
             err_message e1 <> "SCAN_TIMEOUT" ->
             V1.scanOnce_fail e1 V1.initialOnceLocals (set_isScanning true s') w
             = Finished (Returns (V1.failure (set_isScanning true s')
                                    (Lit (messageOr e1 "Scan failed")) (Some "SCAN_ERROR")))
                        s' w).
  { intros e1 Hname Hmsg. unfold V1.scanOnce_fail, V1.scanOnce_catch.
    rewrite Hname. cbn [String.eqb Ascii.eqb Bool.eqb andb V1.initialOnceLocals
                        V1.l_scanTimeout clearIfArmed].
    apply String.eqb_neq in Hmsg. rewrite Hmsg. rewrite Hflag. reflexivity. }
  destruct Hfail as [(e1 & Hcfg) | (sc & e1 & Hcfg & Hval)].
  - rewrite Hcfg.
    assert (He1 : err_name e1 = "Error" /\ err_message e1 <> "SCAN_TIMEOUT").
    { revert Hcfg. unfold V1._getScanConfig.
      repeat match goal with |- context [if ?b then _ else _] => destruct b end;
        intro E; inversion E; subst; split; [reflexivity | discriminate]. }
    rewrite (Hcatch e1 (proj1 He1) (proj2 He1)).
    eexists. split; [reflexivity|]. split; reflexivity.
  - rewrite Hcfg, Hval.
    assert (He1 : err_name e1 = "Error" /\ err_message e1 <> "SCAN_TIMEOUT").
    { revert Hval. unfold V1._validateConfiguration. rewrite Hcfg.
      repeat match goal with |- context [if ?b then _ else _] => destruct b end;
        intro E; inversion E; subst; split; try reflexivity; discriminate. }
    rewrite (Hcatch e1 (proj1 He1) (proj2 He1)).
    eexists. split; [reflexivity|]. split; reflexivity.
Qed.

(** Switching a barcode session without a license key to MRZ. *)
Lemma updateConfig_defers_validation_witness :
  exists o,
    V1.scanOnce (Fixtures.envWith 5 (Resolved [Fixtures.qrDetection])) noOptions
                (V1.updateConfig (V1.mkUpdate (Some "mrz") None None None)
                                 Fixtures.activeBarcode)
                Fixtures.world0
      = Done (Returns o)
             (V1.updateConfig (V1.mkUpdate (Some "mrz") None None None)
                              Fixtures.activeBarcode)
             Fixtures.world0 /\
    V1.success o = false /\
    V1.code o = Some "SCAN_ERROR".
Proof.
  apply (updateConfig_defers_validation_to_scan
           (Fixtures.envWith 5 (Resolved [Fixtures.qrDetection])) noOptions
           (V1.mkUpdate (Some "mrz") None None None) Fixtures.activeBarcode
           Fixtures.world0
           (Error "MRZ scanning requires a valid Dynamsoft license key"));
    try reflexivity.
  left. reflexivity.
Defined.

(** X20.  An update that leaves out the license key or the scan type always
    rebuilds the plugin options from the resulting configuration, even when
    it changes nothing.  Whatever [start] had recorded in the MRZ plugin's
    scanner configuration is gone afterwards: the container there is the
    configuration's [targetContainer] again. *)
Theorem updateConfig_partial_update_rebuilds_plugin_options :
  forall (u : V1.ConfigUpdate) (s : CameraScanner),
    V1.new_licenseKey u = None \/ V1.new_scanType u = None ->
    _pluginOptions (V1.updateConfig u s) = V1._buildPluginOptions (V1.updateConfig u s) /\
    forall m, opt_mrz (_pluginOptions (V1.updateConfig u s)) = Some m ->
              scannerConfig m
              = Some (mkScannerConfig (targetContainer (config (V1.updateConfig u s)))).
Proof.
  intros u s Hleft.
  assert (Hreb : V1.updateConfig u s
                 = V1._rebuildPluginOptions
                     (set_config
                        (mkConfig (optOr (V1.new_scanType u) (scanType (config s)))
                                  (optOr (V1.new_scanMode u) (scanMode (config s)))
                                  (optOr (V1.new_licenseKey u) (licenseKey (config s)))
                                  (optOr (V1.new_targetContainer u)
                                         (targetContainer (config s))))
                        s)).
  { unfold V1.updateConfig. destruct Hleft as [-> | ->]; cbn [V1.differs orb].
    - reflexivity.
    - rewrite orb_true_r. reflexivity. }
  rewrite Hreb. split; [reflexivity|].
  intros m. unfold V1._rebuildPluginOptions, V1._buildPluginOptions.
  cbn [_pluginOptions set_pluginOptions].
  destruct (negb (V1.licensed _)); cbn [opt_mrz]; [discriminate|].
  destruct (arr_includes _ "mrz"); [|discriminate].
  intro E; inversion E; subst m. reflexivity.
Qed.

(** After a native-UI start recorded container 3, an empty update hands the
    plugin the configuration's (missing) target container again. *)
Lemma updateConfig_partial_update_witness :
  opt_mrz (_pluginOptions
             (V1.updateConfig (V1.mkUpdate None None None None)
                (set_pluginOptions
                   (mkPluginOptions
                      (Some (mkMrzOptions "LICENSE-KEY" "camera"
                                          (Some (mkScannerConfig (Some 3%nat)))))
                      None)
                   Fixtures.activeMrz)))
  = Some (mkMrzOptions "LICENSE-KEY" "camera" (Some (mkScannerConfig None))).
Proof.
  pose proof (updateConfig_partial_update_rebuilds_plugin_options
                (V1.mkUpdate None None None None)
                (set_pluginOptions
                   (mkPluginOptions
                      (Some (mkMrzOptions "LICENSE-KEY" "camera"
                                          (Some (mkScannerConfig (Some 3%nat)))))
                      None)
                   Fixtures.activeMrz)
                (or_introl eq_refl)) as [H _].
  rewrite H. reflexivity.
Defined.

(* ================================================================== *)
(** ** [getScanConfig] *)

(** X21.  [getScanConfig] throws 'Unknown scan type' exactly for a scan
    type other than 'mrz' and 'barcode'.  Whenever it returns, it reports
    [enhancedFeaturesRequired: true] and [valid: true], whatever the
    license key and the registered plugins are, and its available formats
    are the configured formats the scanner supports, in configuration
    order. *)
Theorem getScanConfig_always_requires_enhanced_features :
  forall (s : CameraScanner),
    match V1.getScanConfig s with
    | Returns info =>
      arr_includes ["mrz"; "barcode"] (scanType (config s)) = true /\
      V1._getScanConfig s = Returns (V1.info_config info) /\
      V1.enhancedFeaturesRequired info = true /\
      V1.valid info = true /\
      (forall f, In f (V1.availableFormats info) <->
                 In f (V1.formats (V1.info_config info)) /\
                 In f (getSupportedFormats (_opticalScanner s)))
    | Throws e =>
      arr_includes ["mrz"; "barcode"] (scanType (config s)) = false /\
      e = Error ("Unknown scan type: " ++ scanType (config s))
    end.
Proof.
  intros s. unfold V1.getScanConfig, V1._requiresEnhancedFeatures, V1._getScanConfig.
  assert (Hty : arr_includes ["mrz"; "barcode"] (scanType (config s))
                = String.eqb (scanType (config s)) "mrz"
                  || String.eqb (scanType (config s)) "barcode")
    by (unfold arr_includes; cbn [existsb]; now rewrite orb_false_r).
  rewrite Hty. clear Hty.
  destruct (String.eqb (scanType (config s)) "mrz") eqn:Hm; cbn [orb].
  - cbn -[arr_includes filter].
    split; [reflexivity|]. split; [reflexivity|]. split; [reflexivity|].
    split; [reflexivity|].
    intros f. rewrite filter_In, arr_includes_In. cbn [In]. tauto.
  - destruct (String.eqb (scanType (config s)) "barcode") eqn:Hb; cbn [orb].
    + cbn -[arr_includes filter].
      split; [reflexivity|]. split; [reflexivity|]. split; [reflexivity|].
      split; [reflexivity|].
      intros f. rewrite filter_In, arr_includes_In. cbn [In]. tauto.
    + split; reflexivity.
Qed.

(* ================================================================== *)
(** ** Camera controls *)



(** X23.  [setTorch] without an argument toggles: it returns the negation
    of the state [getCameraStates] reported before (a torch never set
    counts as off), and afterwards [getCameraStates] reports what it
    returned; with an argument it returns that argument.  Two successful
    toggles in a row bring the reported torch state back.  It never touches
    the zoom level or the session. *)
Theorem setTorch_toggles :
  forall (cu : CameraUtils) (enabled : option bool) (c c1 c2 : V1.Controlled)
         (w w1 w2 : World) (b1 b2 : bool),
    V1.setTorch cu enabled c w = Done (Returns b1) c1 w1 ->
    V1.setTorch cu None c1 w1 = Done (Returns b2) c2 w2 ->
    b1 = optOr enabled (negb (V1.cs_torch (V1.getCameraStates c))) /\
    V1.cs_torch (V1.getCameraStates c1) = b1 /\
    b2 = negb b1 /\
    V1.cs_torch (V1.getCameraStates c2) = negb b1 /\
    (enabled = None ->
     V1.cs_torch (V1.getCameraStates c2) = V1.cs_torch (V1.getCameraStates c)) /\
    V1.session c2 = V1.session c /\
    V1._zoomLevel c2 = V1._zoomLevel c.
Proof.
  intros cu enabled c c1 c2 w w1 w2 b1 b2 H1 H2.
  assert (Hstep : forall en c0 w0 b c' w',
             V1.setTorch cu en c0 w0 = Done (Returns b) c' w' ->
             b = optOr en (negb (optOr (V1._torchState c0) false)) /\
             c' = V1.mkControlled (V1.session c0) (Some b) (V1._zoomLevel c0)).
  { intros en c0 w0 b c' w'. unfold V1.setTorch.
    destruct (_stream (V1.session c0)) as [stream|]; [|discriminate].
    destruct (cu_getCameraCapabilities cu stream) as [caps|e]; [|discriminate].
    destruct (negb (cap_torch caps)); [discriminate|].
    destruct (cu_applyCameraConstraints cu stream _) as [d [[]|e]|]; try discriminate.
    intro E; inversion E; subst. split; reflexivity. }
  destruct (Hstep _ _ _ _ _ _ H1) as [Hb1 Hc1].
  destruct (Hstep _ _ _ _ _ _ H2) as [Hb2 Hc2].
  subst c1. cbn [V1._torchState V1.session V1._zoomLevel optOr] in Hb2, Hc2. subst c2.
  cbn [V1.getCameraStates V1.cs_torch V1._torchState V1.session V1._zoomLevel optOr].
  repeat split; try assumption; try reflexivity; try (subst b2; reflexivity).
  intros ->. cbn [optOr] in Hb1. subst b1 b2. now rewrite negb_involutive.
Qed.

Lemma setTorch_toggles_witness :
  exists c2,
    V1.cs_torch (V1.getCameraStates c2) = false /\
    V1.session c2 = Fixtures.activeBarcode.
Proof.
  let r1 := eval vm_compute in
        (V1.setTorch Fixtures.utils None Fixtures.controlled Fixtures.world0) in
  match r1 with
  | Done (Returns ?b1) ?c1 ?w1 =>
    let r2 := eval vm_compute in (V1.setTorch Fixtures.utils None c1 w1) in
    match r2 with
    | Done (Returns ?b2) ?c2 ?w2 =>
      pose proof (setTorch_toggles Fixtures.utils None Fixtures.controlled c1 c2
                    Fixtures.world0 w1 w2 b1 b2 eq_refl eq_refl)
        as (_ & _ & _ & _ & Hback & Hsess & _);
      exists c2; split; [exact (Hback eq_refl) | exact Hsess]
    end
  end.
Defined.

(** X24.  A failed camera switch loses the camera.  When the requested
    device is listed but cannot be opened, [switchCamera] has already
    given up the old stream; its recovery step calls [start] without a
    container, which throws at once and is swallowed, so no camera is
    requested again, whatever the utilities would answer.  The call throws
    'Failed to switch camera: ...', and the session is left without a
    stream: the camera counts as not started, and the torch and zoom
    records are not reset. *)
Theorem switchCamera_failure_loses_camera :
  forall (cu : CameraUtils) (env : Env) (device : option string) (id : string)
         (c : V1.Controlled) (w : World) (d0 d : Z) (cameras : list CameraInfo)
         (target : CameraInfo) (e : JsError),
    truthy device = Some id ->
    cu_getCameraList cu = Settles d0 (Resolved cameras) ->
    find (fun camera => String.eqb (deviceId camera) id) cameras = Some target ->
    cu_openDevice cu id = Settles d (Rejected e) ->
    exists w',
      V1.switchCamera cu env device c w
        = Done (Throws (Error ("Failed to switch camera: " ++ err_message e)))
               (V1.set_session (set_stream None (V1.session c)) c) w' /\
      cameraStarted (V1.session (V1.set_session (set_stream None (V1.session c)) c)) = false /\
      w' = elapse d (match _stream (V1.session c) with
                     | Some old => cu_stopCameraStream cu old (elapse d0 w)
                     | None => elapse d0 w
                     end) /\
      forall options w2,
        V1.scanOnce env options (V1.session (V1.set_session (set_stream None (V1.session c)) c)) w2
        = Done (Throws cameraNotStarted)
               (V1.session (V1.set_session (set_stream None (V1.session c)) c)) w2.
Proof.
  intros cu env device id c w d0 d cameras target e Hid Hlist Hfind Hopen.
  unfold V1.switchCamera. rewrite Hid, Hlist, Hfind.
  assert (Hstarted : cameraStarted (set_stream None (V1.session c)) = false) by reflexivity.
  destruct (_stream (V1.session c)) as [old|] eqn:Hst.
  - rewrite Hopen. unfold V1.switchCamera_catch. cbn [V1.start V1.session V1.set_session].
    eexists. split; [reflexivity|]. split; [reflexivity|]. split; [reflexivity|].
    intros options w2. unfold V1.scanOnce, V1.scanOnce_enter. cbn [V1.session V1.set_session].
    rewrite Hstarted. reflexivity.
  - rewrite Hopen. unfold V1.switchCamera_catch. cbn [V1.start V1.session V1.set_session].
    assert (Hsame : V1.set_session (V1.session c) c
                    = V1.set_session (set_stream None (V1.session c)) c).
    { destruct c as [[cfg st v os i p] t z]. cbn in Hst. subst st. reflexivity. }
    rewrite Hsame.
    eexists. split; [reflexivity|]. split; [reflexivity|]. split; [reflexivity|].
    intros options w2. unfold V1.scanOnce, V1.scanOnce_enter. cbn [V1.session V1.set_session].
    rewrite Hstarted. reflexivity.
Qed.

Lemma switchCamera_failure_witness :
  exists w',
    V1.switchCamera Fixtures.utils (Fixtures.envWith 5 (Resolved [])) (Some "front")
                    Fixtures.controlled Fixtures.world0
      = Done (Throws (Error "Failed to switch camera: device unavailable"))
             (V1.set_session (set_stream None Fixtures.activeBarcode) Fixtures.controlled)
             w' /\
    stoppedTracks w' = [11%nat; 12%nat].
Proof.
  destruct (switchCamera_failure_loses_camera Fixtures.utils
              (Fixtures.envWith 5 (Resolved [])) (Some "front") "front"
              Fixtures.controlled Fixtures.world0 0 50
              [mkCameraInfo "front" "Front camera"; mkCameraInfo "back" "Back camera"]
              (mkCameraInfo "front" "Front camera")
              (mkError "OverconstrainedError" "device unavailable")
              eq_refl eq_refl eq_refl eq_refl)
    as (w' & Hrun & _ & Hw & _).
  exists w'. split; [exact Hrun|]. rewrite Hw. reflexivity.
Defined.

(** X25.  A successful camera switch.  When the device is listed, opens,
    and the session's video element loads the new stream within ten
    seconds, [switchCamera] returns that video element; the session holds
    the new stream, and [getCameraStates] reports torch off and zoom 1
    whatever they were before.  The ten-second timer of the load wait is
    never cleared: if the video loaded in less than ten seconds the timer
    is still armed when the call returns. *)
Theorem switchCamera_success_resets_controls :
  forall (cu : CameraUtils) (env : Env) (device : option string) (id : string)
         (c : V1.Controlled) (w : World) (d0 d d2 : Z) (cameras : list CameraInfo)
         (target : CameraInfo) (stream : MediaStream) (video : VideoElement),
    truthy device = Some id ->
    cu_getCameraList cu = Settles d0 (Resolved cameras) ->
    find (fun camera => String.eqb (deviceId camera) id) cameras = Some target ->
    cu_openDevice cu id = Settles d (Resolved stream) ->
    _videoElement (V1.session c) = Some video ->
    videoLoads cu video stream = Settles d2 (Resolved tt) ->
    d2 <= 10000 ->
    exists c' w' tm,
      V1.switchCamera cu env device c w = Done (Returns (Some video)) c' w' /\
      _stream (V1.session c') = Some stream /\
      _videoElement (V1.session c') = Some video /\
      V1.getCameraStates c' = V1.mkCameraStates false 1%Q true true /\
      timer_due tm = now w' - Z.max 0 d2 + 10000 /\
      (0 <= d2 < 10000 -> In tm (timers w')).
Proof.
  intros cu env device id c w d0 d d2 cameras target stream video
         Hid Hlist Hfind Hopen Hvideo Hload Hd2.
  unfold V1.switchCamera. rewrite Hid, Hlist, Hfind.
  set (cw := match _stream (V1.session c) with
             | Some old => (V1.set_session (set_stream None (V1.session c)) c,
                            cu_stopCameraStream cu old (elapse d0 w))
             | None => (c, elapse d0 w)
             end).
  assert (Hv1 : _videoElement (V1.session (fst cw)) = Some video).
  { unfold cw. destruct (_stream (V1.session c)); exact Hvideo. }
  destruct cw as [c1 w1]. cbn [fst] in Hv1.
  rewrite Hopen. cbn [V1.session V1.set_session set_stream _videoElement].
  rewrite Hv1. cbn [setTimeout]. rewrite Hload. unfold videoSwitched, race_timeout.
  cbn [Z.ltb Z.compare].
  replace (d2 <=? 10000) with true by (symmetry; apply Z.leb_le; exact Hd2).
  eexists _, _, (mkTimer (nextTimer (elapse d w1)) (now (elapse d w1) + Z.max 0 10000)).
  split; [reflexivity|]. split; [reflexivity|]. split; [exact Hv1|].
  split.
  { unfold V1.getCameraStates.
    cbn [V1._torchState V1._zoomLevel V1.session optOr set_stream _stream _videoElement].
    rewrite Hv1. reflexivity. }
  split.
  - cbn. lia.
  - intros Hlt. cbn [elapse timers now]. apply filter_In. split.
    + left. reflexivity.
    + cbn [timer_due]. apply Z.ltb_lt. lia.
Qed.

Lemma switchCamera_success_witness :
  exists c' w' tm,
    V1.switchCamera Fixtures.utils (Fixtures.envWith 5 (Resolved [])) (Some "back")
                    Fixtures.controlled Fixtures.world0
      = Done (Returns (Some Fixtures.video)) c' w' /\
    _stream (V1.session c') = Some Fixtures.backCamera /\
    _videoElement (V1.session c') = Some Fixtures.video /\
    V1.getCameraStates c' = V1.mkCameraStates false 1%Q true true /\
    timer_due tm = now w' - 200 + 10000 /\
    In tm (timers w').
Proof.
  destruct (switchCamera_success_resets_controls Fixtures.utils
              (Fixtures.envWith 5 (Resolved [])) (Some "back") "back"
              Fixtures.controlled Fixtures.world0 0 300 200
              [mkCameraInfo "front" "Front camera"; mkCameraInfo "back" "Back camera"]
              (mkCameraInfo "back" "Back camera") Fixtures.backCamera Fixtures.video
              eq_refl eq_refl eq_refl eq_refl eq_refl eq_refl ltac:(lia))
    as (c' & w' & tm & Hrun & Hs & Hv & Hstates & Hdue & Harmed).
  exists c', w', tm. repeat split; try assumption. apply Harmed. lia.
Defined.

(* ================================================================== *)
(** ** [scanAny] and [startContinuous] (second listing) *)

(** X26.  [scanAny] on a started session never throws and is not guarded by
    the scanning flag: it neither tests nor sets it, so it runs even while
    a [scan] is pending.  It asks the scanner once, by default for every
    supported format in mode 'first', applies neither a timeout nor a
    minimum scan time, and returns at the very moment the scanner settles:
    a success when something was detected, NO_RESULTS when nothing was,
    SCAN_ANY_ERROR when the scanner failed.  If the scanner never settles,
    the call waits for ever. *)
Theorem scanAny_is_unguarded_and_untimed :
  forall (anyMethod : option (ScanRequest -> Z -> Behaviour (list ScanResult)))
         (env : Env) (options : ScanOptions) (s : V2.Session) (w : World),
    cameraStarted (V2.core s) = true ->
    let req := mkRequest "video"
                 (optOr (o_formats options)
                        (getSupportedFormats (_opticalScanner (V2.core s))))
                 (optOr (o_mode options) "first") (o_signal options) in
    let pending := match anyMethod with
                   | Some method => method req (now w)
                   | None => os_scan env (List.length (scanLog w)) req (now w)
                   end in
    match V2.scanAny anyMethod env options s w with
    | Done (Returns o) s' w' =>
      s' = s /\
      exists d r,
        pending = Settles d r /\
        w' = elapse d (logScan req w) /\
        now w' = now w + Z.max 0 d /\
        match r with
        | Resolved (_ :: _) => V2.success o = true
        | Resolved [] => V2.success o = false /\ V2.code o = Some "NO_RESULTS"
        | Rejected _ => V2.success o = false /\ V2.code o = Some "SCAN_ANY_ERROR"
        end
    | Done (Throws _) _ _ => False
    | Hang s' w' => s' = s /\ pending = Never /\ w' = logScan req w
    | OutOfFuel => False
    end.
Proof.
  intros anyMethod env options s w Hc req pending.
  unfold V2.scanAny. rewrite Hc. cbn [negb]. fold req. cbv zeta. fold pending.
  destruct pending as [d [[|r rs]|e]|].
  - split; [reflexivity|]. exists d, (Resolved []). repeat split; reflexivity.
  - split; [reflexivity|]. exists d, (Resolved (r :: rs)). repeat split; reflexivity.
  - split; [reflexivity|]. exists d, (Rejected e). repeat split; reflexivity.
  - repeat split; reflexivity.
Qed.

(** A scan is pending ([_isScanning] is set); [scanAny] runs all the same
    and returns after the scanner's 5 ms. *)
Lemma scanAny_witness :
  exists o w',
    V2.scanAny None (Fixtures.envWith 5 (Resolved [Fixtures.qrDetection])) noOptions
               (V2.set_core (set_isScanning true Fixtures.activeBarcode)
                            Fixtures.activeBarcode2)
               Fixtures.world0
      = Done (Returns o)
             (V2.set_core (set_isScanning true Fixtures.activeBarcode)
                          Fixtures.activeBarcode2) w' /\
    V2.success o = true /\ now w' = 1005.
Proof.
  pose proof (scanAny_is_unguarded_and_untimed None
                (Fixtures.envWith 5 (Resolved [Fixtures.qrDetection])) noOptions
                (V2.set_core (set_isScanning true Fixtures.activeBarcode)
                             Fixtures.activeBarcode2)
                Fixtures.world0 eq_refl) as H.
  cbv zeta in H.
  destruct (V2.scanAny None (Fixtures.envWith 5 (Resolved [Fixtures.qrDetection]))
              noOptions
              (V2.set_core (set_isScanning true Fixtures.activeBarcode)
                           Fixtures.activeBarcode2)
              Fixtures.world0) as [[o|e] s' w'|s' w'|]; try contradiction.
  - destruct H as (-> & d & r & Hp & _ & Hnow & Hr).
    inversion Hp; subst d r.
    exists o, w'. split; [reflexivity|]. split; [exact Hr | exact Hnow].
  - destruct H as (_ & Hp & _). discriminate Hp.
Defined.

Lemma scan_shape (env : Env) (options : ScanOptions) (s : V2.Session) (w : World) :
  cameraStarted (V2.core s) = true ->
  _isScanning (V2.core s) = false ->
  (exists o w', V2.scan env options s w = Done (Returns o) s w') \/
  (exists s1 w1, V2.scan env options s w = Hang s1 w1).
Proof.
  intros Hc Hi. unfold V2.scan, V2.scan_enter. rewrite Hc, Hi. cbn [negb]. cbv zeta.
  assert (Hres : forall l w0,
             (exists o w', V2.scan_resume l (V2.set_core (set_isScanning true (V2.core s)) s) w0
                           = Done (Returns o) s w') \/
             (exists s1 w1, V2.scan_resume l (V2.set_core (set_isScanning true (V2.core s)) s) w0
                            = Hang s1 w1)).
  { intros l w0. unfold V2.scan_resume. rewrite (scan_flag_restored s Hi).
    destruct (race_timeout _ _ _) as [d [[|r rs]|e]|].
    - left. eexists _, _. reflexivity.
    - left. eexists _, _. reflexivity.
    - destruct (V2.scan_catch e l _ (elapse d w0)) as [o w1]. left. eexists _, _. reflexivity.
    - right. eexists _, _. reflexivity. }
  destruct (0 <? V2._getTimeout s); cbn [setTimeout]; apply Hres.
Qed.

Lemma scan_throws_only_at_entry (env : Env) (options : ScanOptions) (s s' : V2.Session)
  (w w' : World) (e : JsError) :
  V2.scan env options s w = Done (Throws e) s' w' ->
  s' = s /\ w' = w /\ (e = cameraNotStarted \/ e = scanInProgress).
Proof.
  unfold V2.scan, V2.scan_enter.
  destruct (cameraStarted (V2.core s)) eqn:Hc; cbn [negb].
  2:{ intro E; inversion E; subst. repeat split. left; reflexivity. }
  destruct (_isScanning (V2.core s)) eqn:Hi.
  { intro E; inversion E; subst. repeat split. right; reflexivity. }
  intro E. destruct (scan_shape env options s w Hc Hi) as [(o & w1 & H) | (s1 & w1 & H)];
    unfold V2.scan, V2.scan_enter in H; rewrite Hc, Hi in H; cbn [negb] in H;
    rewrite H in E; discriminate E.
Qed.

(** X27.  Outside the fallback loop [startContinuous] calls exactly one
    callback, once.  On a session that is not started it calls [onError]
    with 'Camera not started' and returns, without throwing.  On a started
    session that does not scan continuously (MRZ), or whose scanner has a
    [scanContinuous] method, with both callbacks given, it never throws;
    when it returns it has called exactly one of the two callbacks exactly
    once, [onResult] only with a successful result; while it waits it has
    called none. *)
Theorem startContinuous_calls_one_callback :
  forall (fuel : nat) (env : Env) (options : ScanOptions) (s : V2.Session) (w : World),
    (cameraStarted (V2.core s) = false \/
     V2._useContinuousScanning s = false \/
     has_scanContinuous (_opticalScanner (V2.core s)) = true) ->
    match V2.startContinuous fuel env true true options s w with
    | Done r (s', calls) w' =>
      r = Returns tt /\
      exists cb, calls = [cb] /\
        match cb with
        | V2.OnResult o => V2.success o = true
        | V2.OnError _ _ => True
        end /\
        (cameraStarted (V2.core s) = false ->
         cb = V2.OnError "Error" (Lit "Camera not started. Call start() first.") /\
         s' = s /\ w' = w)
    | Hang (_, calls) _ => calls = []
    | OutOfFuel => False
    end.
Proof.
  intros fuel env options s w Hcase. unfold V2.startContinuous.
  destruct (cameraStarted (V2.core s)) eqn:Hc; cbn [negb orb].
  2:{ split; [reflexivity|]. eexists. split; [reflexivity|]. split; [exact I|].
      intros _. repeat split. }
  destruct (V2._useContinuousScanning s) eqn:Hu; cbn [negb].
  - destruct Hcase as [Hcase | [Hcase | Hcase]]; try discriminate Hcase.
    rewrite Hcase.
    destruct (os_scanContinuous env _ _) as [d [[|r rs]|e]|]; try reflexivity;
      (split; [reflexivity|]; eexists; split; [reflexivity|]; split;
       [first [exact I | reflexivity] | discriminate]).
  - destruct (V2.scan env options s w) as [[o|e] s1 w1|s1 w1|] eqn:Hscan.
    + destruct (V2.success o) eqn:Hs;
        (split; [reflexivity|]; eexists; split; [reflexivity|]; split;
         [first [exact I | exact Hs] | discriminate]).
    + split; [reflexivity|]. eexists. split; [reflexivity|]. split; [exact I | discriminate].
    + reflexivity.
    + revert Hscan. unfold V2.scan.
      destruct (V2.scan_enter env options s w) as [r s0 w0|l s0 w0]; [discriminate|].
      unfold V2.scan_resume.
      destruct (race_timeout _ _ _) as [d [[|r rs]|e]|]; try discriminate.
      destruct (V2.scan_catch e l s0 (elapse d w0)). discriminate.
Qed.

Lemma startContinuous_one_callback_witness :
  exists s' cb w',
    V2.startContinuous 1 (Fixtures.envWith 5 (Resolved [Fixtures.mrzDetection])) true true
                       noOptions Fixtures.activeMrz2 Fixtures.world0
      = Done (Returns tt) (s', [cb]) w' /\
    match cb with
    | V2.OnResult o => V2.success o = true
    | V2.OnError _ _ => True
    end.
Proof.
  pose proof (startContinuous_calls_one_callback 1
                (Fixtures.envWith 5 (Resolved [Fixtures.mrzDetection])) noOptions
                Fixtures.activeMrz2 Fixtures.world0 (or_intror (or_introl eq_refl))) as H.
  vm_compute in H. destruct H as (_ & cb & Hcalls & Hcb & _).
  inversion Hcalls; subst cb.
  eexists _, _, _. split; [reflexivity | exact Hcb].
Defined.

Lemma scan_settled (env : Env) (options : ScanOptions) (s : V2.Session) (w : World)
  (d : Z) (r : Settled (list ScanResult)) :
  cameraStarted (V2.core s) = true ->
  _isScanning (V2.core s) = false ->
  os_scan env (List.length (scanLog w)) (V2._buildScanOptions options s) (now w)
    = Settles d r ->
  exists o w',
    V2.scan env options s w = Done (Returns o) s w' /\
    List.length (scanLog w') = S (List.length (scanLog w)) /\
    (findsNothing r -> V2.success o = false) /\
    (forall r0 rs, r = Resolved (r0 :: rs) ->
       d <= V2._getTimeout s \/ V2._getTimeout s <= 0 ->
       V2.success o = true /\ V2.format o = Some (res_format r0)).
Proof.
  intros Hc Hi Hos. unfold V2.scan, V2.scan_enter. rewrite Hc, Hi. cbn [negb]. cbv zeta.
  rewrite Hos.
  assert (Hres : forall id w0,
             List.length (scanLog w0) = S (List.length (scanLog w)) ->
             exists o w',
               V2.scan_resume
                 (V2.mkScanLocals (V2._getTimeout s) (V2._getMinScanTime s) (now w) id
                                  (Settles d r))
                 (V2.set_core (set_isScanning true (V2.core s)) s) w0
               = Done (Returns o) s w' /\
               List.length (scanLog w') = S (List.length (scanLog w)) /\
               (findsNothing r -> V2.success o = false) /\
               (forall r0 rs, r = Resolved (r0 :: rs) ->
                  d <= V2._getTimeout s \/ V2._getTimeout s <= 0 ->
                  V2.success o = true /\ V2.format o = Some (res_format r0))).
  { intros id w0 Hlen. unfold V2.scan_resume.
    cbn [V2.l_pending V2.l_timeoutMs V2.l_timeout V2.l_minScanTime V2.l_scanStartTime].
    rewrite (scan_flag_restored s Hi).
    assert (Hfloor : forall w1,
               scanLog (if 0 <? V2._getMinScanTime s
                        then if now w1 - now w <? V2._getMinScanTime s
                             then let '(_, w') := setTimeout (V2._getMinScanTime s
                                                              - (now w1 - now w)) w1 in
                                  elapse (V2._getMinScanTime s - (now w1 - now w)) w'
                             else w1
                        else w1) = scanLog w1).
    { intros w1. destruct (0 <? _); [|reflexivity]. destruct (_ <? _); reflexivity. }
    assert (Hclear : forall x, scanLog (clearIfArmed id (elapse x w0)) = scanLog w0).
    { intros x. destruct id; reflexivity. }
    unfold race_timeout.
    destruct (Z.ltb_spec 0 (V2._getTimeout s)) as [Hpos|Hnon].
    - destruct (Z.leb_spec d (V2._getTimeout s)) as [Hle|Hgt].
      + destruct r as [[|r0 rs]|e].
        * eexists _, _. split; [reflexivity|]. cbv zeta. rewrite Hfloor, Hclear.
          split; [exact Hlen|]. split; [reflexivity|]. intros r1 rs1 E; discriminate E.
        * eexists _, _. split; [reflexivity|]. cbv zeta. rewrite Hfloor, Hclear.
          split; [exact Hlen|]. split; [intros []|].
          intros r1 rs1 E _; inversion E; subst. split; reflexivity.
        * destruct (V2.scan_catch e _ _ (elapse d w0)) as [o w1] eqn:Hcatch.
          eexists _, _. split; [reflexivity|].
          unfold V2.scan_catch in Hcatch. cbn [V2.l_timeout] in Hcatch.
          destruct (String.eqb (err_message e) "SCAN_TIMEOUT");
            inversion Hcatch; subst o w1; rewrite Hclear;
            (split; [exact Hlen|]; split; [reflexivity|]; intros r1 rs1 E; discriminate E).
      + destruct (V2.scan_catch (Error "SCAN_TIMEOUT") _ _ (elapse (V2._getTimeout s) w0))
          as [o w1] eqn:Hcatch.
        eexists _, _. split; [reflexivity|].
        unfold V2.scan_catch in Hcatch. cbn in Hcatch. inversion Hcatch; subst o w1.
        rewrite Hclear. split; [exact Hlen|]. split; [reflexivity|].
        intros r1 rs1 E [Hd|Hd]; lia.
    - destruct r as [[|r0 rs]|e].
      + eexists _, _. split; [reflexivity|]. cbv zeta. rewrite Hfloor, Hclear.
        split; [exact Hlen|]. split; [reflexivity|]. intros r1 rs1 E; discriminate E.
      + eexists _, _. split; [reflexivity|]. cbv zeta. rewrite Hfloor, Hclear.
        split; [exact Hlen|]. split; [intros []|].
        intros r1 rs1 E _; inversion E; subst. split; reflexivity.
      + destruct (V2.scan_catch e _ _ (elapse d w0)) as [o w1] eqn:Hcatch.
        eexists _, _. split; [reflexivity|].
        unfold V2.scan_catch in Hcatch. cbn [V2.l_timeout] in Hcatch.
        destruct (String.eqb (err_message e) "SCAN_TIMEOUT");
          inversion Hcatch; subst o w1; rewrite Hclear;
          (split; [exact Hlen|]; split; [reflexivity|]; intros r1 rs1 E; discriminate E). }
  destruct (0 <? V2._getTimeout s); cbn [setTimeout]; apply Hres;
    cbn [scanLog logScan]; rewrite length_app; cbn; lia.
Qed.

Lemma scan_clock (env : Env) (options : ScanOptions) (s s' : V2.Session) (w w' : World)
  (r : Completion V2.Outcome) :
  V2.scan env options s w = Done r s' w' -> now w <= now w'.
Proof.
  unfold V2.scan, V2.scan_enter.
  destruct (negb (cameraStarted (V2.core s))); [intro E; inversion E; lia|].
  destruct (_isScanning (V2.core s)); [intro E; inversion E; lia|].
  cbv zeta.
  assert (Hres : forall l s0 w0,
             V2.l_scanStartTime l = now w -> now w0 = now w ->
             V2.scan_resume l s0 w0 = Done r s' w' -> now w <= now w').
  { intros l s0 w0 Hstart Hnow. unfold V2.scan_resume.
    destruct (race_timeout _ _ _) as [d [rs|e]|]; [| |discriminate].
    - pose proof (scan_floor_clock (V2.l_minScanTime l) (now w)
                    (clearIfArmed (V2.l_timeout l) (elapse d w0))) as Hclock.
      cbv zeta in Hclock |- *. rewrite Hstart.
      specialize (Hclock ltac:(rewrite now_clearIfArmed, now_elapse; lia)).
      assert (Hge : now w <= if 0 <? V2.l_minScanTime l
                             then Z.max (now (clearIfArmed (V2.l_timeout l) (elapse d w0)))
                                        (now w + V2.l_minScanTime l)
                             else now (clearIfArmed (V2.l_timeout l) (elapse d w0))).
      { rewrite now_clearIfArmed, now_elapse.
        destruct (0 <? V2.l_minScanTime l); lia. }
      rewrite <- Hclock in Hge.
      destruct rs; intro E; inversion E; subst; exact Hge.
    - destruct (V2.scan_catch e l s0 (elapse d w0)) as [o w1] eqn:Hcatch.
      intro E; inversion E; subst.
      unfold V2.scan_catch in Hcatch.
      destruct (String.eqb (err_message e) "SCAN_TIMEOUT"); inversion Hcatch; subst;
        rewrite now_clearIfArmed, now_elapse; lia. }
  destruct (0 <? V2._getTimeout s); cbn [setTimeout]; apply Hres; reflexivity.
Qed.

Lemma startContinuous_loop_only_success (env : Env) (options : ScanOptions) (s : V2.Session) :
  cameraStarted (V2.core s) = true ->
  _isScanning (V2.core s) = false ->
  forall (fuel : nat) (calls : list V2.Callback) (w : World),
    match V2.startContinuous_loop fuel env options s calls w with
    | Done r (s', calls') w' =>
      r = Returns tt /\ s' = s /\
      exists o, calls' = (calls ++ [V2.OnResult o])%list /\ V2.success o = true
    | Hang (_, calls') _ => calls' = calls
    | OutOfFuel => True
    end.
Proof.
  intros Hc Hi. induction fuel as [|fuel IH]; intros calls w; [exact I|].
  cbn [V2.startContinuous_loop]. rewrite Hc, Hi. cbn [andb negb].
  destruct (scan_shape env options s w Hc Hi) as [(o & w1 & ->) | (s1 & w1 & ->)].
  - destruct (V2.success o) eqn:Hs.
    + split; [reflexivity|]. split; [reflexivity|]. exists o. split; [reflexivity | exact Hs].
    + cbn [setTimeout]. apply IH.
  - reflexivity.
Qed.

Lemma startContinuous_loop_unbounded (env : Env) (options : ScanOptions) (s : V2.Session) :
  cameraStarted (V2.core s) = true ->
  _isScanning (V2.core s) = false ->
  (forall k req t, exists d r, os_scan env k req t = Settles d r /\ findsNothing r) ->
  forall (fuel : nat) (calls : list V2.Callback) (w : World),
    V2.startContinuous_loop fuel env options s calls w = OutOfFuel.
Proof.
  intros Hc Hi Hnever. induction fuel as [|fuel IH]; intros calls w; [reflexivity|].
  cbn [V2.startContinuous_loop]. rewrite Hc, Hi. cbn [andb negb].
  destruct (Hnever (List.length (scanLog w)) (V2._buildScanOptions options s) (now w))
    as (d & r & Hos & Hr).
  destruct (scan_settled env options s w d r Hc Hi Hos) as (o & w' & -> & _ & Hmiss & _).
  rewrite (Hmiss Hr). cbn [setTimeout]. apply IH.
Qed.

(** X28.  The fallback loop of [startContinuous] (started, idle session
    that scans continuously, scanner without [scanContinuous], both
    callbacks given), run with no other call on the session in between,
    ends in one way only: a successful scan, reported by a single
    [onResult] call.  It never throws, never calls [onError], has no
    attempt limit, and no scan outcome other than a success makes it stop:
    not a timeout, not a scanner error, not an abort.  With a scanner that
    never detects anything the call never returns. *)
Theorem startContinuous_fallback_ends_only_on_success :
  forall (env : Env) (options : ScanOptions) (s : V2.Session) (w : World),
    cameraStarted (V2.core s) = true ->
    _isScanning (V2.core s) = false ->
    V2._useContinuousScanning s = true ->
    has_scanContinuous (_opticalScanner (V2.core s)) = false ->
    (forall fuel,
       match V2.startContinuous fuel env true true options s w with
       | Done r (s', calls) w' =>
         r = Returns tt /\ s' = s /\
         exists o, calls = [V2.OnResult o] /\ V2.success o = true
       | Hang (_, calls) _ => calls = []
       | OutOfFuel => True
       end) /\
    ((forall k req t, exists d r, os_scan env k req t = Settles d r /\ findsNothing r) ->
     forall fuel, V2.startContinuous fuel env true true options s w = OutOfFuel).
Proof.
  intros env options s w Hc Hi Hu Hno. split.
  - intros fuel. unfold V2.startContinuous. rewrite Hc, Hu, Hno. cbn [negb orb].
    apply (startContinuous_loop_only_success env options s Hc Hi fuel [] w).
  - intros Hnever fuel. unfold V2.startContinuous. rewrite Hc, Hu, Hno. cbn [negb orb].
    apply startContinuous_loop_unbounded; assumption.
Qed.

(** A scanner that times out, errs or aborts for ever: the loop is still
    running after any number of rounds. *)
Lemma startContinuous_fallback_witness :
  V2.startContinuous 50
    (Fixtures.envWith 5 (Rejected (mkError "AbortError" "The operation was aborted")))
    true true (with_signal (Some (mkSignal (Some 0))) noOptions)
    Fixtures.activeBarcode2 Fixtures.world0 = OutOfFuel.
Proof.
  apply (proj2 (startContinuous_fallback_ends_only_on_success
                  (Fixtures.envWith 5
                     (Rejected (mkError "AbortError" "The operation was aborted")))
                  (with_signal (Some (mkSignal (Some 0))) noOptions)
                  Fixtures.activeBarcode2 Fixtures.world0 eq_refl eq_refl eq_refl eq_refl)).
  intros k req t. eexists _, _. split; [reflexivity | exact I].
Defined.

Lemma startContinuous_loop_first_detection (env : Env) (options : ScanOptions)
  (s : V2.Session) (d : Z) (r : ScanResult) (rs : list ScanResult) :
  cameraStarted (V2.core s) = true ->
  _isScanning (V2.core s) = false ->
  (d <= V2._getTimeout s \/ V2._getTimeout s <= 0) ->
  forall (k fuel : nat) (calls : list V2.Callback) (w : World),
    firstDetectionAt env (V2._buildScanOptions options s) (List.length (scanLog w)) k d
                     (r :: rs) ->
    (k < fuel)%nat ->
    exists o w',
      V2.startContinuous_loop fuel env options s calls w
        = Done (Returns tt) (s, (calls ++ [V2.OnResult o])%list) w' /\
      V2.success o = true /\
      V2.format o = Some (res_format r) /\
      List.length (scanLog w') = (List.length (scanLog w) + k + 1)%nat /\
      now w + Z.of_nat k * 2500 <= now w'.
Proof.
  intros Hc Hi Hd. induction k as [|k IH]; intros fuel calls w [Hbefore Hat] Hfuel;
    (destruct fuel as [|fuel]; [lia|]); cbn [V2.startContinuous_loop];
    rewrite Hc, Hi; cbn [andb negb].
  - specialize (Hat (now w)). rewrite Nat.add_0_r in Hat.
    destruct (scan_settled env options s w d (Resolved (r :: rs)) Hc Hi Hat)
      as (o & w' & Hrun & Hlen & _ & Hhit).
    destruct (Hhit r rs eq_refl Hd) as [Hs Hf].
    pose proof (scan_clock _ _ _ _ _ _ _ Hrun) as Hclock.
    rewrite Hrun, Hs. exists o, w'. split; [reflexivity|]. split; [exact Hs|].
    split; [exact Hf|]. split; lia.
  - destruct (Hbefore 0%nat (now w) ltac:(lia)) as (dj & rj & Hos & Hrj).
    rewrite Nat.add_0_r in Hos.
    destruct (scan_settled env options s w dj rj Hc Hi Hos)
      as (o1 & w1 & Hrun & Hlen & Hmiss & _).
    pose proof (scan_clock _ _ _ _ _ _ _ Hrun) as Hclock.
    rewrite Hrun, (Hmiss Hrj). cbn [setTimeout].
    match goal with |- context [V2.startContinuous_loop fuel env options s calls ?W] =>
      set (w2 := W) end.
    assert (Hlen2 : List.length (scanLog w2) = S (List.length (scanLog w))) by exact Hlen.
    assert (Hnow2 : now w2 = now w1 + 2500) by reflexivity.
    destruct (IH fuel calls w2) as (o & w' & Hloop & Hs & Hf & Hlen' & Hnow').
    + rewrite Hlen2. split.
      * intros j t Hj. replace (S (List.length (scanLog w)) + j)%nat
          with (List.length (scanLog w) + S j)%nat by lia.
        apply Hbefore. lia.
      * intros t. replace (S (List.length (scanLog w)) + k)%nat
          with (List.length (scanLog w) + S k)%nat by lia.
        apply Hat.
    + lia.
    + exists o, w'. split; [exact Hloop|]. split; [exact Hs|]. split; [exact Hf|].
      split; lia.
Qed.

(** X29.  The fallback loop of [startContinuous] delivers the first
    detection.  If the scanner's first [k] calls settle without a detection
    and the next one delivers a detection within the session's timeout,
    the call returns once the loop bound allows [k+1] rounds: it has called
    [onResult] once, with the formatted detection, and nothing else; the
    scanner was asked [k+1] times, and at least [k] waits of 2.5 s have
    passed. *)
Theorem startContinuous_fallback_reports_first_detection :
  forall (env : Env) (options : ScanOptions) (s : V2.Session) (w : World)
         (k fuel : nat) (d : Z) (r : ScanResult) (rs : list ScanResult),
    cameraStarted (V2.core s) = true ->
    _isScanning (V2.core s) = false ->
    V2._useContinuousScanning s = true ->
    has_scanContinuous (_opticalScanner (V2.core s)) = false ->
    (d <= V2._getTimeout s \/ V2._getTimeout s <= 0) ->
    firstDetectionAt env (V2._buildScanOptions options s) (List.length (scanLog w)) k d
                     (r :: rs) ->
    (k < fuel)%nat ->
    exists o w',
      V2.startContinuous fuel env true true options s w
        = Done (Returns tt) (s, [V2.OnResult o]) w' /\
      V2.success o = true /\
      V2.format o = Some (res_format r) /\
      List.length (scanLog w') = (List.length (scanLog w) + k + 1)%nat /\
      now w + Z.of_nat k * 2500 <= now w'.
Proof.
  intros env options s w k fuel d r rs Hc Hi Hu Hno Hd Hfirst Hfuel.
  unfold V2.startContinuous. rewrite Hc, Hu, Hno. cbn [negb orb].
  apply (startContinuous_loop_first_detection env options s d r rs Hc Hi Hd k fuel [] w
           Hfirst Hfuel).
Qed.

(** Two misses, then a QR code. *)
Lemma startContinuous_fallback_first_detection_witness :
  exists o w',
    V2.startContinuous 3
       (mkEnv Never (fun _ => Never)
              (fun k _ _ => if (k <? 2)%nat then Settles 5 (Resolved [])
                            else Settles 5 (Resolved [Fixtures.qrDetection]))
              (fun _ _ => Never))
       true true noOptions Fixtures.activeBarcode2 Fixtures.world0
      = Done (Returns tt) (Fixtures.activeBarcode2, [V2.OnResult o]) w' /\
    V2.success o = true /\
    V2.format o = Some "qr_code" /\
    List.length (scanLog w') = 3%nat /\
    1000 + 5000 <= now w'.
Proof.
  apply (startContinuous_fallback_reports_first_detection
           (mkEnv Never (fun _ => Never)
              (fun k _ _ => if (k <? 2)%nat then Settles 5 (Resolved [])
                            else Settles 5 (Resolved [Fixtures.qrDetection]))
              (fun _ _ => Never))
           noOptions Fixtures.activeBarcode2 Fixtures.world0 2 3 5 Fixtures.qrDetection []);
    try reflexivity.
  - left. cbn. lia.
  - split.
    + intros j t Hj. exists 5, (Resolved []). cbn.
      destruct j as [|[|j]]; [| |lia]; (split; [reflexivity | exact I]).
    + intro t. reflexivity.
  - lia.
Defined.

(* ================================================================== *)
(** ** Container detection *)

Lemma start_on_element_returns_or_waits (env : Env) (c : nat) (s : V2.Session) (w : World) :
  (exists r s' w', V2.start env (Element c) s w = Done (Returns r) s' w') \/
  (exists s' w', V2.start env (Element c) s w = Hang s' w').
Proof.
  unfold V2.start.
  destruct (cameraStarted (V2.core s)); [left; eexists _, _, _; reflexivity|].
  destruct (startCameraStream env) as [d [stream|e]|].
  - destruct (race_timeout _ _ _) as [d2 [video|e]|].
    + destruct (V2._handleContainerSetup _ _ _ _) as [s3 w3].
      left. eexists _, _, _. reflexivity.
    + unfold V2.start_catch. destruct (stop _ _) as [s1 w1].
      destruct (V2.classifyStartError e) as [userMessage errorCode].
      left. eexists _, _, _. reflexivity.
    + right. eexists _, _. reflexivity.
  - unfold V2.start_catch. destruct (stop _ _) as [s1 w1].
    destruct (V2.classifyStartError e) as [userMessage errorCode].
    left. eexists _, _, _. reflexivity.
  - right. eexists _, _. reflexivity.
Qed.

(** X30.  [startWithContainer] given a DOM element never fails for want
    of a container: the 'Could not find appropriate container' error cannot
    occur, because the detection falls back on the parent element itself.
    The call is [start] on the detected element (the parent when none of
    the selectors matches), with the two containers added to the result.
    It throws in one case only: the first selector that matches yields an
    element that is not an [HTMLElement], which [start] refuses with 'Valid
    container element is required', leaving session and world as they
    were. *)
Theorem startWithContainer_always_finds_a_container :
  forall (querySelector : nat -> string -> option V2.Matched) (env : Env) (parent : nat)
         (s : V2.Session) (w : World),
    exists target,
      V2._detectScanContainer querySelector s parent = Some target /\
      ((forall sel, querySelector parent sel = None) -> target = V2.HtmlElement parent) /\
      (target = V2.HtmlElement parent \/ exists sel, querySelector parent sel = Some target) /\
      match V2.startWithContainer querySelector env (Element parent) s w with
      | Done (Returns r) s' w' =>
        exists t,
          target = V2.HtmlElement t /\
          V2.start env (Element t) s w = Done (Returns (V2.ds_result r)) s' w' /\
          V2.ds_parentContainer r = parent /\
          V2.ds_targetContainer r = target
      | Done (Throws e) s' w' =>
        (exists x, target = V2.OtherElement x) /\
        e = Error "Valid container element is required" /\
        s' = s /\ w' = w
      | Hang s' w' =>
        exists t, target = V2.HtmlElement t /\ V2.start env (Element t) s w = Hang s' w'
      | OutOfFuel => False
      end.
Proof.
  intros qs env parent s w.
  assert (Hdet : exists target,
             V2._detectScanContainer qs s parent = Some target /\
             ((forall sel, qs parent sel = None) -> target = V2.HtmlElement parent) /\
             (target = V2.HtmlElement parent \/ exists sel, qs parent sel = Some target)).
  { unfold V2._detectScanContainer.
    destruct (String.eqb (scanType (config (V2.core s))) "mrz").
    - destruct (qs parent ".mrz-container") as [a|] eqn:Ha.
      { exists a. cbn. split; [reflexivity|]. split.
        - intro Hn. rewrite Hn in Ha. discriminate Ha.
        - right. eexists. exact Ha. }
      destruct (qs parent ("[data-container=" ++ quoted "mrz" ++ "]")) as [b|] eqn:Hb.
      { exists b. cbn [or_else]. split; [reflexivity|]. split.
        - intro Hn. rewrite Hn in Hb. discriminate Hb.
        - right. eexists. exact Hb. }
      destruct (qs parent ".scanner-mrz-container") as [c|] eqn:Hcq.
      { exists c. cbn [or_else]. split; [reflexivity|]. split.
        - intro Hn. rewrite Hn in Hcq. discriminate Hcq.
        - right. eexists. exact Hcq. }
      exists (V2.HtmlElement parent). cbn [or_else].
      split; [reflexivity|]. split; [reflexivity | left; reflexivity].
    - destruct (qs parent ".video-container") as [a|] eqn:Ha.
      { exists a. cbn. split; [reflexivity|]. split.
        - intro Hn. rewrite Hn in Ha. discriminate Ha.
        - right. eexists. exact Ha. }
      destruct (qs parent ("[data-container=" ++ quoted "video" ++ "]")) as [b|] eqn:Hb.
      { exists b. cbn [or_else]. split; [reflexivity|]. split.
        - intro Hn. rewrite Hn in Hb. discriminate Hb.
        - right. eexists. exact Hb. }
      destruct (qs parent ".scanner-video-container") as [c|] eqn:Hcq.
      { exists c. cbn [or_else]. split; [reflexivity|]. split.
        - intro Hn. rewrite Hn in Hcq. discriminate Hcq.
        - right. eexists. exact Hcq. }
      exists (V2.HtmlElement parent). cbn [or_else].
      split; [reflexivity|]. split; [reflexivity | left; reflexivity]. }
  destruct Hdet as (target & Hdet & Hnone & Hfrom).
  exists target. split; [exact Hdet|]. split; [exact Hnone|]. split; [exact Hfrom|].
  unfold V2.startWithContainer. rewrite Hdet.
  destruct target as [t|x]; cbn [V2.asContainer].
  2:{ cbn [V2.start]. split; [eexists; reflexivity|]. repeat split. }
  destruct (start_on_element_returns_or_waits env t s w) as [(r & s' & w' & Hrun) | (s' & w' & Hrun)];
    rewrite Hrun.
  - exists t. split; [reflexivity|]. split; [exact Hrun|]. split; reflexivity.
  - exists t. split; [reflexivity | exact Hrun].
Qed.
